(** * SynopticPy [synoptic/services.py]: the observation normalization engine

    A shallow embedding of the request-parameter normalizer, the wind
    decomposer, the set/value disambiguator, the two table builders and
    the service functions that call the engine in [synoptic/services.py],
    followed by the properties established about them.

    Conventions of the embedding:
    - Python [str] is [string], read as ASCII text: [lower] and
      [isnumeric] are defined on the characters below 128 and keep or
      reject the others; a [dict] is an association list that keeps
      insertion order and has unique keys ([dict_set] overwrites in place);
    - Python and numpy floats are binary64 [float]s (primitive floats);
      a missing observation in a numeric column is [nan]; the quotient of
      two durations is formed on [spec_float], the specification that the
      primitive floats implement, so that its rounding can be reasoned
      about;
    - code that can raise returns a [result]; code that also warns or prints
      runs in the monad [M], which threads the list of emitted [event]s;
    - functions of pandas, numpy, requests and urllib whose behaviour is not
      determined by this repository (text parsing, trigonometry, the HTTP
      call) are variables of the section [Services]. *)

From Stdlib Require Import String Ascii List Bool Arith ZArith Lia Floats.
From Stdlib Require Import Permutation Sorted.
Import ListNotations.

Set Implicit Arguments.

(* ================================================================== *)
(** ** Python strings *)

Module PyStr.

Local Open Scope string_scope.

(** [v.startswith(p)] *)
Definition startswith (v p : string) : bool := String.prefix p v.

(** [m in v] for two strings: [m] occurs somewhere in [v]. *)
Fixpoint contains (m v : string) : bool :=
  String.prefix m v ||
  match v with
  | EmptyString => false
  | String _ v' => contains m v'
  end.

(** [v.split(c)] for a one-character separator [c]: never empty. *)
Fixpoint split (c : ascii) (v : string) : list string :=
  match v with
  | EmptyString => [EmptyString]
  | String a v' =>
      if Ascii.eqb a c then EmptyString :: split c v'
      else match split c v' with
           | [] => [String a EmptyString]
           | h :: t => String a h :: t
           end
  end.

(** [sep.join(l)] *)
Fixpoint join (sep : string) (l : list string) : string :=
  match l with
  | [] => EmptyString
  | [x] => x
  | x :: rest => x ++ sep ++ join sep rest
  end.

(** [l[:-2]] *)
Definition but_last2 {A} (l : list A) : list A := firstn (length l - 2) l.

(** [l[-2:]] *)
Definition last2 {A} (l : list A) : list A := skipn (length l - 2) l.

(** [v.find(m)]: index of the first occurrence of [m] in [v], or [-1]. *)
Fixpoint find_from (m v : string) (i : Z) : Z :=
  if String.prefix m v then i
  else match v with
       | EmptyString => (-1)%Z
       | String _ v' => find_from m v' (i + 1)%Z
       end.
Definition find (v m : string) : Z := find_from m v 0%Z.

(** [v[i:j]] with Python's treatment of negative and overlong bounds. *)
Definition slice (v : string) (i j : Z) : string :=
  let n := Z.of_nat (String.length v) in
  let clamp k := Z.min n (Z.max 0 (if (k <? 0)%Z then k + n else k))%Z in
  let lo := clamp i in
  let hi := clamp j in
  String.substring (Z.to_nat lo) (Z.to_nat (hi - lo)) v.

(** [v.replace(old, new)]: every non-overlapping occurrence, left to
    right; an empty [old] matches before every character and at the
    end. *)
Fixpoint drop (n : nat) (v : string) : string :=
  match n, v with
  | O, _ => v
  | S n', String _ v' => drop n' v'
  | S _, EmptyString => EmptyString
  end.

Fixpoint replace_fuel (fuel : nat) (old new v : string) : string :=
  match fuel with
  | O => v
  | S fuel' =>
      match v with
      | EmptyString => if String.prefix old v then new else EmptyString
      | String a v' =>
          if String.prefix old v then
            match old with
            | EmptyString => new ++ String a (replace_fuel fuel' old new v')
            | _ => new ++ replace_fuel fuel' old new (drop (String.length old) v)
            end
          else String a (replace_fuel fuel' old new v')
      end
  end.
Definition replace (v old new : string) : string :=
  replace_fuel (S (String.length v)) old new v.

(** [c.lower()] and [v.lower()] on ASCII text: the letters [A]-[Z] are
    mapped to [a]-[z] and every other character is kept.  Parameter names
    of the API are ASCII; for letters outside ASCII Python's [str.lower]
    follows the Unicode case tables, which are not part of the embedding. *)
Definition lower_ascii (c : ascii) : ascii :=
  let n := nat_of_ascii c in
  if (Nat.leb 65 n) && (Nat.leb n 90) then ascii_of_nat (n + 32) else c.
Fixpoint lower (v : string) : string :=
  match v with
  | EmptyString => EmptyString
  | String a v' => String (lower_ascii a) (lower v')
  end.

(** [v.isnumeric()] restricted to ASCII text: non-empty, digits only. *)
Definition is_digit (c : ascii) : bool :=
  let n := nat_of_ascii c in (Nat.leb 48 n) && (Nat.leb n 57).
Fixpoint all_digits (v : string) : bool :=
  match v with
  | EmptyString => true
  | String a v' => is_digit a && all_digits v'
  end.
Definition isnumeric (v : string) : bool :=
  match v with EmptyString => false | _ => all_digits v end.

(** Lexicographic [<=] on strings, as used by sorting labels. *)
Fixpoint leb (a b : string) : bool :=
  match a, b with
  | EmptyString, _ => true
  | String _ _, EmptyString => false
  | String x a', String y b' =>
      if Nat.ltb (nat_of_ascii x) (nat_of_ascii y) then true
      else if Nat.ltb (nat_of_ascii y) (nat_of_ascii x) then false
      else leb a' b'
  end.

(** [str(n)] for a Python [int]. *)
Fixpoint digits_fuel (fuel : nat) (n : nat) (acc : string) : string :=
  match fuel with
  | O => acc
  | S fuel' =>
      let d := String (ascii_of_nat (48 + n mod 10)) acc in
      if Nat.ltb n 10 then d else digits_fuel fuel' (n / 10) d
  end.
Definition of_nat (n : nat) : string := digits_fuel (S n) n EmptyString.
Definition of_Z (z : Z) : string :=
  if (z <? 0)%Z then String "-"%char (of_nat (Z.to_nat (- z)))
  else of_nat (Z.to_nat z).

(** [f"{n:0{w}d}"] for a natural number: decimal, zero-padded to [w]. *)
Fixpoint zeros (k : nat) : string :=
  match k with O => EmptyString | S k' => String "0"%char (zeros k') end.
Definition pad0 (w n : nat) : string :=
  let s := of_nat n in zeros (w - String.length s) ++ s.

End PyStr.

(* ================================================================== *)
(** ** Python dictionaries *)

Section Dict.
Context {V : Type}.

Definition dict := list (string * V).

Fixpoint dict_get (d : dict) (k : string) : option V :=
  match d with
  | [] => None
  | (k', v) :: d' => if String.eqb k' k then Some v else dict_get d' k
  end.

(** [d[k] = v] *)
Fixpoint dict_set (d : dict) (k : string) (v : V) : dict :=
  match d with
  | [] => [(k, v)]
  | (k', v') :: d' =>
      if String.eqb k' k then (k', v) :: d' else (k', v') :: dict_set d' k v
  end.

(** [k in d] *)
Definition dict_mem (d : dict) (k : string) : bool :=
  match dict_get d k with Some _ => true | None => false end.

(** [d.keys()] *)
Definition dict_keys (d : dict) : list string := map fst d.

(** [d.pop(k)] when [k] is present. *)
Fixpoint dict_remove (d : dict) (k : string) : dict :=
  match d with
  | [] => []
  | (k', v) :: d' =>
      if String.eqb k' k then d' else (k', v) :: dict_remove d' k
  end.

(** [{**d1, **d2}] *)
Definition dict_merge (d1 d2 : dict) : dict :=
  fold_left (fun acc kv => dict_set acc (fst kv) (snd kv)) d2 d1.

End Dict.
Arguments dict : clear implicits.

(* ================================================================== *)
(** ** numpy helpers used by the disambiguator *)

(** [np.where(bools)[0]]: the positions holding [True], ascending. *)
Fixpoint np_where_from (i : nat) (bs : list bool) : list nat :=
  match bs with
  | [] => []
  | b :: bs' => if b then i :: np_where_from (S i) bs' else np_where_from (S i) bs'
  end.
Definition np_where (bs : list bool) : list nat := np_where_from 0 bs.

(** [np.argmax(l)]: position of the first maximal element.  The scan keeps
    the current best element and replaces it only by a strictly greater
    one. *)
Fixpoint argmax_scan {Sc : Type} (gt : Sc -> Sc -> bool)
         (best : Sc) (best_i i : nat) (l : list Sc) : nat :=
  match l with
  | [] => best_i
  | x :: l' =>
      if gt x best then argmax_scan gt x i (S i) l'
      else argmax_scan gt best best_i (S i) l'
  end.
Definition np_argmax {Sc : Type} (gt : Sc -> Sc -> bool) (l : list Sc) : nat :=
  match l with
  | [] => 0
  | x :: l' => argmax_scan gt x 0 1 l'
  end.

(* ================================================================== *)
(** ** Set/value disambiguator: [_rename_set_1] and [_rename_value_1]

    The two source functions share their text up to the marker
    (["_set_1"] or ["_value_1"]) and the score that breaks ties (the count
    of non-missing observations of a column, or the timestamp of a row).
    [rename_loop] is that shared text. *)

Section Disambiguator.
Local Open Scope string_scope.
Variable marker : string.
Variable Score : Type.
Variable gt : Score -> Score -> bool.
Variable no_score : Score.

(** ["_".join(v.split("_")[:-2]) if marker in v else v] *)
Definition strip_marker (v : string) : string :=
  if PyStr.contains marker v
  then PyStr.join "_" (PyStr.but_last2 (PyStr.split "_"%char v))
  else v.

(** [var_idx]: positions of the labels that start with [name + marker]. *)
Definition var_idx (labels : list string) (name : string) : list nat :=
  np_where (map (fun v => PyStr.startswith v (name ++ marker)) labels).

(** The value stored in [renames] for position [i], i.e. the body of the
    [for i, name in enumerate(var_names)] loop. *)
Definition rename_target (labels : list string) (scores : list Score)
           (i : nat) : string :=
  let var_names := map strip_marker labels in
  let name := nth i var_names "" in
  let idx := var_idx labels name in
  match idx with
  | [] => nth i labels ""
  | [j] => nth j var_names ""
  | _ =>
      let max_idx :=
        nth (np_argmax gt (map (fun k => nth k scores no_score) idx)) idx 0 in
      if Nat.eqb max_idx i then nth max_idx var_names ""
      else nth i labels ""
  end.

(** The dictionary [renames] after the loop. *)
Definition rename_loop (labels : list string) (scores : list Score)
  : dict string :=
  fold_left
    (fun renames i => dict_set renames (nth i labels "") (rename_target labels scores i))
    (seq 0 (length labels)) [].

(** [df.rename(columns=renames)] / [df.rename(index=renames)] on one
    label: labels absent from the mapping are kept. *)
Definition apply_renames (renames : dict string) (label : string) : string :=
  match dict_get renames label with
  | Some new => new
  | None => label
  end.

End Disambiguator.

(** Series form: a time-indexed table.  [df_columns] holds the labelled
    columns in order; every column has one cell per entry of [df_index]. *)
Record DataFrame := {
  df_index : list Z;
  df_columns : list (string * list float);
  df_RENAMED : option (dict string)
}.

Definition is_nan (x : float) : bool := negb (PrimFloat.eqb x x).

(** [df.count()]: non-missing cells of each column. *)
Definition df_count (df : DataFrame) : list nat :=
  map (fun c => length (filter (fun x => negb (is_nan x)) (snd c))) (df_columns df).

(** [a > b] on observation counts. *)
Definition count_gt (a b : nat) : bool := Nat.ltb b a.

Definition _rename_set_1 (df : DataFrame) : DataFrame :=
  let dummy_columns := map fst (df_columns df) in
  let obs_count := df_count df in
  let renames := rename_loop "_set_1" count_gt 0 dummy_columns obs_count in
  {| df_index := df_index df;
     df_columns := map (fun c => (apply_renames renames (fst c), snd c)) (df_columns df);
     df_RENAMED := Some renames |}.

(** Snapshot form: one row per variable or metadata field with the two
    columns [date_time] and [value].  [date_time] is [None] for [NaT]. *)
Record SnapRow (V : Type) := {
  row_label : string;
  row_date_time : option Z;
  row_value : V
}.

Record SnapFrame (V : Type) := {
  sf_rows : list (SnapRow V);
  sf_RENAMED : option (dict string)
}.

(** [a > b] on pandas timestamps: every comparison with [NaT] is false. *)
Definition timestamp_gt (a b : option Z) : bool :=
  match a, b with
  | Some x, Some y => (y <? x)%Z
  | _, _ => false
  end.

Definition _rename_value_1 {V} (df : SnapFrame V) : SnapFrame V :=
  let dummy_rows := map (@row_label V) (sf_rows df) in
  let date_time := map (@row_date_time V) (sf_rows df) in
  let renames := rename_loop "_value_1" timestamp_gt None dummy_rows date_time in
  {| sf_rows :=
       map (fun r => {| row_label := apply_renames renames (row_label r);
                        row_date_time := row_date_time r;
                        row_value := row_value r |}) (sf_rows df);
     sf_RENAMED := Some renames |}.

(* ================================================================== *)
(** ** Exceptions, results and the effect monad *)

Inductive exn :=
| AssertionError (msg : string)
| ValueError (msg : string)
| TypeError (msg : string)
| KeyError (key : string)
| IndexError (msg : string)
| OverflowError (msg : string).

Inductive result (A : Type) :=
| Ok (a : A)
| Raise (e : exn).
Arguments Ok {A} a.
Arguments Raise {A} e.

Definition rbind {A B} (c : result A) (k : A -> result B) : result B :=
  match c with
  | Ok a => k a
  | Raise e => Raise e
  end.

(** What the engine writes besides its return value. *)
Inductive event :=
| Warning (msg : string)    (* [warnings.warn(msg)] *)
| Printed (msg : string).   (* [print(msg)] *)

Definition M (A : Type) : Type := list event -> result A * list event.

Definition ret {A} (a : A) : M A := fun log => (Ok a, log).
Definition bind {A B} (c : M A) (k : A -> M B) : M B :=
  fun log =>
    match c log with
    | (Ok a, log') => k a log'
    | (Raise e, log') => (Raise e, log')
    end.
Definition raise {A} (e : exn) : M A := fun log => (Raise e, log).
Definition warnings_warn (msg : string) : M unit := fun log => (Ok tt, log ++ [Warning msg]).
Definition py_print (msg : string) : M unit := fun log => (Ok tt, log ++ [Printed msg]).
Definition lift {A} (r : result A) : M A := fun log => (r, log).
Definition py_assert (b : bool) (msg : string) : M unit :=
  if b then ret tt else raise (AssertionError msg).
Definition when (b : bool) (c : M unit) : M unit := if b then c else ret tt.

Declare Scope py_scope.
Delimit Scope py_scope with py.
Notation "'let?' x := c 'in' k" := (rbind c (fun x => k))
  (at level 10, x pattern, c at level 100, k at level 200) : py_scope.
Notation "'do' x <- c ; k" := (bind c (fun x => k))
  (at level 10, x pattern, c at level 100, k at level 200) : py_scope.
Notation "'exec' c ; k" := (bind c (fun _ => k))
  (at level 10, c at level 100, k at level 200) : py_scope.

(** [for x in l: body] with a loop-carried state. *)
Fixpoint for_each {A St} (l : list A) (body : A -> St -> M St) (st : St) : M St :=
  match l with
  | [] => ret st
  | x :: l' => bind (body x st) (for_each l' body)
  end.

(* ================================================================== *)
(** ** Python values that travel through the engine *)

(** The calendar fields that the normalizer formats. *)
Record datetime := {
  year : nat; month : nat; day : nat; hour : nat; minute : nat
}.

#[warnings="-register-all"] Inductive pyval :=
| PNone
| PInt (n : Z)
| PFloat (x : float)
| PStr (s : string)
| PList (l : list pyval)
| PDict (d : list (string * pyval))
| PDatetime (t : datetime)    (* [datetime.datetime], [pandas.Timestamp] *)
| PTimedelta (ns : Z).        (* [datetime.timedelta], [pandas.Timedelta], in nanoseconds *)

Definition isinstance_str (v : pyval) : bool :=
  match v with PStr _ => true | _ => false end.

(** [hasattr(v, "__len__")] *)
Definition has_len (v : pyval) : bool :=
  match v with PStr _ | PList _ | PDict _ => true | _ => false end.

(** The items that [for i in v] visits: the elements of a list, the keys
    of a dictionary, the characters of a string. *)
Definition py_iter (v : pyval) : list pyval :=
  match v with
  | PList l => l
  | PDict d => map (fun kv => PStr (fst kv)) d
  | PStr s => map (fun c => PStr (String c EmptyString)) (list_ascii_of_string s)
  | _ => []
  end.

(** [f"{t:%Y%m%d%H%M}"] and [f"{t:%Y%m%d}"] on a datetime.  The C
    library's [strftime] writes [%Y] as the plain decimal year, without
    padding, and the other fields on two digits. *)
Definition strftime_YmdHM (t : datetime) : string :=
  (PyStr.of_nat (year t) ++ PyStr.pad0 2 (month t) ++ PyStr.pad0 2 (day t)
   ++ PyStr.pad0 2 (hour t) ++ PyStr.pad0 2 (minute t))%string.
Definition strftime_Ymd (t : datetime) : string :=
  (PyStr.of_nat (year t) ++ PyStr.pad0 2 (month t) ++ PyStr.pad0 2 (day t))%string.

(** [format(v, spec)] for a [strftime]-style [spec]: only datetimes accept
    such a specification; [str], [int] and [float] reject it with
    [ValueError], every other type with [TypeError]. *)
Definition format_strftime (strftime : datetime -> string) (v : pyval)
  : result string :=
  match v with
  | PDatetime t => Ok (strftime t)
  | PStr _ | PInt _ | PFloat _ => Raise (ValueError "Invalid format specifier")
  | PNone | PList _ | PDict _ | PTimedelta _ =>
      Raise (TypeError "unsupported format string passed to __format__")
  end.

(** Nanoseconds in one minute, [timedelta(minutes=1)]. *)
Definition minute_ns : Z := 60000000000.

(** [timedelta(minutes=n)] for an [int]; [OverflowError] beyond
    999999999 days. *)
Definition timedelta_of_int_minutes (n : Z) : result pyval :=
  let days := (n / 1440)%Z in
  if ((-999999999 <=? days) && (days <=? 999999999))%Z
  then Ok (PTimedelta (n * minute_ns))
  else Raise (OverflowError "days must have magnitude <= 999999999").

(** [float(z)] for an integer: the nearest binary64, ties to even. *)
Definition float_of_int (z : Z) : spec_float :=
  binary_normalize prec emax z 0 false.

(** [np.ceil(x).astype(int)]: the least integer not below [x]; the
    conversion of an infinity or of [nan] gives the least 64-bit integer. *)
Definition float_ceil (x : spec_float) : Z :=
  match x with
  | S754_zero _ => 0
  | S754_finite s m e =>
      let v := if s then Zneg m else Zpos m in
      if 0 <=? e then v * 2 ^ e else - ((- v) / 2 ^ (- e))
  | S754_infinity _ | S754_nan => - 2 ^ 63
  end%Z.

(** [np.ceil(td / timedelta(minutes=1)).astype(int)] on a duration of [ns]
    nanoseconds.  pandas divides [float(td.value)] by the nanoseconds of the
    divisor in binary64, and the quotient is rounded to the nearest binary64
    before [np.ceil] sees it. *)
Definition ceil_minutes (ns : Z) : Z :=
  float_ceil (SFdiv prec emax (float_of_int ns) (float_of_int minute_ns)).

(** [np.ceil(v / timedelta(minutes=1)).astype(int)]: only durations can be
    divided by a [timedelta]. *)
Definition to_minutes (v : pyval) : result pyval :=
  match v with
  | PTimedelta ns => Ok (PInt (ceil_minutes ns))
  | _ => Raise (TypeError "unsupported operand type(s) for /")
  end.

(** The response of [requests.get]: its final [url] and, from its JSON
    body, [SUMMARY["RESPONSE_CODE"]] and [SUMMARY["RESPONSE_MESSAGE"]]. *)
Record Response := {
  resp_url : string;
  RESPONSE_CODE : Z;
  RESPONSE_MESSAGE : string
}.

(** Available API services. *)
Definition _stations : list string :=
  ["metadata"; "timeseries"; "precipitation"; "nearesttime"; "latest"]%string.
Definition _service : list string :=
  app ["auth"; "networks"; "networktypes"; "variables"; "qctypes"]%string _stations.

Definition str_in (x : string) (l : list string) : bool :=
  existsb (String.eqb x) l.

(** A JSON observation: a number or [null]. *)
Abbreviation cell := (option float).

(** Arguments and results of [spddir_to_uv]: a pair of scalars or a pair
    of lists (the two shapes its callers pass). *)
Inductive wind_input :=
| WScalars (wspd wdir : cell)
| WLists (wspd wdir : list cell).

Inductive wind_output :=
| UVScalars (u v : float)
| UVArrays (u v : list float).

(** [np.array(l, dtype=float)]: [None] becomes [nan]. *)
Definition np_array (l : list cell) : list float :=
  map (fun c => match c with Some x => x | None => nan end) l.

Fixpoint zip_with {A B C} (f : A -> B -> C) (a : list A) (b : list B) : list C :=
  match a, b with
  | x :: a', y :: b' => f x y :: zip_with f a' b'
  | _, _ => []
  end.

(** Element-wise binary operation on one-dimensional arrays with numpy's
    broadcasting: equal lengths, or one side of length one. *)
Definition broadcast2 (f : float -> float -> float) (a b : list float)
  : result (list float) :=
  if Nat.eqb (length a) (length b) then Ok (zip_with f a b)
  else match a, b with
       | [x], _ => Ok (map (f x) b)
       | _, [y] => Ok (map (fun x => f x y) a)
       | _, _ => Raise (ValueError "operands could not be broadcast together")
       end.

(** [u[idx] = 0] for an index array [idx]. *)
Fixpoint set_at (i : nat) (x : float) (u : list float) : list float :=
  match u, i with
  | [], _ => []
  | _ :: u', O => x :: u'
  | y :: u', S i' => y :: set_at i' x u'
  end.
Definition assign_zero (idx : list nat) (u : list float) : result (list float) :=
  if forallb (fun i => Nat.ltb i (length u)) idx
  then Ok (fold_left (fun acc i => set_at i 0%float acc) idx u)
  else Raise (IndexError "index out of bounds").

(** binary64 round-half-even to an integral value (C [rint]). *)
Definition two52 : float := 0x1p52%float.
Definition np_rint (x : float) : float :=
  if (abs x <? two52)%float then
    let r := ((abs x + two52) - two52)%float in
    if get_sign x then (- r)%float else r
  else x.

(** [np.round(x, 3)]: scale by [10**3], [rint], scale back. *)
Definition np_round3 (x : float) : float :=
  (np_rint (x * 1000) / 1000)%float.

(** [np.arctan(1)], the binary64 nearest to pi/4. *)
Definition arctan_1 : float := 0x1.921fb54442d18p-1%float.

(** [rad = 4.0 * np.arctan(1) / 180.0] *)
Definition rad : float := (4.0 * arctan_1 / 180.0)%float.

(** Time-series payload: one station. *)
Record StationSeries := {
  st_fields : dict pyval;              (* STID, ELEVATION, LATITUDE, ... *)
  st_date_time : list string;          (* OBSERVATIONS["date_time"] *)
  st_obs : dict (list cell);           (* the other keys of OBSERVATIONS *)
  st_SENSOR_VARIABLES : dict (dict pyval)
}.

Record SeriesData := {
  sd_STATION : list StationSeries;
  sd_UNITS : dict string;
  sd_other : dict pyval                (* SUMMARY, QC_SUMMARY, ... *)
}.

(** A table of the series form with its side metadata. *)
Record SeriesTable := {
  tb_frame : DataFrame;
  tb_attrs : dict pyval;
  tb_UNITS : dict string;
  tb_SENSOR_VARIABLES : dict (dict pyval);
  tb_params : dict pyval;
  tb_service : string
}.

(** What [stations_timeseries] returns: [Z[0]] or [Z]. *)
Inductive series_return :=
| OneTable (df : SeriesTable)
| TableList (Z : list SeriesTable).

(** Snapshot payload: one slot [{"date_time": ..., "value": ...}] and one
    station. *)
Record SlotObs := {
  so_date_time : string;
  so_value : cell
}.

Record StationSnapshot := {
  sn_fields : dict pyval;              (* includes STID and SENSOR_VARIABLES *)
  sn_obs : dict SlotObs;               (* OBSERVATIONS *)
  sn_SENSOR_VARIABLES : dict (dict pyval)
}.

(** A value cell of the snapshot frame. *)
Inductive snap_value :=
| SVMissing
| SVFloat (x : float)
| SVOther (v : pyval).

(** The snapshot frame before its [date_time] row is parsed: the columns
    of the source's [df], each [[date_time, value]]. *)
Definition RawColumn : Type := option string * snap_value.

(** Stable insertion sort by label, for [sort_values] / [sort_index]. *)
Fixpoint insert_by {A} (key : A -> string) (x : A) (l : list A) : list A :=
  match l with
  | [] => [x]
  | y :: l' =>
      if PyStr.leb (key x) (key y) then x :: l
      else y :: insert_by key x l'
  end.
Definition sort_by {A} (key : A -> string) (l : list A) : list A :=
  fold_right (insert_by key) [] l.

(** [len(l) != len(set(l))] *)
Definition has_duplicates (l : list string) : bool :=
  negb (Nat.eqb (length l) (length (nodup string_dec l))).

(** [df.dropna(how="all")]: keep the rows holding a non-missing cell. *)
Definition row_has_value (cols : list (string * list float)) (r : nat) : bool :=
  existsb (fun c => negb (is_nan (nth r (snd c) nan))) cols.
Definition keep_rows {A} (keep : nat -> bool) (l : list A) : list A :=
  map snd (filter (fun p => keep (fst p)) (combine (seq 0 (length l)) l)).
Definition dropna_all (df : DataFrame) : DataFrame :=
  let keep := row_has_value (df_columns df) in
  {| df_index := keep_rows keep (df_index df);
     df_columns := map (fun c => (fst c, keep_rows keep (snd c))) (df_columns df);
     df_RENAMED := df_RENAMED df |}.

(** [this_set = "_".join(i_spd.split("_")[-2:])] *)
Definition this_set (i_spd : string) : string :=
  PyStr.join "_" (PyStr.last2 (PyStr.split "_"%char i_spd)).

(** [d[k]] *)
Definition dict_item {V} (d : dict V) (k : string) : result V :=
  match dict_get d k with
  | Some v => Ok v
  | None => Raise (KeyError k)
  end.

(* ================================================================== *)
(** ** The engine *)

Section Services.
Local Open Scope string_scope.
Local Open Scope py_scope.

(** numpy's sine and cosine on binary64. *)
Variable np_sin np_cos : float -> float.
(** [str(v)] for values other than [str], [int] and [None]. *)
Variable py_repr : pyval -> string.
(** [pd.to_datetime(v)] and [pd.to_timedelta(v)]; [None] when they raise. *)
Variable pd_to_datetime : pyval -> option pyval.
Variable pd_to_timedelta : pyval -> option pyval.
(** [timedelta(minutes=x)] for a [float]. *)
Variable timedelta_of_float_minutes : float -> result pyval.
(** [config["default"].get("token")] *)
Variable config_token : pyval.
(** [requests.get(URL, params)] and [urllib.parse.unquote]. *)
Variable requests_get : string -> dict pyval -> Response.
Variable urllib_unquote : string -> string.
(** [pd.to_datetime] on the index of a series table and on one
    [date_time] text of a snapshot; [None] when it raises. *)
Variable pd_to_datetime_index : list string -> option (list Z).
Variable pd_timestamp : string -> option Z.
(** [float(s)] narrowed to [int] when [n.is_integer()], and [float(v)];
    [None] when [float] raises. *)
Variable py_number : string -> option pyval.
Variable py_float : pyval -> option float.

(* ---------------------------------------------------------------- *)
(** *** Wind decomposer *)

Definition u_of (wspd wdir : float) : float := (- wspd * np_sin (rad * wdir))%float.
Definition v_of (wspd wdir : float) : float := (- wspd * np_cos (rad * wdir))%float.

Definition spddir_to_uv (arg : wind_input) : result wind_output :=
  match arg with
  | WLists wspd wdir =>
      (* isinstance(wspd, list) or isinstance(wdir, list) *)
      let wspd := np_array wspd in
      let wdir := np_array wdir in
      let? u := broadcast2 u_of wspd wdir in
      let? v := broadcast2 v_of wspd wdir in
      (* hasattr(u, "__len__") *)
      let where_zero := np_where (map (fun s => (s =? 0)%float) wspd) in
      let? u := assign_zero where_zero u in
      let? v := assign_zero where_zero v in
      Ok (UVArrays (map np_round3 u) (map np_round3 v))
  | WScalars (Some wspd) (Some wdir) =>
      let u := u_of wspd wdir in
      let v := v_of wspd wdir in
      if (wspd =? 0)%float
      then Ok (UVScalars (np_round3 0) (np_round3 0))
      else Ok (UVScalars (np_round3 u) (np_round3 v))
  | WScalars None _ =>
      Raise (TypeError "bad operand type for unary -: 'NoneType'")
  | WScalars (Some _) None =>
      Raise (TypeError "unsupported operand type(s) for *: 'float' and 'NoneType'")
  end.

(* ---------------------------------------------------------------- *)
(** *** Parameter normalizer: the [## Set API token] and
    [## Parse parameters] parts of [synoptic_api] *)

(** [str(v)] *)
Definition py_str (v : pyval) : string :=
  match v with
  | PStr s => s
  | PInt n => PyStr.of_Z n
  | PNone => "None"
  | _ => py_repr v
  end.

(** [params.setdefault("token", config["default"].get("token"))] *)
Definition set_default_token (params : dict pyval) : dict pyval :=
  if dict_mem params "token" then params
  else dict_set params "token" config_token.

(** 1) [{k.lower(): v for k, v in params.items()}] *)
Definition lower_keys (params : dict pyval) : dict pyval :=
  fold_left (fun acc kv => dict_set acc (PyStr.lower (fst kv)) (snd kv)) params [].

(** 2) lists become comma separated strings, except under [obrange]. *)
Definition join_list_value (kv : string * pyval) : string * pyval :=
  match snd kv with
  | PList value =>
      if negb (str_in (fst kv) ["obrange"])
      then (fst kv, PStr (PyStr.join "," (map py_str value)))
      else kv
  | _ => kv
  end.
Definition join_lists (params : dict pyval) : dict pyval :=
  map join_list_value params.

(** [f"{date[:8]} {date[8:]}"] when [date] is a numeric string of at
    least eight characters. *)
Definition pad_compact_date (date : pyval) : pyval :=
  match date with
  | PStr s =>
      if Nat.leb 8 (String.length s) && PyStr.isnumeric s
      then PStr (String.substring 0 8 s ++ " " ++ PyStr.drop 8 s)
      else date
  | _ => date
  end.

(** 3) one iteration of [for i in ["start", "end", "expire", "attime"]]. *)
Definition normalize_datetime (i : string) (params : dict pyval)
  : M (dict pyval) :=
  match dict_get params i with
  | None => ret params
  | Some date =>
      let date := pad_compact_date date in
      do params <-
        match pd_to_datetime date with
        | Some t => ret (dict_set params i t)
        | None =>
            exec warnings_warn ("🐼 Pandas could not parse [" ++ i ++ "=" ++ py_str date
                       ++ "] as a datetime.") ;
            ret params
        end ;
      do v <- lift (dict_item params i) ;
      do s <- lift (format_strftime strftime_YmdHM v) ;
      ret (dict_set params i (PStr s))
  end.

Fixpoint map_result {A B} (f : A -> result B) (l : list A) : result (list B) :=
  match l with
  | [] => Ok []
  | x :: l' =>
      let? y := f x in
      let? ys := map_result f l' in
      Ok (y :: ys)
  end.

(** 4) [obrange]: one date or a sequence of dates, each as [YYYYmmdd]. *)
Definition normalize_obrange (params : dict pyval) : M (dict pyval) :=
  match dict_get params "obrange" with
  | None => ret params
  | Some v =>
      if isinstance_str v then ret params
      else
        let v := if negb (has_len v) then PList [v] else v in
        do parts <- lift (map_result (format_strftime strftime_Ymd) (py_iter v)) ;
        ret (dict_set params "obrange" (PStr (PyStr.join "," parts)))
  end.

(** 5) one iteration of [for i in ["recent", "within"]]. *)
Definition normalize_duration (verbose : bool) (i : string) (params : dict pyval)
  : M (dict pyval) :=
  match dict_get params i with
  | None => ret params
  | Some dt =>
      do dt <-
        match dt with
        | PInt n => lift (timedelta_of_int_minutes n)
        | PFloat x => lift (timedelta_of_float_minutes x)
        | _ => ret dt
        end ;
      do params <-
        match pd_to_timedelta dt with
        | Some td => ret (dict_set params i td)
        | None =>
            exec warnings_warn ("🐼 Pandas could not parse [" ++ i ++ "=" ++ py_str dt
                       ++ "] as a timedelta.") ;
            ret params
        end ;
      do v <- lift (dict_item params i) ;
      do minutes <- lift (to_minutes v) ;
      let params := dict_set params i minutes in
      exec when verbose
           (py_print ("Checking for data " ++ i ++ "=" ++ py_str minutes ++ " minutes.")) ;
      ret params
  end.

Definition datetime_keys : list string := ["start"; "end"; "expire"; "attime"].
Definition duration_keys : list string := ["recent"; "within"].

(** The token default and steps 1) to 4). *)
Definition normalize_instants (params : dict pyval) : M (dict pyval) :=
  let params := set_default_token params in
  let params := lower_keys params in
  let params := join_lists params in
  do params <- for_each datetime_keys normalize_datetime params ;
  normalize_obrange params.

Definition normalize_params (verbose : bool) (params : dict pyval)
  : M (dict pyval) :=
  do params <- normalize_instants params ;
  for_each duration_keys (normalize_duration verbose) params.

(** The duration, in nanoseconds, that step 5) resolves a value to: the
    minutes of an [int] or [float], or what [pd.to_timedelta] makes of
    any other value; [None] when a conversion raises or the outcome is
    not a duration. *)
Definition as_timedelta (v : pyval) : option Z :=
  match pd_to_timedelta v with
  | Some (PTimedelta ns) => Some ns
  | _ => None
  end.
Definition duration_of (dt : pyval) : option Z :=
  match dt with
  | PInt n =>
      match timedelta_of_int_minutes n with
      | Ok td => as_timedelta td
      | Raise _ => None
      end
  | PFloat x =>
      match timedelta_of_float_minutes x with
      | Ok td => as_timedelta td
      | Raise _ => None
      end
  | _ => as_timedelta dt
  end.

(* ---------------------------------------------------------------- *)
(** *** [synoptic_api] *)

Definition newline : string := String (ascii_of_nat 10) EmptyString.

(** The text printed for the set [_service]; Python does not fix the
    order in which it prints a set. *)
Definition service_names : string := "{" ++ PyStr.join ", " _service ++ "}".

(** The redaction applied when [hide_token] is set. *)
Definition redact_token (decode_url : string) : string :=
  let token_idx := PyStr.find decode_url "token=" in
  PyStr.replace decode_url
                (PyStr.slice decode_url token_idx (token_idx + 6 + 32))
                "token=🙈HIDDEN".

Definition api_error_message (decode_url msg : string) : string :=
  "🛑 There are errors in the API request " ++ decode_url ++ ". " ++ msg.

(** [## Service URL] *)
Definition service_url (service : string) : string :=
  let root := "https://api.synopticdata.com/v2" in
  if str_in service _stations then root ++ "/stations/" ++ service
  else root ++ "/" ++ service.

Definition synoptic_api (service : string) (verbose hide_token : bool)
           (params : dict pyval) : M Response :=
  let help_url := "https://developers.synopticdata.com/mesonet/v2/" in
  exec py_assert (str_in service _service)
       ("`service` must be one of " ++ service_names
        ++ ". See API documentation " ++ help_url) ;
  let URL := service_url service in
  do params <- normalize_params verbose params ;
  let f := requests_get URL params in
  if String.eqb service "auth" then ret f
  else
    let code := RESPONSE_CODE f in
    let msg := RESPONSE_MESSAGE f in
    let decode_url := urllib_unquote (resp_url f) in
    exec py_assert (Z.eqb code 1) (api_error_message decode_url msg) ;
    exec when verbose
         (let decode_url :=
            if hide_token then redact_token decode_url else decode_url in
          py_print (newline ++ " 🚚💨 Speedy Delivery from Synoptic API [" ++ service
                    ++ "]: " ++ decode_url ++ newline)) ;
    ret f.

(* ---------------------------------------------------------------- *)
(** *** Wind vector columns, shared by the two table builders *)

(** [zip(senvars["wind_speed"].keys(), senvars["wind_direction"].keys())]
    under [all(k in senvars for k in ["wind_speed", "wind_direction"])]. *)
Definition wind_pairs (senvars : dict (dict pyval)) : list (string * string) :=
  match dict_get senvars "wind_speed", dict_get senvars "wind_direction" with
  | Some spd, Some dir => combine (dict_keys spd) (dict_keys dir)
  | _, _ => []
  end.

(* ---------------------------------------------------------------- *)
(** *** Table builder, time-series form: [stations_timeseries] from
    [# Build a separate pandas.DataFrame for each station.] on *)

(** [pd.DataFrame(obs).set_index("date_time")] with the index parsed by
    [pd.to_datetime]. *)
Definition series_frame (stn : StationSeries) : result DataFrame :=
  let n := length (st_date_time stn) in
  if forallb (fun c => Nat.eqb (length (snd c)) n) (st_obs stn) then
    match pd_to_datetime_index (st_date_time stn) with
    | Some index =>
        Ok {| df_index := index;
              df_columns := map (fun c => (fst c, np_array (snd c))) (st_obs stn);
              df_RENAMED := None |}
    | None => Raise (ValueError "could not parse the index as datetimes")
    end
  else Raise (ValueError "All arrays must be of the same length").

(** [df[label] = values] *)
Definition set_column (df : DataFrame) (label : string) (values : list float)
  : result DataFrame :=
  if Nat.eqb (length values) (length (df_index df)) then
    Ok {| df_index := df_index df;
          df_columns := dict_set (df_columns df) label values;
          df_RENAMED := df_RENAMED df |}
  else Raise (ValueError "Length of values does not match length of index").

(** [df.reindex(columns=df.columns.sort_values())] *)
Definition sort_columns (df : DataFrame) : DataFrame :=
  {| df_index := df_index df;
     df_columns := sort_by fst (df_columns df);
     df_RENAMED := df_RENAMED df |}.

(** One iteration of the wind loop of the series builder. *)
Definition series_wind_step (obs : dict (list cell)) (pair : string * string)
           (st : DataFrame * dict string) : result (DataFrame * dict string) :=
  let '(i_spd, i_dir) := pair in
  let '(df, UNITS) := st in
  let? wspd := dict_item obs i_spd in
  let? wdir := dict_item obs i_dir in
  let? uv := spddir_to_uv (WLists wspd wdir) in
  match uv with
  | UVArrays u v =>
      let this_set := this_set i_spd in
      let? df := set_column df ("wind_u_" ++ this_set) u in
      let? df := set_column df ("wind_v_" ++ this_set) v in
      let? unit := dict_item UNITS "wind_speed" in
      let UNITS := dict_set UNITS "wind_u" unit in
      let? unit := dict_item UNITS "wind_speed" in
      let UNITS := dict_set UNITS "wind_v" unit in
      Ok (df, UNITS)
  | UVScalars _ _ => Raise (TypeError "cannot set a frame column from a scalar pair")
  end.

Fixpoint fold_result {A St} (step : A -> St -> result St) (l : list A) (st : St)
  : result St :=
  match l with
  | [] => Ok st
  | x :: l' => let? st := step x st in fold_result step l' st
  end.

Definition series_wind (stn : StationSeries) (st : DataFrame * dict string)
  : result (DataFrame * dict string) :=
  fold_result (series_wind_step (st_obs stn)) (wind_pairs (st_SENSOR_VARIABLES stn)) st.

(** Strings among the attributes become numbers, but not [STID]. *)
Definition convert_attr (kv : string * pyval) : string * pyval :=
  match snd kv with
  | PStr v =>
      if negb (str_in (fst kv) ["STID"]) then
        match py_number v with
        | Some n => (fst kv, n)
        | None => kv
        end
      else kv
  | _ => kv
  end.

(** [attrs[new] = attrs.pop(old)] *)
Definition rename_attr (attrs : dict pyval) (old new : string) : result (dict pyval) :=
  let? v := dict_item attrs old in
  Ok (dict_set (dict_remove attrs old) new v).

(** The body of [for stn in data["STATION"]].  The loop carries
    [data["UNITS"]], which every table shares. *)
Definition series_station (rename_set_1 : bool) (params other : dict pyval)
           (stn : StationSeries) (UNITS : dict string)
  : M (SeriesTable * dict string) :=
  do df <- lift (series_frame stn) ;
  let df := sort_columns df in
  do st <- lift (series_wind stn (df, UNITS)) ;
  let '(df, UNITS) := st in
  let df := if rename_set_1 then _rename_set_1 df else df in
  let df := dropna_all df in
  let attrs := map convert_attr (st_fields stn) in
  exec when (has_duplicates (map fst (df_columns df)))
       (warnings_warn "🤹🏼‍♂️ DataFrame contains duplicate column names.") ;
  do attrs <- lift (rename_attr attrs "LATITUDE" "latitude") ;
  do attrs <- lift (rename_attr attrs "LONGITUDE" "longitude") ;
  let attrs := dict_merge attrs other in
  ret ({| tb_frame := df;
          tb_attrs := attrs;
          tb_UNITS := UNITS;
          tb_SENSOR_VARIABLES := st_SENSOR_VARIABLES stn;
          tb_params := params;
          tb_service := "stations_timeseries" |}, UNITS).

Definition series_loop (rename_set_1 : bool) (params other : dict pyval)
           (stations : list StationSeries) (UNITS : dict string)
  : M (list SeriesTable * dict string) :=
  for_each stations
           (fun stn (st : list SeriesTable * dict string) =>
              do r <- series_station rename_set_1 params other stn (snd st) ;
              ret (app (fst st) [fst r], snd r))
           ([], UNITS).

(** Every table refers to the one dictionary [data["UNITS"]]: what a
    table shows after the loop is its final content. *)
Definition share_units (UNITS : dict string) (t : SeriesTable) : SeriesTable :=
  {| tb_frame := tb_frame t;
     tb_attrs := tb_attrs t;
     tb_UNITS := UNITS;
     tb_SENSOR_VARIABLES := tb_SENSOR_VARIABLES t;
     tb_params := tb_params t;
     tb_service := tb_service t |}.

Definition stations_timeseries_tables (verbose rename_set_1 : bool)
           (params : dict pyval) (data : SeriesData) : M series_return :=
  do r <- series_loop rename_set_1 params (sd_other data)
                      (sd_STATION data) (sd_UNITS data) ;
  let Z := map (share_units (snd r)) (fst r) in
  match Z with
  | [df] => ret (OneTable df)
  | _ =>
      exec when verbose
           (do stids <- lift (map_result (fun t => dict_item (tb_attrs t) "STID") Z) ;
            py_print ("Returned [" ++ PyStr.of_nat (length Z) ++ "] stations. "
                   ++ py_str (PList stids))) ;
      ret (TableList Z)
  end.

(* ---------------------------------------------------------------- *)
(** *** Table builder, snapshot form: the body of
    [for i in data["STATION"]] in [_parse_latest_nearesttime], up to
    [_rename_value_1] *)

Definition cell_value (c : cell) : snap_value :=
  match c with
  | Some x => SVFloat x
  | None => SVMissing
  end.

(** [df[k] = [None, v]] for one metadata field. *)
Definition snapshot_field (df : dict RawColumn) (kv : string * pyval) : dict RawColumn :=
  let k := fst kv in
  let v :=
    match py_float (snd kv) with
    | Some x => SVFloat x
    | None => SVOther (snd kv)
    end in
  if str_in k ["LATITUDE"; "LONGITUDE"]
  then dict_set df (PyStr.lower k) (None, v)
  else dict_set df k (None, v).

(** One iteration of the wind loop of the snapshot builder. *)
Definition snapshot_wind_step (obs : dict SlotObs) (pair : string * string)
           (df : dict RawColumn) : result (dict RawColumn) :=
  let '(i_spd, i_dir) := pair in
  let? o_spd := dict_item obs i_spd in
  if String.eqb (so_date_time o_spd) (so_date_time o_spd) then
    let wspd := so_value o_spd in
    let? o_dir := dict_item obs i_dir in
    let wdir := so_value o_dir in
    let? uv := spddir_to_uv (WScalars wspd wdir) in
    match uv with
    | UVScalars u v =>
        let this_set := this_set i_spd in
        let df := dict_set df ("wind_u_" ++ this_set) (Some (so_date_time o_spd), SVFloat u) in
        let df := dict_set df ("wind_v_" ++ this_set) (Some (so_date_time o_spd), SVFloat v) in
        Ok df
    | UVArrays u v => Raise (TypeError "cannot set a frame cell from an array pair")
    end
  else Ok df.

(** [df.loc["date_time"] = pd.to_datetime(df.loc["date_time"])] then
    [df.transpose()], one column at a time. *)
Definition snapshot_row (c : string * RawColumn) : result (SnapRow snap_value) :=
  match fst (snd c) with
  | None =>
      Ok {| row_label := fst c; row_date_time := None; row_value := snd (snd c) |}
  | Some text =>
      match pd_timestamp text with
      | Some t =>
          Ok {| row_label := fst c; row_date_time := Some t; row_value := snd (snd c) |}
      | None => Raise (ValueError "could not parse date_time")
      end
  end.

(** The fields of [i.items()] once [OBSERVATIONS] is popped. *)
Definition snapshot_items (i : StationSnapshot) : dict pyval :=
  dict_set (sn_fields i) "SENSOR_VARIABLES"
           (PDict (map (fun kv => (fst kv, PDict (snd kv))) (sn_SENSOR_VARIABLES i))).

(** The columns of [df] after the wind loop. *)
Definition snapshot_columns (i : StationSnapshot) : result (dict RawColumn) :=
  let obs := sn_obs i in
  let df : dict RawColumn :=
    map (fun c => (fst c, (Some (so_date_time (snd c)), cell_value (so_value (snd c))))) obs in
  let df := fold_left snapshot_field (snapshot_items i) df in
  fold_result (snapshot_wind_step obs) (wind_pairs (sn_SENSOR_VARIABLES i)) df.

Definition snapshot_station (rename_value_1 : bool) (i : StationSnapshot)
  : result (SnapFrame snap_value) :=
  let? df := snapshot_columns i in
  match sn_obs i with
  | [] =>
      (* without observations the frame has no row labelled "date_time" *)
      Raise (KeyError "date_time")
  | _ :: _ =>
      let? rows := map_result snapshot_row df in
      let df := {| sf_rows := sort_by (@row_label snap_value) rows; sf_RENAMED := None |} in
      Ok (if rename_value_1 then _rename_value_1 df else df)
  end.

End Services.

(* ================================================================== *)
(** ** The service functions that call the engine *)

(** Station Selector Parameters Set *)
Definition _stn_selector : list string :=
  ["stid"; "country"; "state"; "country"; "status"; "nwszone"; "nwsfirezone";
   "cwa"; "gacc"; "subgacc"; "vars"; "varsoperator"; "network"; "radius";
   "limit"; "bbox"; "fields"]%string.

(** The text printed for the set [_stn_selector]. *)
Definition selector_names : string :=
  ("{" ++ PyStr.join ", " _stn_selector ++ "}")%string.

(** [any([i in _stn_selector for i in params])] *)
Definition has_station_selector (params : dict pyval) : bool :=
  existsb (fun i => str_in i _stn_selector) (dict_keys params).

(** [params.setdefault(k, v)] *)
Definition dict_setdefault (params : dict pyval) (k : string) (v : pyval) : dict pyval :=
  if dict_mem params k then params else dict_set params k v.

Definition window_required : string :=
  "🤔 `start` and `end` *or* `recent` is required"%string.
Definition selector_required : string :=
  ("🤔 Please assign a station selector (i.e., " ++ selector_names ++ ")")%string.
Definition attime_required : string :=
  "🤔 `attime` is a required parameter (datetime)."%string.

Section Callers.
Local Open Scope string_scope.
Local Open Scope py_scope.

Variable np_sin np_cos : float -> float.
Variable py_repr : pyval -> string.
Variable pd_to_datetime : pyval -> option pyval.
Variable pd_to_timedelta : pyval -> option pyval.
Variable timedelta_of_float_minutes : float -> result pyval.
Variable config_token : pyval.
Variable requests_get : string -> dict pyval -> Response.
Variable urllib_unquote : string -> string.
Variable pd_to_datetime_index : list string -> option (list Z).
Variable py_number : string -> option pyval.
(** [config["default"].get("hide_token", False)], the default of
    [synoptic_api] that its callers leave in place. *)
Variable config_hide_token : bool.
(** [web.json()] read as a time-series payload, and as it comes. *)
Variable json_series : Response -> SeriesData.
Variable Json : Type.
Variable json_raw : Response -> Json.

(** [synoptic_api(service, verbose=verbose, **params)] *)
Definition call_api (service : string) (verbose : bool) (params : dict pyval) : M Response :=
  synoptic_api py_repr pd_to_datetime pd_to_timedelta timedelta_of_float_minutes
               config_token requests_get urllib_unquote
               service verbose config_hide_token params.

Definition stations_timeseries (verbose rename_set_1 : bool) (params : dict pyval)
  : M series_return :=
  let check1 := dict_mem params "start" && dict_mem params "end" in
  let check2 := dict_mem params "recent" in
  exec py_assert (check1 || check2) window_required ;
  exec py_assert (has_station_selector params) selector_required ;
  do web <- call_api "timeseries" verbose params ;
  let data := json_series web in
  stations_timeseries_tables np_sin np_cos py_repr pd_to_datetime_index py_number
                             verbose rename_set_1 params data.

Definition stations_precipitation (verbose : bool) (params : dict pyval) : M Json :=
  exec py_print "🙋🏼‍♂️ HI! THIS FUNCTION IS NOT COMPLETED YET. WILL JUST RETURN JSON." ;
  let check1 := dict_mem params "start" && dict_mem params "end" in
  let check2 := dict_mem params "recent" in
  exec py_assert (check1 || check2) window_required ;
  exec py_assert (has_station_selector params) selector_required ;
  do web <- call_api "precipitation" verbose params ;
  ret (json_raw web).

(** [stations_nearesttime] and [stations_latest] up to [data = web.json()]:
    the response and the caller's [params], which [setdefault] has
    completed. *)
Definition stations_nearesttime_request (verbose : bool) (params : dict pyval)
  : M (Response * dict pyval) :=
  exec py_assert (dict_mem params "attime") attime_required ;
  exec py_assert (has_station_selector params) selector_required ;
  let params := dict_setdefault params "within" (PInt 60) in
  do web <- call_api "nearesttime" verbose params ;
  ret (web, params).

Definition stations_latest_request (verbose : bool) (params : dict pyval)
  : M (Response * dict pyval) :=
  exec py_assert (has_station_selector params) selector_required ;
  let params := dict_setdefault params "within" (PInt 60) in
  do web <- call_api "latest" verbose params ;
  ret (web, params).

End Callers.

(* ================================================================== *)
(** * Sample inputs *)

Definition frame_of_columns (cols : list (string * list float)) : DataFrame :=
  {| df_index := map Z.of_nat (seq 0 (match cols with [] => 0 | c :: _ => length (snd c) end));
     df_columns := cols;
     df_RENAMED := None |}.

(** A station whose only soil temperature sensor is its tenth. *)
Definition sample_set_10_alone : DataFrame :=
  frame_of_columns [("soil_temp_set_10"%string, [281.5; 282.5]%float)].

(** A station with a first, a second and a tenth temperature sensor, the
    first one with a gap. *)
Definition sample_set_1_and_10 : DataFrame :=
  frame_of_columns [("air_temp_set_1"%string, [20.5; nan]%float);
                    ("air_temp_set_10"%string, [21.5; 21.5]%float);
                    ("air_temp_set_2"%string, [20.5; 20.5]%float)].

Definition sample_value_10_alone : SnapFrame unit :=
  {| sf_rows := [{| row_label := "air_temp_value_10"%string;
                    row_date_time := Some 1600000000%Z;
                    row_value := tt |}];
     sf_RENAMED := None |}.

(** Two sensors of one variable, the derived one with fewer
    observations; a table without set suffixes; a snapshot with a raw and
    a later derived value. *)
Definition sample_set_1_and_1d : DataFrame :=
  frame_of_columns [("air_temp_set_1"%string, [20.5; 21.5]%float);
                    ("air_temp_set_1d"%string, [20.5; nan]%float)].




Definition sample_plain_columns : DataFrame :=
  frame_of_columns [("air_temp"%string, [20.5; 21.5]%float);
                    ("wind_speed_set_2"%string, [2.5; nan]%float)].

Definition sample_value_1_and_1d : SnapFrame unit :=
  {| sf_rows := [{| row_label := "ELEVATION"%string; row_date_time := None; row_value := tt |};
                 {| row_label := "air_temp_value_1"%string;
                    row_date_time := Some 1600000000%Z; row_value := tt |};
                 {| row_label := "air_temp_value_1d"%string;
                    row_date_time := Some 1600000300%Z; row_value := tt |}];
     sf_RENAMED := None |}.


(** Stand-ins for the library functions in the examples: a pandas that
    accepts what already is a datetime or a duration and rejects every
    text, and a linear stand-in for sine and cosine. *)
Definition sample_sin (x : float) : float := x.
Definition sample_cos (x : float) : float := (1 - x)%float.
Definition sample_repr (v : pyval) : string := "<object>"%string.
Definition sample_to_datetime (v : pyval) : option pyval :=
  match v with PDatetime _ => Some v | _ => None end.
Definition sample_to_timedelta (v : pyval) : option pyval :=
  match v with PTimedelta _ => Some v | _ => None end.
Definition sample_timedelta_of_float (x : float) : result pyval :=
  Raise (OverflowError "cannot convert float to timedelta"%string).
Definition sample_token : pyval := PStr "0123456789abcdef0123456789abcdef"%string.
Definition sample_unquote (url : string) : string := url.
Definition sample_index (l : list string) : option (list Z) :=
  Some (map Z.of_nat (seq 0 (length l))).
Definition sample_number (v : string) : option pyval := None.

(** A server that rejects every request with the given code and message. *)
Definition sample_rejecting_get (code : Z) (message : string)
           (URL : string) (params : dict pyval) : Response :=
  {| resp_url := (URL ++ "?token=0123456789abcdef0123456789abcdef&stid=WBB")%string;
     RESPONSE_CODE := code;
     RESPONSE_MESSAGE := message |}.

(** A catalog with two anemometers and the one vane of the second. *)
Definition sample_two_anemometers : dict (dict pyval) :=
  [("wind_speed"%string, [("wind_speed_set_1"%string, PNone); ("wind_speed_set_2"%string, PNone)]);
   ("wind_direction"%string, [("wind_direction_set_2"%string, PNone)])].

(** A station with that catalog, and its frame before the wind loop. *)
Definition sample_two_anemometer_station : StationSeries :=
  {| st_fields := [("STID"%string, PStr "WBB"); ("LATITUDE"%string, PStr "40.76623");
                   ("LONGITUDE"%string, PStr "-111.84755")];
     st_date_time := ["2020-01-01T00:00:00Z"; "2020-01-01T00:05:00Z"]%string;
     st_obs := [("wind_speed_set_1"%string, [Some 2.5; Some 0]%float);
                ("wind_speed_set_2"%string, [Some 4; None]%float);
                ("wind_direction_set_2"%string, [Some 90; None]%float)];
     st_SENSOR_VARIABLES := sample_two_anemometers |}.

Definition sample_two_anemometer_frame : DataFrame :=
  {| df_index := [0; 1]%Z;
     df_columns := [("wind_speed_set_1"%string, [2.5; 0]%float);
                    ("wind_speed_set_2"%string, [4; nan]%float);
                    ("wind_direction_set_2"%string, [90; nan]%float)];
     df_RENAMED := None |}.

(** The same two anemometers and vane in a snapshot. *)
Definition sample_two_anemometer_snapshot : StationSnapshot :=
  {| sn_fields := [("STID"%string, PStr "WBB")];
     sn_obs :=
       [("wind_speed_value_1"%string,
         {| so_date_time := "2020-01-01T00:00:00Z"%string; so_value := Some 2.5%float |});
        ("wind_speed_value_2"%string,
         {| so_date_time := "2020-01-01T00:05:00Z"%string; so_value := Some 4%float |});
        ("wind_direction_value_2"%string,
         {| so_date_time := "2020-01-01T00:05:00Z"%string; so_value := Some 90%float |})];
     sn_SENSOR_VARIABLES :=
       [("wind_speed"%string,
         [("wind_speed_value_1"%string, PNone); ("wind_speed_value_2"%string, PNone)]);
        ("wind_direction"%string, [("wind_direction_value_2"%string, PNone)])] |}.

(** One station with a calm first row and no wind report in the second. *)
Definition sample_wind_obs : dict (list cell) :=
  [("air_temp_set_1"%string, [Some 20.5; Some 21.5]%float);
   ("wind_direction_set_1"%string, [Some 90; None]%float);
   ("wind_speed_set_1"%string, [Some 0; None]%float)].

Definition sample_station : StationSeries :=
  {| st_fields := [("STID"%string, PStr "WBB"); ("ELEVATION"%string, PStr "4806");
                   ("LATITUDE"%string, PStr "40.76623");
                   ("LONGITUDE"%string, PStr "-111.84755")];
     st_date_time := ["2020-01-01T00:00:00Z"; "2020-01-01T00:05:00Z"]%string;
     st_obs := sample_wind_obs;
     st_SENSOR_VARIABLES :=
       [("air_temp"%string, [("air_temp_set_1"%string, PNone)]);
        ("wind_speed"%string, [("wind_speed_set_1"%string, PNone)]);
        ("wind_direction"%string, [("wind_direction_set_1"%string, PNone)])] |}.

Definition sample_units : dict string :=
  [("air_temp"%string, "Celsius"%string); ("wind_speed"%string, "m/s"%string)].

Definition sample_payload (stations : list StationSeries) : SeriesData :=
  {| sd_STATION := stations; sd_UNITS := sample_units; sd_other := [] |}.

Definition sample_wind_slots : dict SlotObs :=
  [("wind_speed_value_1"%string,
    {| so_date_time := "2020-01-01T00:00:00Z"%string; so_value := Some 2.5%float |});
   ("wind_direction_value_1"%string,
    {| so_date_time := "2020-01-01T00:00:00Z"%string; so_value := Some 90%float |})].

(** A bare name beside the only sensor of its variable, in both forms. *)
Definition sample_bare_and_set_1 : DataFrame :=
  frame_of_columns [("air_temp"%string, [20.5; 21.5]%float);
                    ("air_temp_set_1"%string, [20.5; nan]%float)].

Definition sample_bare_and_value_1 : SnapFrame unit :=
  {| sf_rows := [{| row_label := "air_temp"%string; row_date_time := None; row_value := tt |};
                 {| row_label := "air_temp_value_1"%string;
                    row_date_time := Some 1600000000%Z; row_value := tt |}];
     sf_RENAMED := None |}.

(** A table whose second row holds no observation. *)
Definition sample_gap_row : DataFrame :=
  frame_of_columns [("air_temp_set_1"%string, [20.5; nan; 21.5]%float);
                    ("wind_speed_set_1"%string, [nan; nan; 2.5]%float)].

(** The frame that [pd.DataFrame] makes of [sample_station]. *)
Definition sample_station_frame : DataFrame :=
  {| df_index := [0; 1]%Z;
     df_columns := map (fun c => (fst c, np_array (snd c))) sample_wind_obs;
     df_RENAMED := None |}.

(** Stand-ins for [pd.to_datetime] on one text and for [float]. *)
Definition sample_timestamp (text : string) : option Z :=
  Some (Z.of_nat (String.length text)).
Definition sample_float (v : pyval) : option float :=
  match v with PFloat x => Some x | _ => None end.

(** A snapshot of one station, and the same station when its anemometer
    reports [null]. *)
Definition sample_snapshot : StationSnapshot :=
  {| sn_fields := [("STID"%string, PStr "WBB"); ("ELEVATION"%string, PFloat 4806)];
     sn_obs := sample_wind_slots;
     sn_SENSOR_VARIABLES :=
       [("wind_speed"%string, [("wind_speed_value_1"%string, PNone)]);
        ("wind_direction"%string, [("wind_direction_value_1"%string, PNone)])] |}.

Definition sample_null_wind_snapshot : StationSnapshot :=
  {| sn_fields := sn_fields sample_snapshot;
     sn_obs :=
       [("wind_speed_value_1"%string,
         {| so_date_time := "2020-01-01T00:00:00Z"%string; so_value := None |});
        ("wind_direction_value_1"%string,
         {| so_date_time := "2020-01-01T00:00:00Z"%string; so_value := Some 90%float |})];
     sn_SENSOR_VARIABLES := sn_SENSOR_VARIABLES sample_snapshot |}.

(** A server that accepts every request, and the payload it sends. *)
Definition sample_accepting_get : string -> dict pyval -> Response :=
  sample_rejecting_get 1 "OK".
Definition sample_json_series (web : Response) : SeriesData :=
  sample_payload [sample_station].

(** A midnight start, as a caller passes it. *)
Definition sample_start : datetime :=
  {| year := 2020; month := 1; day := 2; hour := 3; minute := 4 |}.

(** The labels of a sample are pairwise distinct. *)
Ltac distinct_labels :=
  repeat (apply NoDup_cons; [simpl; intuition discriminate |]); apply NoDup_nil.

(* ================================================================== *)
(** * Properties *)

Unset Implicit Arguments.

(** ** Python strings *)

Lemma prefix_empty (v : string) : String.prefix EmptyString v = true.
Proof. destruct v; reflexivity. Qed.

Lemma str_app_assoc (a b c : string) : ((a ++ b) ++ c = a ++ (b ++ c))%string.
Proof. induction a as [| x a IH]; simpl; [reflexivity | rewrite IH; reflexivity]. Qed.

Lemma prefix_app_self (a b : string) : String.prefix a (a ++ b) = true.
Proof.
  induction a as [| c a IH]; simpl.
  - apply prefix_empty.
  - destruct (ascii_dec c c) as [_ | ne]; [exact IH | contradiction].
Qed.

Lemma contains_prefix (m v : string) :
  String.prefix m v = true -> PyStr.contains m v = true.
Proof.
  intros H. destruct v; cbn [PyStr.contains]; rewrite H; reflexivity.
Qed.

Lemma contains_tail (m : string) (c : ascii) (v : string) :
  PyStr.contains m v = true -> PyStr.contains m (String c v) = true.
Proof.
  intros H. cbn [PyStr.contains]. rewrite H. apply orb_true_r.
Qed.

Lemma prefix_app_contains (m a v : string) :
  String.prefix (a ++ m) v = true -> PyStr.contains m v = true.
Proof.
  revert v. induction a as [| c a IH]; intros v H.
  - apply contains_prefix. exact H.
  - destruct v as [| d v]; simpl in H; [discriminate |].
    destruct (ascii_dec c d); [| discriminate].
    apply contains_tail. apply IH. exact H.
Qed.

Lemma contains_app (m a b : string) : PyStr.contains m (a ++ m ++ b) = true.
Proof.
  apply prefix_app_contains with (a := a).
  rewrite <- str_app_assoc. apply prefix_app_self.
Qed.

Lemma split_nonempty (c : ascii) (v : string) : PyStr.split c v <> [].
Proof.
  destruct v as [| a v]; simpl; [discriminate |].
  destruct (Ascii.eqb a c); [discriminate |].
  destruct (PyStr.split c v); discriminate.
Qed.

Lemma split_app_sep (c : ascii) (x y : string) :
  PyStr.split c (x ++ String c y) = PyStr.split c x ++ PyStr.split c y.
Proof.
  induction x as [| a x IH]; simpl.
  - rewrite Ascii.eqb_refl. reflexivity.
  - destruct (Ascii.eqb a c).
    + rewrite IH. reflexivity.
    + rewrite IH. pose proof (split_nonempty c x) as Hne.
      destruct (PyStr.split c x) as [| h t]; [contradiction | reflexivity].
Qed.

Lemma contains_char_cons (c a : ascii) (v : string) :
  PyStr.contains (String c EmptyString) (String a v) = false ->
  Ascii.eqb a c = false /\ PyStr.contains (String c EmptyString) v = false.
Proof.
  simpl. intros H. apply orb_false_elim in H. destruct H as [H1 H2].
  split; [| exact H2].
  destruct (ascii_dec c a) as [e | ne].
  - destruct v; discriminate.
  - apply Ascii.eqb_neq. congruence.
Qed.

Lemma split_no_sep (c : ascii) (v : string) :
  PyStr.contains (String c EmptyString) v = false -> PyStr.split c v = [v].
Proof.
  induction v as [| a v IH]; intros H; simpl.
  - reflexivity.
  - apply contains_char_cons in H. destruct H as [H1 H2].
    rewrite H1, (IH H2). reflexivity.
Qed.

Lemma join_split (c : ascii) (v : string) :
  PyStr.join (String c EmptyString) (PyStr.split c v) = v.
Proof.
  induction v as [| a v IH]; simpl.
  - reflexivity.
  - destruct (Ascii.eqb_spec a c) as [e | ne].
    + subst a. pose proof (split_nonempty c v) as Hne.
      destruct (PyStr.split c v) as [| h t]; [contradiction |].
      simpl in *. rewrite IH. reflexivity.
    + pose proof (split_nonempty c v) as Hne.
      destruct (PyStr.split c v) as [| h t]; [contradiction |].
      destruct t as [| h' t]; simpl in *; rewrite <- IH; reflexivity.
Qed.

Lemma but_last2_app {A} (l : list A) (x y : A) : PyStr.but_last2 (l ++ [x; y]) = l.
Proof.
  unfold PyStr.but_last2. rewrite length_app. simpl.
  replace (length l + 2 - 2) with (length l + 0) by lia.
  rewrite firstn_app_2. simpl. apply app_nil_r.
Qed.

(** A label [base ++ "_" ++ a ++ "_" ++ tail] whose last two components
    hold no further underscore loses exactly those two components. *)
Lemma join_but_last2_split (base a tail : string) :
  PyStr.contains "_" a = false ->
  PyStr.contains "_" tail = false ->
  PyStr.join "_" (PyStr.but_last2
    (PyStr.split "_" (base ++ String "_" (a ++ String "_" tail)))) = base.
Proof.
  intros Ha Ht.
  rewrite split_app_sep, split_app_sep.
  rewrite (split_no_sep "_" a Ha), (split_no_sep "_" tail Ht).
  simpl app. rewrite but_last2_app. apply join_split.
Qed.

(** ** Dictionaries *)

Lemma dict_get_set_same {V} (d : dict V) (k : string) (v : V) :
  dict_get (dict_set d k v) k = Some v.
Proof.
  induction d as [| [k' v'] d IH]; simpl.
  - rewrite String.eqb_refl. reflexivity.
  - destruct (String.eqb k' k) eqn:E; simpl; rewrite E; [reflexivity | exact IH].
Qed.

Lemma dict_get_set_other {V} (d : dict V) (k k0 : string) (v : V) :
  k0 <> k -> dict_get (dict_set d k0 v) k = dict_get d k.
Proof.
  intros ne. induction d as [| [k' v'] d IH]; simpl.
  - destruct (String.eqb_spec k0 k); [contradiction | reflexivity].
  - destruct (String.eqb_spec k' k0) as [e | ne'].
    + subst k'. simpl. destruct (String.eqb_spec k0 k); [contradiction | reflexivity].
    + simpl. destruct (String.eqb k' k); [reflexivity | exact IH].
Qed.

Lemma dict_set_In {V} (d : dict V) (k : string) (v : V) (e : string * V) :
  In e (dict_set d k v) -> e = (k, v) \/ In e d.
Proof.
  induction d as [| [k' v'] d IH]; simpl.
  - intros [H | []]. left. symmetry. exact H.
  - destruct (String.eqb_spec k' k) as [E | E]; simpl.
    + intros [H | H]; [left; rewrite <- H, E; reflexivity | right; right; exact H].
    + intros [H | H]; [right; left; exact H |].
      destruct (IH H) as [H' | H']; [left; exact H' | right; right; exact H'].
Qed.

Lemma dict_get_In {V} (d : dict V) (k : string) (v : V) :
  dict_get d k = Some v -> In (k, v) d.
Proof.
  induction d as [| [k' v'] d IH]; simpl; [discriminate |].
  destruct (String.eqb_spec k' k) as [E | E].
  - intros H. inversion H. subst. left. reflexivity.
  - intros H. right. apply IH. exact H.
Qed.

(** ** numpy helpers *)

Lemma np_where_from_In (bs : list bool) (i k : nat) :
  In k (np_where_from i bs) <-> exists j, k = i + j /\ nth_error bs j = Some true.
Proof.
  revert i. induction bs as [| b bs IH]; intros i; simpl.
  - split; [intros [] | intros [j [_ H]]; destruct j; discriminate].
  - split.
    + intros H.
      assert (Hcase : (b = true /\ k = i) \/ In k (np_where_from (S i) bs)).
      { destruct b; simpl in H; [destruct H as [H | H]; [left; auto | right; exact H]
                                | right; exact H]. }
      destruct Hcase as [[Hb Hk] | Hin].
      * exists 0. subst. split; [lia | reflexivity].
      * apply IH in Hin. destruct Hin as [j [Hk Hj]].
        exists (S j). split; [lia | exact Hj].
    + intros [j [Hk Hj]]. destruct j as [| j]; simpl in Hj.
      * injection Hj as Hb. subst b. left. lia.
      * assert (Hin : In k (np_where_from (S i) bs)).
        { apply IH. exists j. split; [lia | exact Hj]. }
        destruct b; [right; exact Hin | exact Hin].
Qed.

Lemma np_where_In (bs : list bool) (k : nat) :
  In k (np_where bs) <-> nth_error bs k = Some true.
Proof.
  unfold np_where. rewrite np_where_from_In. split.
  - intros [j [Hk Hj]]. simpl in Hk. subst. exact Hj.
  - intros H. exists k. split; [reflexivity | exact H].
Qed.


Lemma np_where_none (bs : list bool) :
  (forall b, In b bs -> b = false) -> np_where bs = [].
Proof.
  intros H. destruct (np_where bs) as [| k l] eqn:E; [reflexivity |].
  assert (Hin : In k (np_where bs)) by (rewrite E; left; reflexivity).
  apply np_where_In in Hin. apply nth_error_In in Hin.
  apply H in Hin. discriminate.
Qed.

Section ArgmaxFacts.
Variable Score : Type.
Variable gt : Score -> Score -> bool.
Variable key : Score -> Z.



End ArgmaxFacts.

(** ** The disambiguator loop *)

Section DisambiguatorFacts.
Local Open Scope string_scope.
Variable marker : string.
Variable Score : Type.
Variable gt : Score -> Score -> bool.
Variable no_score : Score.

Lemma var_idx_In (labels : list string) (name : string) (k : nat) :
  In k (var_idx marker labels name) <->
  exists v, nth_error labels k = Some v /\
            PyStr.startswith v (name ++ marker) = true.
Proof.
  unfold var_idx. rewrite np_where_In, nth_error_map.
  destruct (nth_error labels k) as [v |]; simpl; split.
  - intros H. exists v. split; [reflexivity | congruence].
  - intros [v' [Hv Hs]]. congruence.
  - discriminate.
  - intros [v' [Hv _]]. discriminate.
Qed.





Lemma fold_dict_set_skip {V} (key : nat -> string) (val : nat -> V) (l : list nat) :
  forall (d : dict V) (k : string),
    (forall j, In j l -> key j <> k) ->
    dict_get (fold_left (fun r j => dict_set r (key j) (val j)) l d) k = dict_get d k.
Proof.
  induction l as [| j l IH]; intros d k H; simpl; [reflexivity |].
  rewrite IH by (intros; apply H; right; assumption).
  apply dict_get_set_other. apply H. left. reflexivity.
Qed.

(** With distinct labels, [renames] maps the label at position [i] to the
    value computed at iteration [i]. *)
Lemma rename_loop_lookup (labels : list string) (scores : list Score) (i : nat) :
  NoDup labels -> i < length labels ->
  dict_get (rename_loop marker gt no_score labels scores) (nth i labels "")
  = Some (rename_target marker gt no_score labels scores i).
Proof.
  intros Hnd Hi. unfold rename_loop.
  replace (length labels) with (i + S (length labels - S i)) by lia.
  rewrite seq_app, fold_left_app. simpl.
  rewrite fold_dict_set_skip.
  - apply dict_get_set_same.
  - intros j Hj Heq. apply in_seq in Hj.
    assert (j = i); [| lia].
    apply (proj1 (NoDup_nth labels "") Hnd); [lia | lia | exact Heq].
Qed.

Variables a b : string.
Hypothesis marker_shape : marker = String "_" (a ++ String "_" b).
Hypothesis marker_word : PyStr.contains "_" a = false.

Lemma strip_marker_member (base sfx : string) :
  PyStr.contains "_" (b ++ sfx) = false ->
  strip_marker marker (base ++ marker ++ sfx) = base.
Proof.
  intros Hs. unfold strip_marker. rewrite contains_app.
  subst marker. simpl. rewrite str_app_assoc. simpl.
  apply join_but_last2_split; assumption.
Qed.

Lemma rename_target_member (labels : list string) (scores : list Score)
      (i : nat) (base sfx : string) :
  nth_error labels i = Some (base ++ marker ++ sfx) ->
  PyStr.contains "_" (b ++ sfx) = false ->
  let G := var_idx marker labels base in
  let w := nth (np_argmax gt (map (fun k => nth k scores no_score) G)) G 0 in
  In i G /\
  rename_target marker gt no_score labels scores i
  = if Nat.eqb w i then base else base ++ marker ++ sfx.
Proof.
  intros Hi Hs G w.
  assert (HiG : In i G).
  { apply var_idx_In. eexists. split; [exact Hi |].
    unfold PyStr.startswith. rewrite <- str_app_assoc. apply prefix_app_self. }
  split; [exact HiG |].
  assert (Hname : nth i (map (strip_marker marker) labels) "" = base).
  { apply nth_error_nth. rewrite nth_error_map, Hi. simpl.
    rewrite strip_marker_member by exact Hs. reflexivity. }
  assert (Hlabel : nth i labels "" = base ++ marker ++ sfx)
    by (apply nth_error_nth; exact Hi).
  unfold rename_target. rewrite Hname. fold G.
  subst w. destruct G as [| j [| j' G']].
  - destruct HiG.
  - destruct HiG as [-> | []]. simpl. rewrite Nat.eqb_refl. exact Hname.
  - set (w := nth _ (j :: j' :: G') 0).
    destruct (Nat.eqb_spec w i) as [E | E].
    + rewrite E. exact Hname.
    + exact Hlabel.
Qed.

Variable key : Score -> Z.


End DisambiguatorFacts.

(** ** Set/value disambiguator *)



Lemma renamed_label_at (renames : dict string) (labels : list string) (i : nat) (v : string) :
  nth_error labels i = Some v ->
  nth_error (map (apply_renames renames) labels) i = Some (apply_renames renames v).
Proof.
  intros H. rewrite nth_error_map, H. reflexivity.
Qed.

Lemma apply_rename_loop_at (marker : string) (Score : Type) (gt : Score -> Score -> bool)
      (no_score : Score) (labels : list string) (scores : list Score) (i : nat) (v : string) :
  NoDup labels -> nth_error labels i = Some v ->
  apply_renames (rename_loop marker gt no_score labels scores) v
  = rename_target marker gt no_score labels scores i.
Proof.
  intros Hnd Hi.
  assert (Hlt : i < length labels) by (apply nth_error_Some; congruence).
  assert (Hv : nth i labels ""%string = v) by (apply nth_error_nth; exact Hi).
  unfold apply_renames. rewrite <- Hv.
  rewrite rename_loop_lookup by assumption. reflexivity.
Qed.

(** C5, as the code behaves: the marker is matched as text, so a label of
    set (or value) 10 is treated as a member of the [_set_1] family.  A
    lone [soil_temp_set_10] column is renamed to [soil_temp]; next to
    [air_temp_set_1], the fuller [air_temp_set_10] column takes the bare
    name [air_temp]; a lone [air_temp_value_10] row is renamed to
    [air_temp]. *)
Theorem set_10_competes_for_base_name :
  map fst (df_columns (_rename_set_1 sample_set_10_alone)) = ["soil_temp"%string]
  /\ map fst (df_columns (_rename_set_1 sample_set_1_and_10))
     = ["air_temp_set_1"; "air_temp"; "air_temp_set_2"]%string
  /\ map (@row_label unit) (sf_rows (_rename_value_1 sample_value_10_alone))
     = ["air_temp"%string].
Proof.
  repeat split; vm_compute; reflexivity.
Qed.









(** ** Wind decomposer *)

Lemma zip_with_length {A B C} (f : A -> B -> C) (a : list A) (b : list B) :
  length a = length b -> length (zip_with f a b) = length a.
Proof.
  revert b. induction a as [| x a IH]; intros [| y b] H; simpl in *;
    try reflexivity; try discriminate.
  rewrite IH by lia. reflexivity.
Qed.

Lemma nth_error_zip_with {A B C} (f : A -> B -> C) (a : list A) (b : list B) (j : nat) :
  nth_error (zip_with f a b) j =
  match nth_error a j, nth_error b j with
  | Some x, Some y => Some (f x y)
  | _, _ => None
  end.
Proof.
  revert b j. induction a as [| x a IH]; intros [| y b] [| j]; simpl; try reflexivity.
  - destruct (nth_error a j); reflexivity.
  - apply IH.
Qed.

Lemma set_at_length (i : nat) (x : float) (u : list float) :
  length (set_at i x u) = length u.
Proof.
  revert i. induction u as [| y u IH]; intros [| i]; simpl; try reflexivity.
  rewrite IH. reflexivity.
Qed.

Lemma nth_error_set_at (i : nat) (x : float) (u : list float) (j : nat) :
  nth_error (set_at i x u) j =
  match nth_error u j with
  | Some y => Some (if Nat.eqb j i then x else y)
  | None => None
  end.
Proof.
  revert i j. induction u as [| y u IH]; intros i j.
  - destruct i, j; reflexivity.
  - destruct i as [| i], j as [| j]; simpl; try reflexivity.
    + destruct (nth_error u j); reflexivity.
    + apply IH.
Qed.

Lemma fold_set_at_length (idx : list nat) (u : list float) :
  length (fold_left (fun acc i => set_at i 0%float acc) idx u) = length u.
Proof.
  revert u. induction idx as [| i idx IH]; intros u; simpl; [reflexivity |].
  rewrite IH. apply set_at_length.
Qed.

Lemma nth_error_fold_set_at (idx : list nat) (u : list float) (j : nat) :
  nth_error (fold_left (fun acc i => set_at i 0%float acc) idx u) j =
  match nth_error u j with
  | Some y => Some (if existsb (Nat.eqb j) idx then 0%float else y)
  | None => None
  end.
Proof.
  revert u. induction idx as [| i idx IH]; intros u; simpl.
  - destruct (nth_error u j); reflexivity.
  - rewrite IH, nth_error_set_at. destruct (nth_error u j) as [y |]; [| reflexivity].
    destruct (Nat.eqb j i); simpl; [| reflexivity].
    destruct (existsb (Nat.eqb j) idx); reflexivity.
Qed.

Lemma existsb_np_where (bs : list bool) (j : nat) :
  existsb (Nat.eqb j) (np_where bs) =
  match nth_error bs j with Some true => true | _ => false end.
Proof.
  destruct (existsb (Nat.eqb j) (np_where bs)) eqn:E.
  - apply existsb_exists in E. destruct E as [k [Hk Ejk]].
    apply Nat.eqb_eq in Ejk. subst k. apply np_where_In in Hk. rewrite Hk. reflexivity.
  - destruct (nth_error bs j) as [[|] |] eqn:Ej; try reflexivity.
    apply np_where_In in Ej.
    assert (existsb (Nat.eqb j) (np_where bs) = true); [| congruence].
    apply existsb_exists. exists j. split; [exact Ej | apply Nat.eqb_refl].
Qed.

Lemma assign_zero_where (wspd u : list float) :
  length u = length wspd ->
  assign_zero (np_where (map (fun s => (s =? 0)%float) wspd)) u
  = Ok (fold_left (fun acc i => set_at i 0%float acc)
                  (np_where (map (fun s => (s =? 0)%float) wspd)) u).
Proof.
  intros Hlen. unfold assign_zero.
  replace (forallb _ _) with true; [reflexivity |].
  symmetry. apply forallb_forall. intros k Hk. apply Nat.ltb_lt.
  apply np_where_In in Hk.
  assert (Hlt : k < length (map (fun s => (s =? 0)%float) wspd))
    by (apply nth_error_Some; congruence).
  rewrite length_map in Hlt. lia.
Qed.

Section WindFacts.
Variable np_sin np_cos : float -> float.

(** The cell that the list form computes from one speed and direction. *)
Lemma masked_cell (f : float -> float -> float) (wspd wdir : list float) :
  length wspd = length wdir ->
  map np_round3
      (fold_left (fun acc i => set_at i 0%float acc)
                 (np_where (map (fun s => (s =? 0)%float) wspd))
                 (zip_with f wspd wdir))
  = zip_with (fun s d => np_round3 (if (s =? 0)%float then 0%float else f s d)) wspd wdir.
Proof.
  intros Hlen. apply nth_error_ext. intros j.
  rewrite nth_error_map, nth_error_fold_set_at, !nth_error_zip_with.
  rewrite existsb_np_where, nth_error_map.
  destruct (nth_error wspd j) as [s |]; [| reflexivity].
  destruct (nth_error wdir j) as [d |]; [| reflexivity].
  simpl. destruct (s =? 0)%float; reflexivity.
Qed.

Lemma spddir_to_uv_lists (wspd wdir : list cell) :
  length wspd = length wdir ->
  spddir_to_uv np_sin np_cos (WLists wspd wdir)
  = Ok (UVArrays
          (zip_with (fun s d => np_round3 (if (s =? 0)%float then 0%float else u_of np_sin s d))
                    (np_array wspd) (np_array wdir))
          (zip_with (fun s d => np_round3 (if (s =? 0)%float then 0%float else v_of np_cos s d))
                    (np_array wspd) (np_array wdir))).
Proof.
  intros Hlen.
  assert (Hlen' : length (np_array wspd) = length (np_array wdir))
    by (unfold np_array; rewrite !length_map; exact Hlen).
  unfold spddir_to_uv, broadcast2.
  rewrite (proj2 (Nat.eqb_eq _ _) Hlen'). simpl.
  rewrite !assign_zero_where by (apply zip_with_length; exact Hlen').
  simpl. rewrite !masked_cell by exact Hlen'. reflexivity.
Qed.

Lemma spddir_to_uv_scalars (s d : float) :
  spddir_to_uv np_sin np_cos (WScalars (Some s) (Some d))
  = Ok (UVScalars (np_round3 (if (s =? 0)%float then 0%float else u_of np_sin s d))
                  (np_round3 (if (s =? 0)%float then 0%float else v_of np_cos s d))).
Proof.
  simpl. destruct (s =? 0)%float; reflexivity.
Qed.

(** C2: a speed equal to zero gives [u = 0] and [v = 0] exactly, whatever
    the direction (also a not-a-number): for a pair of scalars, and at
    every position of equal-length lists where the speed is zero (there a
    missing direction counts as not-a-number). *)
Theorem zero_speed_zero_vector :
  (forall s d : float,
      (s =? 0)%float = true ->
      spddir_to_uv np_sin np_cos (WScalars (Some s) (Some d)) = Ok (UVScalars 0 0))
  /\
  (forall wspd wdir : list cell,
      length wspd = length wdir ->
      exists u v,
        spddir_to_uv np_sin np_cos (WLists wspd wdir) = Ok (UVArrays u v) /\
        length u = length wspd /\ length v = length wspd /\
        forall i s,
          nth_error wspd i = Some (Some s) -> (s =? 0)%float = true ->
          nth_error u i = Some 0%float /\ nth_error v i = Some 0%float).
Proof.
  split.
  - intros s d Hs. rewrite spddir_to_uv_scalars, Hs. reflexivity.
  - intros wspd wdir Hlen.
    assert (Hlen' : length (np_array wspd) = length (np_array wdir))
      by (unfold np_array; rewrite !length_map; exact Hlen).
    eexists. eexists. split; [apply spddir_to_uv_lists; exact Hlen |].
    rewrite !zip_with_length by exact Hlen'.
    split; [unfold np_array; apply length_map |].
    split; [unfold np_array; apply length_map |].
    intros i s Hi Hs.
    assert (Hd : exists d, nth_error (np_array wdir) i = Some d).
    { destruct (nth_error (np_array wdir) i) as [d |] eqn:E; [eauto |].
      apply nth_error_None in E.
      assert (i < length wspd) by (apply nth_error_Some; congruence).
      unfold np_array in E. rewrite length_map in E. exfalso. lia. }
    destruct Hd as [d Hd].
    assert (Hsp : nth_error (np_array wspd) i = Some s)
      by (unfold np_array; rewrite nth_error_map, Hi; reflexivity).
    rewrite !nth_error_zip_with, Hsp, Hd, Hs. split; reflexivity.
Qed.

(** C3, as the code behaves: on equal-length lists the list form returns
    two arrays of that length, after reading every missing entry ([None])
    as not-a-number.  At a position where speed and direction are both
    numbers it holds the pair that the scalar form returns for them; at a
    position with a missing entry it holds the pair that the scalar form
    returns once not-a-number stands for the missing entry, while the
    scalar form called on the entries themselves raises. *)
Theorem lists_agree_with_scalars :
  forall wspd wdir : list cell,
    length wspd = length wdir ->
    exists u v,
      spddir_to_uv np_sin np_cos (WLists wspd wdir) = Ok (UVArrays u v) /\
      length u = length wspd /\ length v = length wspd /\
      forall i cs cd,
        nth_error wspd i = Some cs -> nth_error wdir i = Some cd ->
        exists ui vi,
          nth_error u i = Some ui /\ nth_error v i = Some vi /\
          spddir_to_uv np_sin np_cos
                       (WScalars (Some (match cs with Some s => s | None => nan end))
                                 (Some (match cd with Some d => d | None => nan end)))
          = Ok (UVScalars ui vi) /\
          (forall s d, cs = Some s -> cd = Some d ->
                       spddir_to_uv np_sin np_cos (WScalars cs cd) = Ok (UVScalars ui vi)) /\
          (cs = None \/ cd = None ->
           exists e, spddir_to_uv np_sin np_cos (WScalars cs cd) = Raise e).
Proof.
  intros wspd wdir Hlen.
  assert (Hlen' : length (np_array wspd) = length (np_array wdir))
    by (unfold np_array; rewrite !length_map; exact Hlen).
  eexists. eexists.
  split; [apply spddir_to_uv_lists; exact Hlen |].
  rewrite !zip_with_length by exact Hlen'.
  split; [unfold np_array; apply length_map |].
  split; [unfold np_array; apply length_map |].
  intros i cs cd Hi Hd. eexists. eexists.
  rewrite !nth_error_zip_with. unfold np_array. rewrite !nth_error_map, Hi, Hd.
  cbn [option_map].
  split; [reflexivity |]. split; [reflexivity |].
  split; [apply spddir_to_uv_scalars |]. split.
  - intros s d -> ->. apply spddir_to_uv_scalars.
  - intros [-> | ->].
    + eexists. reflexivity.
    + destruct cs; eexists; reflexivity.
Qed.

End WindFacts.

(** ** The effect monad *)

Lemma bind_ok_inv {A B} (c : M A) (k : A -> M B) (log log2 : list event) (b : B) :
  bind c k log = (Ok b, log2) ->
  exists a log1, c log = (Ok a, log1) /\ k a log1 = (Ok b, log2).
Proof.
  unfold bind. destruct (c log) as [[a | e] log1]; intros H.
  - exists a, log1. split; [reflexivity | exact H].
  - discriminate.
Qed.

Lemma bind_ok {A B} (c : M A) (k : A -> M B) (log log1 : list event) (a : A) :
  c log = (Ok a, log1) -> bind c k log = k a log1.
Proof. intros H. unfold bind. rewrite H. reflexivity. Qed.

Lemma bind_raise {A B} (c : M A) (k : A -> M B) (log log1 : list event) (e : exn) :
  c log = (Raise e, log1) -> bind c k log = (Raise e, log1).
Proof. intros H. unfold bind. rewrite H. reflexivity. Qed.

Lemma for_each_raises {A St} (P : St -> Prop) (body : A -> St -> M St) (x : A) (l : list A) :
  In x l ->
  (forall y st log st' log', P st -> body y st log = (Ok st', log') -> P st') ->
  (forall st log, P st -> exists e log', body x st log = (Raise e, log')) ->
  forall st log, P st -> exists e log', for_each l body st log = (Raise e, log').
Proof.
  intros Hin Hkeep Hraise. induction l as [| y l IH]; [destruct Hin |].
  intros st log HP. simpl.
  destruct (body y st log) as [[st' | e] log'] eqn:E.
  - rewrite (bind_ok _ _ _ _ _ E).
    assert (HP' : P st') by (eapply Hkeep; eauto).
    destruct Hin as [-> | Hin].
    + destruct (Hraise st log HP) as [e [log'' E']]. congruence.
    + apply IH; assumption.
  - exists e, log'. apply bind_raise. exact E.
Qed.

Lemma for_each_keeps {A St} (P : St -> Prop) (body : A -> St -> M St) (l : list A) :
  (forall y st log st' log', In y l -> P st -> body y st log = (Ok st', log') -> P st') ->
  forall st log st' log', P st -> for_each l body st log = (Ok st', log') -> P st'.
Proof.
  induction l as [| y l IH]; intros Hkeep st log st' log' HP H; simpl in H.
  - unfold ret in H. congruence.
  - apply bind_ok_inv in H. destruct H as [st1 [log1 [H1 H2]]].
    apply (IH (fun y0 s lg s' lg' Hy => Hkeep y0 s lg s' lg' (or_intror Hy)) st1 log1 st' log').
    + eapply Hkeep; [left; reflexivity | exact HP | exact H1].
    + exact H2.
Qed.

(** ** The binary64 quotient of [ceil_minutes]

    [float_of_int] and [SFdiv] round to the nearest binary64.  The lemmas
    follow the two roundings on mantissas: a whole number of minutes goes
    through both unchanged, and below [2 ^ 52] nanoseconds the rounding
    error of the quotient stays under the distance to the next integer. *)

Section QuotientFacts.
Local Unset Implicit Arguments.
Local Open Scope Z_scope.

Lemma digits2_pos_bounds (p : positive) :
  2 ^ (Zpos (digits2_pos p) - 1) <= Zpos p < 2 ^ Zpos (digits2_pos p).
Proof.
  induction p as [p IH | p IH |]; cbn [digits2_pos].
  - rewrite Pos2Z.inj_succ. replace (Z.succ (Zpos (digits2_pos p)) - 1) with (Z.succ (Zpos (digits2_pos p) - 1)) by lia.
    rewrite !Z.pow_succ_r by lia. lia.
  - rewrite Pos2Z.inj_succ. replace (Z.succ (Zpos (digits2_pos p)) - 1) with (Z.succ (Zpos (digits2_pos p) - 1)) by lia.
    rewrite !Z.pow_succ_r by lia. lia.
  - simpl. lia.
Qed.

Lemma digits2_pos_unique (p : positive) (d : Z) :
  2 ^ (d - 1) <= Zpos p < 2 ^ d -> Zpos (digits2_pos p) = d.
Proof.
  intros [Hlo Hhi]. pose proof (digits2_pos_bounds p) as [Blo Bhi].
  set (d' := Zpos (digits2_pos p)) in *.
  assert (Hd' : 0 < d') by (unfold d'; lia).
  assert (Hd : 0 < d).
  { destruct (Z.lt_ge_cases 0 d) as [H | H]; [exact H |].
    assert (2 ^ d <= 2 ^ 0) by (apply Z.pow_le_mono_r; lia). simpl in *. lia. }
  destruct (Z.lt_trichotomy d' d) as [H | [H | H]]; [| exact H |].
  - assert (2 ^ d' <= 2 ^ (d - 1)) by (apply Z.pow_le_mono_r; lia). lia.
  - assert (2 ^ d <= 2 ^ (d' - 1)) by (apply Z.pow_le_mono_r; lia). lia.
Qed.

Lemma iter_pos_nat {A} (f : A -> A) (p : positive) :
  forall x, iter_pos f p x = Nat.iter (Pos.to_nat p) f x.
Proof.
  induction p as [p IH | p IH |]; intros x; cbn [iter_pos].
  - rewrite !IH.
    replace (Pos.to_nat p~1) with (Pos.to_nat p + (Pos.to_nat p + 1))%nat by lia.
    rewrite !Nat.iter_add. reflexivity.
  - rewrite !IH.
    replace (Pos.to_nat p~0) with (Pos.to_nat p + Pos.to_nat p)%nat by lia.
    rewrite Nat.iter_add. reflexivity.
  - reflexivity.
Qed.

(** Shifting out zero bits is exact. *)
Lemma shr_nat_exact (n : nat) :
  forall m, 0 <= m -> (2 ^ Z.of_nat n | m) ->
            Nat.iter n shr_1 {| shr_m := m; shr_r := false; shr_s := false |}
            = {| shr_m := m / 2 ^ Z.of_nat n; shr_r := false; shr_s := false |}.
Proof.
  induction n as [| n IH]; intros m Hm Hdiv.
  - simpl. rewrite Z.div_1_r. reflexivity.
  - rewrite Nat.iter_succ_r.
    rewrite Nat2Z.inj_succ, Z.pow_succ_r in * by lia.
    destruct Hdiv as [c Hc].
    assert (Hm2 : m = 2 * (c * 2 ^ Z.of_nat n)) by lia.
    assert (Hstep : shr_1 {| shr_m := m; shr_r := false; shr_s := false |}
                    = {| shr_m := c * 2 ^ Z.of_nat n; shr_r := false; shr_s := false |}).
    { destruct m as [| [q | q |] |]; try lia; cbn [shr_1 orb].
      - f_equal. lia.
      - f_equal. lia. }
    rewrite Hstep.
    assert (Hpos : 0 < 2 ^ Z.of_nat n) by (apply Z.pow_pos_nonneg; lia).
    rewrite IH; [| nia | exists c; reflexivity].
    f_equal. rewrite Z.div_mul by lia. rewrite Hc at 1. rewrite Z.div_mul by lia. reflexivity.
Qed.

Lemma shr_exact (m e k : Z) :
  0 <= m -> 0 <= k -> (2 ^ k | m) ->
  shr {| shr_m := m; shr_r := false; shr_s := false |} e k
  = ({| shr_m := m / 2 ^ k; shr_r := false; shr_s := false |}, e + k).
Proof.
  intros Hm Hk Hdiv. unfold shr. destruct k as [| p | p]; try lia.
  - rewrite Z.div_1_r, Z.add_0_r. reflexivity.
  - rewrite iter_pos_nat, <- (positive_nat_Z p) in *.
    rewrite shr_nat_exact by assumption. reflexivity.
Qed.

Lemma fexp_normal (e : Z) : emin <= e - prec -> fexp prec emax e = e - prec.
Proof. unfold fexp. lia. Qed.

(** Rounding a mantissa of at least 53 bits whose surplus bits are zero. *)
Lemma binary_round_aux_exact (sx : bool) (m : positive) (e : Z) :
  let d := Zpos (digits2_pos m) in
  let k := d - prec in
  0 <= k -> (2 ^ k | Zpos m) -> emin <= e + k -> e + k <= emax - prec ->
  exists m', Zpos m' = Zpos m / 2 ^ k /\
             Zpos (digits2_pos m') = prec /\
             binary_round_aux prec emax sx (Zpos m) e loc_Exact = S754_finite sx m' (e + k).
Proof.
  intros d k Hk Hdiv Hmin Hmax.
  pose proof (digits2_pos_bounds m) as [Blo Bhi]. fold d in Blo, Bhi.
  assert (Hpk : 0 < 2 ^ k) by (apply Z.pow_pos_nonneg; lia).
  assert (Hq : 2 ^ (prec - 1) <= Zpos m / 2 ^ k < 2 ^ prec).
  { destruct Hdiv as [c Hc]. rewrite Hc, Z.div_mul by lia.
    assert (E1 : 2 ^ (d - 1) = 2 ^ (prec - 1) * 2 ^ k).
    { rewrite <- Z.pow_add_r by (unfold prec; lia). f_equal. unfold k. lia. }
    assert (E2 : 2 ^ d = 2 ^ prec * 2 ^ k).
    { rewrite <- Z.pow_add_r by (unfold prec; lia). f_equal. unfold k. lia. }
    rewrite E1, E2, Hc in *. split; nia. }
  destruct (Zpos m / 2 ^ k) as [| m' |] eqn:Em'.
  - exfalso. assert (0 < 2 ^ (prec - 1)) by (apply Z.pow_pos_nonneg; unfold prec; lia). lia.
  - exists m'. split; [reflexivity |].
    assert (Hdm' : Zpos (digits2_pos m') = prec) by (apply digits2_pos_unique; exact Hq).
    split; [exact Hdm' |].
    unfold binary_round_aux, shr_fexp. cbn [Zdigits2 shr_record_of_loc].
    fold d. rewrite fexp_normal by (unfold k in *; lia).
    replace (d + e - prec - e) with k by (unfold k; lia).
    rewrite shr_exact by (try lia; assumption). rewrite Em'.
    cbn [shr_m loc_of_shr_record round_nearest_even Zdigits2 shr_record_of_loc].
    rewrite Hdm'. rewrite fexp_normal by lia.
    replace (prec + (e + k) - prec - (e + k)) with 0 by lia.
    cbn [shr shr_m].
    destruct (Z.leb_spec (e + k) (emax - prec)); [reflexivity | lia].
  - exfalso. assert (0 < 2 ^ (prec - 1)) by (apply Z.pow_pos_nonneg; unfold prec; lia). lia.
Qed.

Lemma pos_iter_xO (m d : positive) : Zpos (Pos.iter xO m d) = Zpos m * 2 ^ Zpos d.
Proof.
  induction d as [| d IH] using Pos.peano_ind.
  - simpl. lia.
  - rewrite Pos.iter_succ, Pos2Z.inj_xO, IH, Pos2Z.inj_succ, Z.pow_succ_r by lia. lia.
Qed.

(** [float(p)] is exact when [p] fits in 53 bits once its trailing zero
    bits are dropped. *)
Lemma binary_round_exact (sx : bool) (p : positive) :
  let E := Zpos (digits2_pos p) - prec in
  E <= 11 -> (2 ^ Z.max 0 E | Zpos p) ->
  exists M, binary_round prec emax sx p 0 = S754_finite sx M E /\
            Zpos (digits2_pos M) = prec /\
            Zpos M * 2 ^ prec = Zpos p * 2 ^ (prec - E).
Proof.
  intros E HE Hdiv.
  pose proof (digits2_pos_bounds p) as [Blo Bhi].
  set (d := Zpos (digits2_pos p)) in *.
  assert (Hd : 0 < d) by (unfold d; lia).
  unfold binary_round. rewrite Z.add_0_r. fold d.
  rewrite fexp_normal by (unfold emin, emax, prec; lia).
  unfold shl_align. rewrite Z.sub_0_r. fold E.
  destruct E as [| k | k] eqn:HEk.
  - destruct (binary_round_aux_exact sx p 0) as [m' [Hm' [Hdm' Hr]]].
    + fold d. unfold E in HEk. lia.
    + fold d. replace (d - prec) with 0 by (unfold E in HEk; lia). apply Z.divide_1_l.
    + fold d. unfold emin, emax, prec in *. lia.
    + fold d. unfold emin, emax, prec in *. lia.
    + fold d in Hm', Hr. replace (d - prec) with 0 in * by (unfold E in HEk; lia).
      rewrite Z.div_1_r in Hm'. exists m'. rewrite Z.add_0_r in Hr.
      split; [exact Hr |]. split; [exact Hdm' |]. rewrite Hm', Z.sub_0_r. reflexivity.
  - destruct (binary_round_aux_exact sx p 0) as [m' [Hm' [Hdm' Hr]]].
    + fold d. unfold E in HEk. lia.
    + fold d. replace (d - prec) with (Zpos k) by (unfold E in HEk; lia).
      exact Hdiv.
    + fold d. unfold emin, emax, prec in *. lia.
    + fold d. unfold emin, emax, prec in *. lia.
    + fold d in Hm', Hr. replace (d - prec) with (Zpos k) in * by (unfold E in HEk; lia).
      exists m'. rewrite Z.add_0_l in Hr.
      split; [exact Hr |]. split; [exact Hdm' |]. rewrite Hm'.
      destruct Hdiv as [c Hc]. change (Z.max 0 (Zpos k)) with (Zpos k) in Hc. rewrite Hc, Z.div_mul by (apply Z.pow_nonzero; lia).
      replace prec with (Zpos k + (prec - Zpos k)) at 1 by lia.
      rewrite Z.pow_add_r by (unfold prec in *; lia). lia.
  - set (mz := Pos.iter xO p k).
    assert (Hmz : Zpos mz = Zpos p * 2 ^ Zpos k) by apply pos_iter_xO.
    assert (Hdz : Zpos (digits2_pos mz) = prec).
    { apply digits2_pos_unique. rewrite Hmz.
      assert (Ek : Zpos k = prec - d) by (unfold E in HEk; lia).
      assert (E1 : 2 ^ (prec - 1) = 2 ^ (d - 1) * 2 ^ Zpos k).
      { rewrite <- Z.pow_add_r by lia. f_equal. lia. }
      assert (E2 : 2 ^ prec = 2 ^ d * 2 ^ Zpos k).
      { rewrite <- Z.pow_add_r by lia. f_equal. lia. }
      assert (Hpk : 0 < 2 ^ Zpos k) by (apply Z.pow_pos_nonneg; lia).
      rewrite E1, E2. split; nia. }
    destruct (binary_round_aux_exact sx mz (Zneg k)) as [m' [Hm' [Hdm' Hr]]].
    + rewrite Hdz. lia.
    + rewrite Hdz, Z.sub_diag. apply Z.divide_1_l.
    + rewrite Hdz, Z.sub_diag. unfold E in HEk. unfold emin, emax, prec in *. lia.
    + rewrite Hdz, Z.sub_diag. unfold emin, emax, prec in *. lia.
    + rewrite Hdz, Z.sub_diag in Hm', Hr. rewrite Z.div_1_r in Hm'. rewrite Z.add_0_r in Hr.
      exists m'. split; [exact Hr |]. split; [exact Hdm' |].
      rewrite Hm', Hmz. replace (prec - Zneg k) with (Zpos k + prec) by lia.
      rewrite Z.pow_add_r by (unfold prec; lia). lia.
Qed.

Lemma div_eucl_exact (a b q : Z) : b <> 0 -> a = q * b -> Z.div_eucl a b = (q, 0).
Proof.
  intros Hb Ha.
  pose proof (Z.div_mul q b Hb) as Hq. pose proof (Z.mod_mul q b Hb) as Hr.
  rewrite <- Ha in Hq, Hr. unfold Z.div, Z.modulo in Hq, Hr.
  destruct (Z.div_eucl a b) as [q' r']. simpl in Hq, Hr. congruence.
Qed.

(** A whole number of minutes: conversion and division are exact. *)
Lemma whole_minutes_quotient (sx : bool) (q : positive) :
  Zpos q * minute_ns < 2 ^ 63 ->
  float_ceil (SFdiv prec emax (binary_round prec emax sx (q * 60000000000)%positive 0)
                    (float_of_int minute_ns))
  = if sx then Zneg q else Zpos q.
Proof.
  intros Hrange.
  set (p := (q * 60000000000)%positive).
  assert (Hp : Zpos p = Zpos q * 60000000000) by reflexivity.
  pose proof (digits2_pos_bounds p) as [Blo Bhi].
  set (d := Zpos (digits2_pos p)) in *.
  assert (Hd63 : d <= 63).
  { destruct (Z.le_gt_cases d 63) as [H | H]; [exact H |].
    assert (2 ^ 63 <= 2 ^ (d - 1)) by (apply Z.pow_le_mono_r; lia).
    unfold minute_ns in Hrange. lia. }
  assert (Hd36 : 36 <= d).
  { destruct (Z.le_gt_cases 36 d) as [H | H]; [exact H |].
    assert (2 ^ d <= 2 ^ 35) by (apply Z.pow_le_mono_r; unfold d; lia).
    change (2 ^ 35) with 34359738368 in *. lia. }
  destruct (binary_round_exact sx p) as [M [Hx [HdM HM]]].
  { fold d. unfold prec. lia. }
  { apply Z.divide_trans with (2 ^ 11).
    - fold d. exists (2 ^ (11 - Z.max 0 (d - prec))).
      rewrite <- Z.pow_add_r by (unfold prec; lia). f_equal. lia.
    - exists (Zpos q * 29296875). rewrite Hp. change (2 ^ 11) with 2048. lia. }
  fold d in Hx, HM. set (E := d - prec) in *.
  assert (HE : -17 <= E <= 10) by (unfold E, prec; lia).
  rewrite Hx.
  change (float_of_int minute_ns) with (S754_finite false 7864320000000000 (-17)).
  unfold SFdiv, SFdiv_core_binary. cbn [Zdigits2]. rewrite HdM.
  change (Zpos (digits2_pos 7864320000000000)) with prec.
  replace (prec + E - (prec + -17)) with (E + 17) by lia.
  rewrite fexp_normal by (unfold emin, emax, prec; lia).
  replace (Z.min (E + 17 - prec) (E - -17)) with (E - 36) by (unfold prec; lia).
  replace (E - -17 - (E - 36)) with 53 by lia.
  rewrite Z.shiftl_mul_pow2 by lia.
  assert (HQ : Zpos M * 2 ^ 53 = (Zpos q * 2 ^ (36 - E)) * 7864320000000000).
  { change 53 with prec. rewrite HM, Hp.
    replace (prec - E) with (17 + (36 - E)) by (unfold prec; lia).
    rewrite Z.pow_add_r by lia. change (2 ^ 17) with 131072. lia. }
  rewrite (div_eucl_exact _ _ (Zpos q * 2 ^ (36 - E))) by (try discriminate; exact HQ).
  change (new_location 7864320000000000 0) with loc_Exact.
  assert (Hpow : 0 < 2 ^ (36 - E)) by (apply Z.pow_pos_nonneg; lia).
  destruct (Zpos q * 2 ^ (36 - E)) as [| Qp |] eqn:EQ; try lia.
  pose proof (digits2_pos_bounds M) as [MBlo MBhi]. rewrite HdM in MBlo, MBhi.
  change (2 ^ (prec - 1)) with 4503599627370496 in MBlo.
  change (2 ^ prec) with 9007199254740992 in MBhi.
  change (2 ^ 53) with 9007199254740992 in HQ.
  assert (HQlo : 2 ^ 52 < Zpos Qp) by (change (2 ^ 52) with 4503599627370496; nia).
  assert (HQhi : Zpos Qp < 2 ^ 54) by (change (2 ^ 54) with 18014398509481984; nia).
  pose proof (digits2_pos_bounds Qp) as [QBlo QBhi].
  set (dQ := Zpos (digits2_pos Qp)) in *.
  assert (HdQ : 53 <= dQ <= 54).
  { split.
    - destruct (Z.le_gt_cases 53 dQ) as [H | H]; [exact H |].
      assert (2 ^ dQ <= 2 ^ 52) by (apply Z.pow_le_mono_r; unfold dQ; lia). lia.
    - destruct (Z.le_gt_cases dQ 54) as [H | H]; [exact H |].
      assert (2 ^ 54 <= 2 ^ (dQ - 1)) by (apply Z.pow_le_mono_r; lia). lia. }
  destruct (binary_round_aux_exact (xorb sx false) Qp (E - 36)) as [m' [Hm' [_ Hr]]].
  { fold dQ. unfold prec. lia. }
  { fold dQ. rewrite <- EQ.
    apply Z.divide_trans with (2 ^ 1).
    - exists (2 ^ (1 - (dQ - prec))). rewrite <- Z.pow_add_r by (unfold prec; lia).
      f_equal. lia.
    - apply Z.divide_mul_r. exists (2 ^ (36 - E - 1)).
      rewrite <- Z.pow_add_r by lia. f_equal. lia. }
  { fold dQ. unfold emin, emax, prec. lia. }
  { fold dQ. unfold emin, emax, prec. lia. }
  fold dQ in Hm', Hr. rewrite Hr. set (k := dQ - prec) in *.
  assert (Hk : 0 <= k <= 1) by (unfold k, prec; lia).
  unfold float_ceil.
  destruct (Z.leb_spec 0 (E - 36 + k)) as [H | _]; [lia |].
  replace (- (E - 36 + k)) with (36 - E - k) by lia.
  assert (Hm'q : Zpos m' = Zpos q * 2 ^ (36 - E - k)).
  { rewrite Hm', <- EQ.
    assert (Hsplit : 2 ^ (36 - E) = 2 ^ (36 - E - k) * 2 ^ k).
    { rewrite <- Z.pow_add_r by lia. f_equal. lia. }
    rewrite Hsplit, Z.mul_assoc, Z.div_mul by (apply Z.pow_nonzero; lia).
    reflexivity. }
  assert (Hnz : 2 ^ (36 - E - k) <> 0) by (apply Z.pow_nonzero; lia).
  destruct sx; cbn [xorb].
  - change (- Zneg m') with (Zpos m'). rewrite Hm'q, Z.div_mul by exact Hnz. reflexivity.
  - change (- Zpos m') with (- (Zpos m')). rewrite Hm'q, <- Z.mul_opp_l, Z.div_mul by exact Hnz.
    lia.
Qed.

(** A whole number of minutes within the 64-bit range of a duration is
    returned as it is. *)
Lemma ceil_minutes_whole (n : Z) :
  Z.abs (n * minute_ns) < 2 ^ 63 -> ceil_minutes (n * minute_ns) = n.
Proof.
  intros Hrange. unfold ceil_minutes, float_of_int at 1, binary_normalize.
  destruct n as [| q | q].
  - reflexivity.
  - change (Zpos q * minute_ns) with (Zpos (q * 60000000000)).
    apply (whole_minutes_quotient false q).
    change (Zpos q * minute_ns) with (Zpos (q * 60000000000)) in *. lia.
  - change (Zneg q * minute_ns) with (Zneg (q * 60000000000)).
    apply (whole_minutes_quotient true q).
    change (Zneg q * minute_ns) with (Zneg (q * 60000000000)) in Hrange.
    change (Zpos q * minute_ns) with (Zpos (q * 60000000000)). lia.
Qed.

Lemma round_nearest_even_near (m : Z) (l : location) :
  round_nearest_even m l = m \/ round_nearest_even m l = m + 1.
Proof.
  destruct l as [| []]; cbn [round_nearest_even]; auto.
  destruct (IntDef.Z.even m); auto.
Qed.

Lemma shr_m_of_loc (m : Z) (l : location) : shr_m (shr_record_of_loc m l) = m.
Proof. destruct l as [| []]; reflexivity. Qed.

Lemma shr_1_m (r : shr_record) : 0 <= shr_m r -> shr_m (shr_1 r) = shr_m r / 2.
Proof.
  destruct r as [m r s]. cbn [shr_m]. intros Hm.
  destruct m as [| [p | p |] |]; try lia; cbn [shr_1 shr_m].
  - reflexivity.
  - apply Z.div_unique with 1; lia.
  - apply Z.div_unique with 0; lia.
  - reflexivity.
Qed.

(** Rounding a mantissa of 53 or 54 bits: the result is the mantissa cut
    to 53 bits, or the next one. *)
Lemma binary_round_aux_near (sx : bool) (m : positive) (e : Z) (l : location) :
  let k := Zpos (digits2_pos m) - prec in
  0 <= k <= 1 -> emin <= e + k -> e + k + 1 <= emax - prec ->
  exists m' j,
    binary_round_aux prec emax sx (Zpos m) e l = S754_finite sx m' (e + k + j) /\
    0 <= j <= 1 /\
    (Zpos m' * 2 ^ j = Zpos m / 2 ^ k \/ Zpos m' * 2 ^ j = Zpos m / 2 ^ k + 1).
Proof.
  intros k Hk Hmin Hmax.
  pose proof (digits2_pos_bounds m) as [Blo Bhi].
  set (d := Zpos (digits2_pos m)) in *.
  set (f := Zpos m / 2 ^ k).
  assert (Hf : 2 ^ 52 <= f < 2 ^ 53).
  { unfold f. assert (Hd : d = prec + k) by (unfold k; lia).
    destruct (Z.eq_dec k 0) as [K | K].
    - rewrite K in *. rewrite Z.div_1_r. rewrite Hd in Blo, Bhi.
      change (2 ^ (prec + 0 - 1)) with (2 ^ 52) in Blo.
      change (2 ^ (prec + 0)) with (2 ^ 53) in Bhi. lia.
    - assert (K1 : k = 1) by lia. rewrite K1 in *. rewrite Hd in Blo, Bhi.
      change (2 ^ (prec + 1 - 1)) with (2 * 2 ^ 52) in Blo.
      change (2 ^ (prec + 1)) with (2 * 2 ^ 53) in Bhi.
      change (2 ^ 1) with 2. split.
      + apply Z.div_le_lower_bound; lia.
      + apply Z.div_lt_upper_bound; lia. }
  unfold binary_round_aux, shr_fexp. cbn [Zdigits2]. fold d.
  rewrite fexp_normal by (unfold k in *; lia).
  replace (d + e - prec - e) with k by (unfold k; lia).
  assert (H1 : exists rec, shr (shr_record_of_loc (Zpos m) l) e k = (rec, e + k)
                           /\ shr_m rec = f).
  { destruct (Z.eq_dec k 0) as [K | K].
    - exists (shr_record_of_loc (Zpos m) l). unfold f. rewrite K. cbn [shr].
      rewrite Z.add_0_r, shr_m_of_loc, Z.div_1_r. split; reflexivity.
    - assert (K1 : k = 1) by lia. exists (shr_1 (shr_record_of_loc (Zpos m) l)).
      unfold f. rewrite K1. cbn [shr iter_pos]. split; [reflexivity |].
      rewrite shr_1_m by (rewrite shr_m_of_loc; lia). rewrite shr_m_of_loc. reflexivity. }
  destruct H1 as [rec [-> Hrec]]. rewrite Hrec.
  pose proof (round_nearest_even_near f (loc_of_shr_record rec)) as Hnear.
  set (m1 := round_nearest_even f (loc_of_shr_record rec)) in *.
  change (2 ^ 52) with 4503599627370496 in Hf.
  change (2 ^ 53) with 9007199254740992 in Hf.
  destruct (Z.eq_dec m1 9007199254740992) as [Htop | Htop].
  - rewrite Htop. cbn [Zdigits2].
    change (Zpos (digits2_pos 9007199254740992)) with 54.
    rewrite fexp_normal by (unfold emin, emax, prec in *; lia).
    replace (54 + (e + k) - prec - (e + k)) with 1 by (unfold prec; lia).
    cbn [shr iter_pos shr_record_of_loc shr_1 shr_m orb].
    exists 4503599627370496%positive, 1.
    destruct (Z.leb_spec (e + k + 1) (emax - prec)); [| lia].
    split; [reflexivity |]. split; [lia |].
    right. change (2 ^ 1) with 2. lia.
  - destruct m1 as [| p1 |] eqn:Em1; try lia.
    assert (Hd1 : Zpos (digits2_pos p1) = prec).
    { apply digits2_pos_unique.
      change (2 ^ (prec - 1)) with 4503599627370496.
      change (2 ^ prec) with 9007199254740992. lia. }
    cbn [Zdigits2]. rewrite Hd1.
    rewrite fexp_normal by (unfold emin, emax, prec in *; lia).
    replace (prec + (e + k) - prec - (e + k)) with 0 by lia.
    cbn [shr shr_record_of_loc shr_m].
    exists p1, 0.
    destruct (Z.leb_spec (e + k) (emax - prec)); [| lia].
    rewrite Z.add_0_r. split; [reflexivity |]. split; [lia |].
    change (2 ^ 0) with 1. lia.
Qed.

(** A duration below [2 ^ 52] nanoseconds that is not a whole number of
    minutes: the rounded quotient lies strictly between the two
    neighbouring integers. *)
Lemma part_minutes_quotient (sx : bool) (x : positive) :
  Zpos x < 2 ^ 52 -> Zpos x mod minute_ns <> 0 ->
  float_ceil (SFdiv prec emax (binary_round prec emax sx x 0) (float_of_int minute_ns))
  = if sx then - (Zpos x / minute_ns) else Zpos x / minute_ns + 1.
Proof.
  intros Hrange Hrem.
  pose proof (digits2_pos_bounds x) as [Blo Bhi].
  set (d := Zpos (digits2_pos x)) in *.
  assert (Hd1 : 1 <= d) by (unfold d; lia).
  assert (Hd52 : d <= 52).
  { destruct (Z.le_gt_cases d 52) as [H | H]; [exact H |].
    assert (2 ^ 52 <= 2 ^ (d - 1)) by (apply Z.pow_le_mono_r; lia). lia. }
  destruct (binary_round_exact sx x) as [M [Hx [HdM HM]]].
  { fold d. unfold prec. lia. }
  { fold d. replace (Z.max 0 (d - prec)) with 0 by (unfold prec; lia). apply Z.divide_1_l. }
  fold d in Hx, HM. set (E := d - prec) in *.
  assert (HE : -52 <= E <= -1) by (unfold E, prec; lia).
  rewrite Hx.
  change (float_of_int minute_ns) with (S754_finite false 7864320000000000 (-17)).
  unfold SFdiv, SFdiv_core_binary. cbn [Zdigits2]. rewrite HdM.
  change (Zpos (digits2_pos 7864320000000000)) with prec.
  replace (prec + E - (prec + -17)) with (E + 17) by lia.
  rewrite fexp_normal by (unfold emin, emax, prec; lia).
  replace (Z.min (E + 17 - prec) (E - -17)) with (E - 36) by (unfold prec; lia).
  replace (E - -17 - (E - 36)) with 53 by lia.
  rewrite Z.shiftl_mul_pow2 by lia.
  destruct (Z.div_eucl (Zpos M * 2 ^ 53) 7864320000000000) as [Q r] eqn:Edv.
  assert (HQ : Q = Zpos M * 2 ^ 53 / 7864320000000000)
    by (unfold Z.div; rewrite Edv; reflexivity).
  pose proof (digits2_pos_bounds M) as [MBlo MBhi]. rewrite HdM in MBlo, MBhi.
  change (2 ^ (prec - 1)) with 4503599627370496 in MBlo.
  change (2 ^ prec) with 9007199254740992 in MBhi.
  assert (HQlo : 2 ^ 52 <= Q).
  { rewrite HQ. apply Z.div_le_lower_bound; [lia |].
    change (2 ^ 52) with 4503599627370496. change (2 ^ 53) with 9007199254740992. lia. }
  assert (HQhi : Q < 2 ^ 54).
  { rewrite HQ. apply Z.div_lt_upper_bound; [lia |].
    change (2 ^ 54) with 18014398509481984. change (2 ^ 53) with 9007199254740992. lia. }
  destruct Q as [| Qp |]; try (change (2 ^ 52) with 4503599627370496 in HQlo; lia).
  pose proof (digits2_pos_bounds Qp) as [QBlo QBhi].
  set (dQ := Zpos (digits2_pos Qp)) in *.
  assert (HdQ : 53 <= dQ <= 54).
  { split.
    - destruct (Z.le_gt_cases 53 dQ) as [H | H]; [exact H |].
      assert (2 ^ dQ <= 2 ^ 52) by (apply Z.pow_le_mono_r; unfold dQ; lia). lia.
    - destruct (Z.le_gt_cases dQ 54) as [H | H]; [exact H |].
      assert (2 ^ 54 <= 2 ^ (dQ - 1)) by (apply Z.pow_le_mono_r; lia). lia. }
  destruct (binary_round_aux_near (xorb sx false) Qp (E - 36)
              (new_location 7864320000000000 r)) as [m' [j [Hr [Hj Hm']]]].
  { fold dQ. unfold prec. lia. }
  { fold dQ. unfold emin, emax, prec. lia. }
  { fold dQ. unfold emin, emax, prec. lia. }
  fold dQ in Hr, Hm'. rewrite Hr. set (k := dQ - prec) in *.
  assert (Hk : 0 <= k <= 1) by (unfold k, prec; lia).
  set (P := 2 ^ (36 - E - k)).
  assert (HP : 2 ^ 36 <= P) by (apply Z.pow_le_mono_r; lia).
  change (2 ^ 36) with 68719476736 in HP.
  (* the quotient cut to 53 bits, in units of [1 / P] minutes *)
  assert (Hf : Zpos Qp / 2 ^ k = Zpos x * P / minute_ns).
  { rewrite HQ. rewrite Z.div_div by (try apply Z.pow_pos_nonneg; lia).
    change 53 with prec. rewrite HM.
    assert (Hsplit : 2 ^ (prec - E) = P * (131072 * 2 ^ k)).
    { unfold P. change 131072 with (2 ^ 17). rewrite <- !Z.pow_add_r by lia.
      f_equal. unfold prec. lia. }
    rewrite Hsplit.
    replace (7864320000000000 * 2 ^ k) with (minute_ns * (131072 * 2 ^ k))
      by (unfold minute_ns; lia).
    rewrite Z.mul_assoc. apply Z.div_mul_cancel_r; [discriminate |].
    assert (0 < 2 ^ k) by (apply Z.pow_pos_nonneg; lia). lia. }
  set (n := Zpos x / minute_ns).
  assert (Hmin : 0 < minute_ns) by reflexivity.
  pose proof (Z.div_mod (Zpos x) minute_ns ltac:(lia)) as Hdm. fold n in Hdm.
  pose proof (Z.mod_pos_bound (Zpos x) minute_ns Hmin) as Hrb.
  set (rem := Zpos x mod minute_ns) in *.
  assert (Hflo : n * P + 1 <= Zpos x * P / minute_ns).
  { apply Z.div_le_lower_bound; [exact Hmin |]. unfold minute_ns in *. nia. }
  assert (Hfhi : Zpos x * P / minute_ns < n * P + P - 1).
  { apply Z.div_lt_upper_bound; [exact Hmin |]. unfold minute_ns in *. nia. }
  rewrite Hf in Hm'.
  set (mr := Zpos m' * 2 ^ j) in *.
  assert (Hmr : n * P + 1 <= mr <= n * P + P - 1) by lia.
  assert (HPj : P = 2 ^ (36 - E - k - j) * 2 ^ j).
  { unfold P. rewrite <- Z.pow_add_r by lia. f_equal. lia. }
  assert (Hj0 : 2 ^ j <> 0) by (apply Z.pow_nonzero; lia).
  assert (He0 : 2 ^ (36 - E - k - j) <> 0) by (apply Z.pow_nonzero; lia).
  unfold float_ceil.
  destruct (Z.leb_spec 0 (E - 36 + k + j)) as [H | _]; [lia |].
  replace (- (E - 36 + k + j)) with (36 - E - k - j) by lia.
  destruct sx; cbn [xorb].
  - change (- Zneg m') with (Zpos m').
    rewrite <- (Z.div_mul_cancel_r (Zpos m') _ (2 ^ j)) by assumption.
    rewrite <- HPj. fold mr. f_equal.
    symmetry. apply Z.div_unique with (mr - n * P); lia.
  - change (- Zpos m') with (Zneg m').
    rewrite <- (Z.div_mul_cancel_r (Zneg m') _ (2 ^ j)) by assumption.
    rewrite <- HPj. replace (Zneg m' * 2 ^ j) with (- mr) by (unfold mr; lia).
    assert (Hq : - mr / P = - (n + 1)).
    { symmetry. apply Z.div_unique with ((n + 1) * P - mr); lia. }
    rewrite Hq. lia.
Qed.

(** Below [2 ^ 52] nanoseconds (some 52 days) the binary64 quotient loses
    nothing that [np.ceil] needs: the result is the exact ceiling. *)
Lemma ceil_minutes_small (ns : Z) :
  Z.abs ns < 2 ^ 52 -> ceil_minutes ns = - ((- ns) / minute_ns).
Proof.
  intros Hrange.
  assert (Hmin : minute_ns <> 0) by discriminate.
  destruct (Z.eq_dec (ns mod minute_ns) 0) as [Hz | Hnz].
  - apply Z.mod_divide in Hz; [| exact Hmin]. destruct Hz as [n ->].
    rewrite ceil_minutes_whole.
    + rewrite <- Z.mul_opp_l, Z.div_mul by exact Hmin. lia.
    + change (2 ^ 63) with 9223372036854775808. change (2 ^ 52) with 4503599627370496 in Hrange.
      lia.
  - unfold ceil_minutes, float_of_int at 1, binary_normalize.
    destruct ns as [| x | x].
    + exfalso. apply Hnz. reflexivity.
    + rewrite (part_minutes_quotient false x) by (try exact Hnz; lia).
      pose proof (Z.div_mod (Zpos x) minute_ns Hmin) as Hdm.
      pose proof (Z.mod_pos_bound (Zpos x) minute_ns ltac:(reflexivity)) as Hrb.
      assert (Hq : - Zpos x / minute_ns = - (Zpos x / minute_ns + 1)).
      { symmetry. apply Z.div_unique with (minute_ns - Zpos x mod minute_ns); lia. }
      rewrite Hq. lia.
    + assert (Hx : Zpos x mod minute_ns <> 0).
      { intros Hx. apply Hnz. apply Z.mod_divide in Hx; [| exact Hmin].
        apply Z.mod_divide; [exact Hmin |]. destruct Hx as [c Hc]. exists (- c).
        change (Zneg x) with (- Zpos x). rewrite Hc. lia. }
      rewrite (part_minutes_quotient true x) by (try exact Hx; lia).
      reflexivity.
Qed.

Lemma ceil_minutes_bounds (ns : Z) :
  Z.abs ns < 2 ^ 52 ->
  (ceil_minutes ns - 1) * minute_ns < ns <= ceil_minutes ns * minute_ns.
Proof.
  intros Hrange. rewrite (ceil_minutes_small ns Hrange).
  assert (Hpos : 0 < minute_ns) by reflexivity.
  pose proof (Z.div_mod (- ns) minute_ns ltac:(lia)) as Hdm.
  pose proof (Z.mod_pos_bound (- ns) minute_ns Hpos) as Hr.
  nia.
Qed.

Lemma ceil_minutes_facts (ns : Z) :
  (Z.abs ns < 2 ^ 52 ->
   (ceil_minutes ns - 1) * minute_ns < ns <= ceil_minutes ns * minute_ns) /\
  (forall n : Z, ns = n * minute_ns -> Z.abs ns < 2 ^ 63 -> ceil_minutes ns = n).
Proof.
  split; [apply ceil_minutes_bounds |].
  intros n -> Hrange. apply ceil_minutes_whole. exact Hrange.
Qed.

End QuotientFacts.

(** ** Parameter normalizer *)

Section NormalizerFacts.
Local Open Scope string_scope.
Variable py_repr : pyval -> string.
Variable pd_to_datetime : pyval -> option pyval.
Variable pd_to_timedelta : pyval -> option pyval.
Variable timedelta_of_float_minutes : float -> result pyval.
Variable config_token : pyval.

Local Abbreviation datetime_step := (normalize_datetime py_repr pd_to_datetime).
Local Abbreviation duration_step :=
  (normalize_duration py_repr pd_to_timedelta timedelta_of_float_minutes).
Local Abbreviation instants := (normalize_instants py_repr pd_to_datetime config_token).
Local Abbreviation normalize :=
  (normalize_params py_repr pd_to_datetime pd_to_timedelta
                    timedelta_of_float_minutes config_token).
Local Abbreviation resolved := (duration_of pd_to_timedelta timedelta_of_float_minutes).

Lemma dict_item_get {V} (d : dict V) (k : string) (v : V) :
  dict_get d k = Some v -> dict_item d k = Ok v.
Proof. intros H. unfold dict_item. rewrite H. reflexivity. Qed.

(** Unparsable text under a datetime key: a warning, then the format of
    the raw text raises. *)
Lemma normalize_datetime_unparsable (i text : string) (params : dict pyval) (log : list event) :
  dict_get params i = Some (PStr text) ->
  pd_to_datetime (pad_compact_date (PStr text)) = None ->
  datetime_step i params log
  = (Raise (ValueError "Invalid format specifier"),
     (log ++ [Warning ("🐼 Pandas could not parse [" ++ i ++ "="
                       ++ py_str py_repr (pad_compact_date (PStr text))
                       ++ "] as a datetime.")])%list).
Proof.
  intros Hget Hparse. unfold normalize_datetime. rewrite Hget, Hparse.
  unfold bind, warnings_warn, ret, lift. cbv beta iota.
  rewrite (dict_item_get _ _ _ Hget). reflexivity.
Qed.

Lemma normalize_datetime_other (i k : string) (params params' : dict pyval)
      (log log' : list event) :
  i <> k ->
  datetime_step i params log = (Ok params', log') ->
  dict_get params' k = dict_get params k.
Proof.
  intros Hne. unfold normalize_datetime.
  destruct (dict_get params i) as [date |]; [| unfold ret; congruence].
  intros H. apply bind_ok_inv in H. destruct H as [p1 [log1 [H1 H]]].
  apply bind_ok_inv in H. destruct H as [v [log2 [_ H]]].
  apply bind_ok_inv in H. destruct H as [s [log3 [_ H]]].
  unfold ret in H. injection H as <- _.
  rewrite dict_get_set_other by exact Hne.
  destruct (pd_to_datetime (pad_compact_date date)).
  - unfold ret in H1. injection H1 as <- _. apply dict_get_set_other. exact Hne.
  - apply bind_ok_inv in H1. destruct H1 as [u [log4 [_ H1]]].
    unfold ret in H1. congruence.
Qed.

Lemma normalize_obrange_other (k : string) (params params' : dict pyval)
      (log log' : list event) :
  k <> "obrange" ->
  normalize_obrange params log = (Ok params', log') ->
  dict_get params' k = dict_get params k.
Proof.
  intros Hne. unfold normalize_obrange.
  destruct (dict_get params "obrange") as [v |]; [| unfold ret; congruence].
  destruct (isinstance_str v); [unfold ret; congruence |].
  intros H. apply bind_ok_inv in H. destruct H as [parts [log1 [_ H]]].
  unfold ret in H. injection H as <- _.
  apply dict_get_set_other. congruence.
Qed.

(** Unparsable text under a duration key: a warning, then the division of
    the raw text by a [timedelta] raises. *)
Lemma normalize_duration_unparsable (verbose : bool) (i text : string)
      (params : dict pyval) (log : list event) :
  dict_get params i = Some (PStr text) ->
  pd_to_timedelta (PStr text) = None ->
  duration_step verbose i params log
  = (Raise (TypeError "unsupported operand type(s) for /"),
     (log ++ [Warning ("🐼 Pandas could not parse [" ++ i ++ "=" ++ text
                       ++ "] as a timedelta.")])%list).
Proof.
  intros Hget Hparse. unfold normalize_duration. rewrite Hget.
  unfold bind, warnings_warn, ret, lift. cbv beta iota. rewrite Hparse.
  rewrite (dict_item_get _ _ _ Hget). reflexivity.
Qed.

Lemma normalize_duration_other (verbose : bool) (i k : string)
      (params params' : dict pyval) (log log' : list event) :
  i <> k ->
  duration_step verbose i params log = (Ok params', log') ->
  dict_get params' k = dict_get params k.
Proof.
  intros Hne. unfold normalize_duration.
  destruct (dict_get params i) as [dt |]; [| unfold ret; congruence].
  intros H. apply bind_ok_inv in H. destruct H as [dt' [log0 [_ H]]].
  apply bind_ok_inv in H. destruct H as [p1 [log1 [H1 H]]].
  apply bind_ok_inv in H. destruct H as [v [log2 [_ H]]].
  apply bind_ok_inv in H. destruct H as [m [log3 [_ H]]].
  apply bind_ok_inv in H. destruct H as [u [log4 [_ H]]].
  unfold ret in H. injection H as <- _.
  rewrite dict_get_set_other by exact Hne.
  destruct (pd_to_timedelta dt').
  - unfold ret in H1. injection H1 as <- _. apply dict_get_set_other. exact Hne.
  - apply bind_ok_inv in H1. destruct H1 as [u' [log5 [_ H1]]].
    unfold ret in H1. congruence.
Qed.

Lemma datetime_keys_spec (k : string) :
  In k datetime_keys <-> k = "start" \/ k = "end" \/ k = "expire" \/ k = "attime".
Proof. unfold datetime_keys. simpl. intuition congruence. Qed.

Lemma duration_keys_spec (k : string) :
  In k duration_keys <-> k = "recent" \/ k = "within".
Proof. unfold duration_keys. simpl. intuition congruence. Qed.

(** Steps 3) and 4) leave the value under a duration key as it is. *)
Lemma instants_keep_durations (k : string) (seen params' : dict pyval) (log log' : list event) :
  In k duration_keys ->
  bind (for_each datetime_keys datetime_step seen) normalize_obrange log = (Ok params', log') ->
  dict_get params' k = dict_get seen k.
Proof.
  intros Hk H. apply bind_ok_inv in H. destruct H as [p1 [log1 [H1 H2]]].
  assert (Hk' : k = "recent" \/ k = "within") by (apply duration_keys_spec; exact Hk).
  assert (Hob : k <> "obrange") by (destruct Hk' as [-> | ->]; discriminate).
  rewrite (normalize_obrange_other k _ _ _ _ Hob H2).
  apply (for_each_keeps (fun p => dict_get p k = dict_get seen k) datetime_step datetime_keys)
    with (st := seen) (log := log) (log' := log1); [| reflexivity | exact H1].
  intros y st lg st' lg' Hy HP Hstep.
  assert (Hne : y <> k).
  { apply datetime_keys_spec in Hy.
    destruct Hk' as [-> | ->]; destruct Hy as [-> | [-> | [-> | ->]]]; discriminate. }
  rewrite (normalize_datetime_other _ _ _ _ _ _ Hne Hstep). exact HP.
Qed.

(** C1, as the code behaves: when a datetime key ([start], [end],
    [expire], [attime]) or a duration key ([recent], [within]) holds text
    that pandas cannot parse, the normalizer raises: the raw text is never
    passed through, and no output mapping is produced.  [seen] is the
    mapping as steps 3) to 5) see it, after the keys are lower-cased and
    the lists joined. *)
Theorem unparsable_text_raises :
  forall (verbose : bool) (params : dict pyval) (key text : string),
    let seen := join_lists py_repr (lower_keys (set_default_token config_token params)) in
    dict_get seen key = Some (PStr text) ->
    (In key datetime_keys /\ pd_to_datetime (pad_compact_date (PStr text)) = None)
    \/ (In key duration_keys /\ pd_to_timedelta (PStr text) = None) ->
    forall log, exists e log', normalize verbose params log = (Raise e, log').
Proof.
  intros verbose params key text seen Hget Hcase log.
  unfold normalize_params, normalize_instants. fold seen.
  destruct Hcase as [[Hkey Hparse] | [Hkey Hparse]].
  - destruct (for_each_raises (fun p => dict_get p key = Some (PStr text))
                datetime_step key datetime_keys Hkey) with (st := seen) (log := log)
      as [e [log' E]].
    + intros y st lg st' lg' HP Hstep.
      destruct (String.eqb_spec y key) as [-> | Hne].
      * rewrite (normalize_datetime_unparsable _ _ _ _ HP Hparse) in Hstep. discriminate.
      * rewrite (normalize_datetime_other _ _ _ _ _ _ Hne Hstep). exact HP.
    + intros st lg HP. eexists. eexists.
      apply (normalize_datetime_unparsable key text st lg HP Hparse).
    + exact Hget.
    + exists e, log'. apply bind_raise. apply bind_raise. exact E.
  - destruct (bind (for_each datetime_keys datetime_step seen) normalize_obrange log)
      as [[P1 | e] log1] eqn:E1.
    + rewrite (bind_ok _ _ _ _ _ E1).
      assert (HP1 : dict_get P1 key = Some (PStr text)).
      { rewrite (instants_keep_durations key seen P1 log log1 Hkey E1). exact Hget. }
      apply (for_each_raises (fun p => dict_get p key = Some (PStr text))
               (duration_step verbose) key duration_keys Hkey).
      * intros y st lg st' lg' HP Hstep.
        destruct (String.eqb_spec y key) as [-> | Hne].
        -- rewrite (normalize_duration_unparsable _ _ _ _ _ HP Hparse) in Hstep. discriminate.
        -- rewrite (normalize_duration_other _ _ _ _ _ _ _ Hne Hstep). exact HP.
      * intros st lg HP. eexists. eexists.
        apply (normalize_duration_unparsable verbose key text st lg HP Hparse).
      * exact HP1.
    + exists e, log1. apply bind_raise. exact E1.
Qed.

Lemma duration_conversion (dt : pyval) (ns : Z) (log : list event) :
  resolved dt = Some ns ->
  exists td,
    match dt with
    | PInt n => lift (timedelta_of_int_minutes n)
    | PFloat x => lift (timedelta_of_float_minutes x)
    | _ => ret dt
    end log = (Ok td, log)
    /\ pd_to_timedelta td = Some (PTimedelta ns).
Proof.
  assert (Has : forall td, as_timedelta pd_to_timedelta td = Some ns ->
                           pd_to_timedelta td = Some (PTimedelta ns)).
  { intros td. unfold as_timedelta.
    destruct (pd_to_timedelta td) as [[] |]; try discriminate. congruence. }
  unfold duration_of.
  destruct dt; intros H; try (eexists; split; [reflexivity | apply Has; exact H]).
  - destruct (timedelta_of_int_minutes n) as [td | e]; [| discriminate].
    exists td. split; [reflexivity | apply Has; exact H].
  - destruct (timedelta_of_float_minutes x) as [td | e]; [| discriminate].
    exists td. split; [reflexivity | apply Has; exact H].
Qed.

(** A step of 5) on a key that is absent, or whose value resolves to a
    duration, returns; it stores the rounded-up minutes as an [int]. *)
Lemma normalize_duration_total (verbose : bool) (i : string) (params : dict pyval)
      (log : list event) :
  (forall dt, dict_get params i = Some dt -> resolved dt <> None) ->
  exists out log',
    duration_step verbose i params log = (Ok out, log') /\
    (forall k, k <> i -> dict_get out k = dict_get params k) /\
    (forall dt, dict_get params i = Some dt ->
                exists ns, resolved dt = Some ns /\
                           dict_get out i = Some (PInt (ceil_minutes ns))).
Proof.
  intros Hres. unfold normalize_duration.
  destruct (dict_get params i) as [dt |] eqn:Hget.
  - destruct (resolved dt) as [ns |] eqn:Hns; [| exfalso; apply (Hres dt); auto].
    destruct (duration_conversion dt ns log Hns) as [td [Hconv Htd]].
    rewrite (bind_ok _ _ _ _ _ Hconv). rewrite Htd.
    unfold bind, ret, lift. cbv beta iota.
    rewrite (dict_item_get _ _ _ (dict_get_set_same params i (PTimedelta ns))).
    cbv beta iota. unfold to_minutes.
    destruct verbose; unfold when, py_print, ret; cbv beta iota.
    + eexists. eexists. split; [reflexivity |]. split.
      * intros k Hk. rewrite !dict_get_set_other by congruence. reflexivity.
      * intros dt' Hdt'. injection Hdt' as <-. exists ns.
        split; [exact Hns | apply dict_get_set_same].
    + eexists. eexists. split; [reflexivity |]. split.
      * intros k Hk. rewrite !dict_get_set_other by congruence. reflexivity.
      * intros dt' Hdt'. injection Hdt' as <-. exists ns.
        split; [exact Hns | apply dict_get_set_same].
  - exists params, log. split; [reflexivity |]. split; [reflexivity |]. discriminate.
Qed.

(** C4, as the code behaves: once the token default and steps 1) to 4)
    have returned the mapping [P1], and every duration key present in [P1]
    holds minutes as a number or a value that pandas resolves to a
    duration of [ns] nanoseconds, the normalizer returns; under each such
    key the output holds [ceil_minutes ns], the ceiling of the binary64
    quotient of [ns] by one minute, as an [int] and not as a string.  That
    integer is [ns] rounded up to the next whole minute whenever [ns] is
    below [2 ^ 52] in magnitude, and it is [n] itself for a duration of [n]
    whole minutes; every other key keeps the value of [P1]. *)
Theorem duration_keys_become_integer_minutes :
  forall (verbose : bool) (params P1 : dict pyval) (log log1 : list event),
    instants params log = (Ok P1, log1) ->
    (forall i dt, In i duration_keys -> dict_get P1 i = Some dt -> resolved dt <> None) ->
    exists out log2,
      normalize verbose params log = (Ok out, log2) /\
      (forall i dt,
          In i duration_keys -> dict_get P1 i = Some dt ->
          exists ns,
            resolved dt = Some ns /\
            dict_get out i = Some (PInt (ceil_minutes ns)) /\
            ((Z.abs ns < 2 ^ 52)%Z ->
             ((ceil_minutes ns - 1) * minute_ns < ns <= ceil_minutes ns * minute_ns)%Z) /\
            (forall n : Z,
                ns = (n * minute_ns)%Z -> (Z.abs ns < 2 ^ 63)%Z -> ceil_minutes ns = n)) /\
      (forall k, ~ In k duration_keys -> dict_get out k = dict_get P1 k).
Proof.
  intros verbose params P1 log log1 Hinst Hres.
  unfold normalize_params. rewrite (bind_ok _ _ _ _ _ Hinst).
  destruct (normalize_duration_total verbose "recent" P1 log1) as [P2 [log2 [E2 [K2 R2]]]].
  { intros dt. apply Hres. apply duration_keys_spec. left. reflexivity. }
  destruct (normalize_duration_total verbose "within" P2 log2) as [P3 [log3 [E3 [K3 R3]]]].
  { intros dt. rewrite K2 by discriminate. apply Hres. apply duration_keys_spec. right. reflexivity. }
  exists P3, log3. split; [| split].
  - unfold duration_keys. simpl.
    rewrite (bind_ok _ _ _ _ _ E2), (bind_ok _ _ _ _ _ E3). reflexivity.
  - intros i dt Hi Hget. apply duration_keys_spec in Hi. destruct Hi as [-> | ->].
    + destruct (R2 dt Hget) as [ns [Hns Hout]].
      exists ns. split; [exact Hns |]. split; [| apply ceil_minutes_facts].
      rewrite K3 by discriminate. exact Hout.
    + rewrite <- K2 in Hget by discriminate.
      destruct (R3 dt Hget) as [ns [Hns Hout]].
      exists ns. split; [exact Hns |]. split; [exact Hout | apply ceil_minutes_facts].
  - intros k Hk.
    assert (k <> "recent" /\ k <> "within") as [Hr Hw].
    { split; intros ->; apply Hk; apply duration_keys_spec; auto. }
    rewrite K3, K2 by assumption. reflexivity.
Qed.

End NormalizerFacts.

(** ** [synoptic_api] *)

Lemma prefix_refl (a : string) : String.prefix a a = true.
Proof.
  induction a as [| c a IH]; simpl; [reflexivity |].
  destruct (ascii_dec c c); [exact IH | contradiction].
Qed.

Lemma contains_end (m a : string) : PyStr.contains m (a ++ m) = true.
Proof. apply prefix_app_contains with (a := a). apply prefix_refl. Qed.

Section ApiFacts.
Local Open Scope string_scope.
Variable py_repr : pyval -> string.
Variable pd_to_datetime : pyval -> option pyval.
Variable pd_to_timedelta : pyval -> option pyval.
Variable timedelta_of_float_minutes : float -> result pyval.
Variable config_token : pyval.
Variable requests_get : string -> dict pyval -> Response.
Variable urllib_unquote : string -> string.

Local Abbreviation normalize :=
  (normalize_params py_repr pd_to_datetime pd_to_timedelta
                    timedelta_of_float_minutes config_token).
Local Abbreviation api :=
  (synoptic_api py_repr pd_to_datetime pd_to_timedelta timedelta_of_float_minutes
                config_token requests_get urllib_unquote).

(** C9, as the code behaves: for every service other than [auth], when
    the parameters normalize to [P] and the summary of the response to the
    request reports a code other than 1, the engine raises an assertion
    error; its message holds the upstream response message and the fully
    decoded request URL. *)
Theorem remote_rejection_raises :
  forall (service : string) (verbose hide_token : bool)
         (params P : dict pyval) (log log1 : list event),
    str_in service _service = true ->
    service <> "auth" ->
    normalize verbose params log = (Ok P, log1) ->
    let f := requests_get (service_url service) P in
    let decode_url := urllib_unquote (resp_url f) in
    let message := api_error_message decode_url (RESPONSE_MESSAGE f) in
    RESPONSE_CODE f <> 1%Z ->
    api service verbose hide_token params log = (Raise (AssertionError message), log1)
    /\ PyStr.contains decode_url message = true
    /\ PyStr.contains (RESPONSE_MESSAGE f) message = true.
Proof.
  intros service verbose hide_token params P log log1 Hsvc Hauth Hnorm f decode_url message Hcode.
  split; [| split].
  - unfold synoptic_api. rewrite Hsvc. unfold py_assert at 1.
    unfold bind at 1. unfold ret at 1. cbv beta iota.
    rewrite (bind_ok _ _ _ _ _ Hnorm).
    destruct (String.eqb_spec service "auth") as [E | _]; [contradiction |].
    fold f. destruct (Z.eqb_spec (RESPONSE_CODE f) 1) as [E | _]; [contradiction |].
    reflexivity.
  - unfold message, api_error_message. apply contains_app.
  - unfold message, api_error_message.
    rewrite <- !str_app_assoc. apply contains_end.
Qed.

End ApiFacts.

(** ** Table builders *)

Lemma mul_nan_l (x : float) : (nan * x)%float = nan.
Proof. apply Prim2SF_inj. rewrite mul_spec. reflexivity. Qed.

Lemma last2_app {A} (l : list A) (x y : A) : PyStr.last2 (l ++ [x; y]) = [x; y].
Proof.
  unfold PyStr.last2. rewrite length_app. simpl.
  replace (length l + 2 - 2) with (length l + 0) by lia.
  rewrite skipn_app, Nat.add_0_r, skipn_all.
  replace (length l - length l) with 0 by lia. reflexivity.
Qed.

(** The set suffix of a label [base_a_b]. *)
Lemma this_set_suffix (base a b : string) :
  PyStr.contains "_" a = false ->
  PyStr.contains "_" b = false ->
  this_set (base ++ String "_" (a ++ String "_" b)) = (a ++ String "_" b)%string.
Proof.
  intros Ha Hb. unfold this_set.
  rewrite split_app_sep, split_app_sep.
  rewrite (split_no_sep "_" a Ha), (split_no_sep "_" b Hb).
  simpl app. rewrite last2_app. reflexivity.
Qed.

Lemma nth_error_combine {A B} (a : list A) (b : list B) (k : nat) (x : A) (y : B) :
  nth_error (combine a b) k = Some (x, y) <->
  nth_error a k = Some x /\ nth_error b k = Some y.
Proof.
  revert b k. induction a as [| x0 a IH]; intros [| y0 b] [| k]; simpl;
    try (split; [discriminate | intros [H1 H2]; discriminate]).
  - split; [intros H; injection H as -> ->; auto | intros [H1 H2]; congruence].
  - apply IH.
Qed.

Lemma map_result_ok {A B} (f : A -> result B) (l : list A) :
  (forall x, In x l -> exists y, f x = Ok y) ->
  exists ys, map_result f l = Ok ys.
Proof.
  induction l as [| x l IH]; intros H; simpl.
  - exists []. reflexivity.
  - destruct (H x (or_introl eq_refl)) as [y Hy]. rewrite Hy. simpl.
    destruct IH as [ys Hys]; [intros; apply H; right; assumption |].
    rewrite Hys. simpl. eauto.
Qed.

Lemma keep_rows_from {A} (keep : nat -> bool) (d : A) (l : list A) :
  forall i,
    map snd (filter (fun p => keep (fst p)) (combine (seq i (length l)) l))
    = map (fun r => nth (r - i) l d) (filter keep (seq i (length l))).
Proof.
  induction l as [| x l IH]; intros i; [reflexivity |].
  assert (Htail : map (fun r => nth (r - i) (x :: l) d) (filter keep (seq (S i) (length l)))
                  = map (fun r => nth (r - S i) l d) (filter keep (seq (S i) (length l)))).
  { apply map_ext_in. intros r Hr. apply filter_In in Hr. destruct Hr as [Hr _].
    apply in_seq in Hr. replace (r - i) with (S (r - S i)) by lia. reflexivity. }
  change (length (x :: l)) with (S (length l)).
  cbn [seq combine filter fst]. destruct (keep i); cbn [map snd].
  - rewrite Nat.sub_diag, IH, Htail. reflexivity.
  - rewrite IH, Htail. reflexivity.
Qed.

(** [dropna] selects the same row positions in every column. *)
Lemma keep_rows_selection {A} (keep : nat -> bool) (d : A) (l : list A) :
  keep_rows keep l = map (fun r => nth r l d) (filter keep (seq 0 (length l))).
Proof.
  unfold keep_rows. rewrite (keep_rows_from keep d l 0).
  apply map_ext. intros r. rewrite Nat.sub_0_r. reflexivity.
Qed.

(** Rows that are dropped are dropped from all columns alike: a relation
    that holds row by row between three columns of equal length still
    holds row by row after [dropna]. *)
Lemma dropna_keeps_rows_aligned (keep : nat -> bool) (R : float -> float -> float -> Prop)
      (a b c : list float) :
  length a = length b -> length a = length c ->
  (forall r x y z,
      nth_error a r = Some x -> nth_error b r = Some y -> nth_error c r = Some z ->
      R x y z) ->
  forall r x y z,
    nth_error (keep_rows keep a) r = Some x ->
    nth_error (keep_rows keep b) r = Some y ->
    nth_error (keep_rows keep c) r = Some z ->
    R x y z.
Proof.
  intros Hab Hac HR r x y z.
  rewrite (keep_rows_selection keep nan a), (keep_rows_selection keep nan b),
          (keep_rows_selection keep nan c), <- Hab, <- Hac, !nth_error_map.
  destruct (nth_error (filter keep (seq 0 (length a))) r) as [k |] eqn:Ek;
    simpl; [| discriminate].
  assert (Hk : k < length a).
  { apply nth_error_In in Ek. apply filter_In in Ek. destruct Ek as [Ek _].
    apply in_seq in Ek. lia. }
  intros Hx Hy Hz. injection Hx as <-. injection Hy as <-. injection Hz as <-.
  apply (HR k); apply nth_error_nth'; lia.
Qed.

(** ** Wind vector columns of the two table builders *)

Lemma insert_by_In {A} (key : A -> string) (x y : A) (l : list A) :
  In y (insert_by key x l) <-> y = x \/ In y l.
Proof.
  induction l as [| z l IH]; simpl.
  - intuition auto.
  - destruct (PyStr.leb (key x) (key z)); simpl; [intuition auto |].
    rewrite IH. intuition auto.
Qed.

Lemma sort_by_In {A} (key : A -> string) (y : A) (l : list A) :
  In y (sort_by key l) <-> In y l.
Proof.
  unfold sort_by. induction l as [| x l IH]; simpl; [reflexivity |].
  rewrite insert_by_In, IH. intuition auto.
Qed.

Lemma map_result_In {A B} (f : A -> result B) (l : list A) (ys : list B) (x : A) :
  map_result f l = Ok ys -> In x l -> exists y, f x = Ok y /\ In y ys.
Proof.
  revert ys. induction l as [| x0 l IH]; intros ys H Hin; [destruct Hin |].
  simpl in H. destruct (f x0) as [y0 |] eqn:E0; [| discriminate]. simpl in H.
  destruct (map_result f l) as [ys0 |]; [| discriminate]. simpl in H.
  injection H as <-. destruct Hin as [-> | Hin].
  - exists y0. split; [exact E0 | left; reflexivity].
  - destruct (IH ys0 eq_refl Hin) as [y [Hy Hiny]].
    exists y. split; [exact Hy | right; exact Hiny].
Qed.

Lemma wind_label_inj (p a b : string) : (p ++ a)%string = (p ++ b)%string -> a = b.
Proof.
  induction p as [| c p IH]; simpl; intros H; [exact H |].
  injection H as H. apply IH. exact H.
Qed.

Section WindColumnFacts.
Local Open Scope string_scope.
Variable np_sin np_cos : float -> float.
Variable pd_to_datetime_index : list string -> option (list Z).
Variable pd_timestamp : string -> option Z.
Variable py_number : string -> option pyval.
Variable py_float : pyval -> option float.

Local Abbreviation u_cell :=
  (fun s d : float => np_round3 (if (s =? 0)%float then 0%float else u_of np_sin s d)).
Local Abbreviation v_cell :=
  (fun s d : float => np_round3 (if (s =? 0)%float then 0%float else v_of np_cos s d)).
Local Abbreviation number :=
  (fun c : cell => match c with Some x => x | None => nan end).
(** The set suffixes under which the wind loop stores its vectors. *)
Local Abbreviation suffixes pairs :=
  (map (fun p : string * string => this_set (fst p)) pairs).
(** The columns of the snapshot frame before the wind loop. *)
Local Abbreviation snapshot_base i :=
  (fold_left (snapshot_field py_float) (snapshot_items i)
             (map (fun c : string * SlotObs =>
                     (fst c, (Some (so_date_time (snd c)), cell_value (so_value (snd c)))))
                  (sn_obs i))).

Lemma missing_pair_is_nan : u_cell nan nan = nan /\ v_cell nan nan = nan.
Proof.
  unfold u_of, v_of.
  change ((nan =? 0)%float) with false. cbv iota.
  change ((- nan)%float) with nan. rewrite !mul_nan_l. split; reflexivity.
Qed.

Lemma nth_error_np_array (l : list cell) (r : nat) (c : cell) :
  nth_error l r = Some c -> nth_error (np_array l) r = Some (number c).
Proof. intros H. unfold np_array. rewrite nth_error_map, H. reflexivity. Qed.

(** The state after one iteration of the wind loop of the series
    builder. *)
Lemma series_wind_step_result (obs : dict (list cell)) (i_spd i_dir : string)
      (df : DataFrame) (UNITS : dict string) (wspd wdir : list cell) (unit : string) :
  dict_get obs i_spd = Some wspd ->
  dict_get obs i_dir = Some wdir ->
  length wspd = length (df_index df) ->
  length wdir = length (df_index df) ->
  dict_get UNITS "wind_speed" = Some unit ->
  series_wind_step np_sin np_cos obs (i_spd, i_dir) (df, UNITS)
  = Ok ({| df_index := df_index df;
           df_columns :=
             dict_set (dict_set (df_columns df) ("wind_u_" ++ this_set i_spd)
                                (zip_with u_cell (np_array wspd) (np_array wdir)))
                      ("wind_v_" ++ this_set i_spd)
                      (zip_with v_cell (np_array wspd) (np_array wdir));
           df_RENAMED := df_RENAMED df |},
        dict_set (dict_set UNITS "wind_u" unit) "wind_v" unit).
Proof.
  intros Hspd Hdir Hls Hld Hunit.
  assert (Hlen : length wspd = length wdir) by congruence.
  assert (Hlen' : length (np_array wspd) = length (np_array wdir))
    by (unfold np_array; rewrite !length_map; exact Hlen).
  assert (Hfit : Nat.eqb (length (zip_with u_cell (np_array wspd) (np_array wdir)))
                         (length (df_index df)) = true
                 /\ Nat.eqb (length (zip_with v_cell (np_array wspd) (np_array wdir)))
                            (length (df_index df)) = true).
  { rewrite !zip_with_length by exact Hlen'. unfold np_array. rewrite length_map.
    split; apply Nat.eqb_eq; exact Hls. }
  destruct Hfit as [Hfu Hfv].
  unfold series_wind_step.
  rewrite (dict_item_get _ _ _ Hspd), (dict_item_get _ _ _ Hdir). cbn [rbind].
  rewrite (spddir_to_uv_lists np_sin np_cos wspd wdir Hlen). cbn [rbind].
  unfold set_column at 1. rewrite Hfu. cbn [rbind].
  unfold set_column at 1. cbn [df_index]. rewrite Hfv. cbn [rbind].
  rewrite (dict_item_get _ _ _ Hunit). cbn [rbind].
  rewrite (dict_item_get (dict_set UNITS "wind_u" unit) "wind_speed" unit)
    by (rewrite dict_get_set_other by discriminate; exact Hunit).
  reflexivity.
Qed.

Lemma series_frame_lengths (stn : StationSeries) (df : DataFrame) :
  series_frame pd_to_datetime_index stn = Ok df ->
  (forall l idx, pd_to_datetime_index l = Some idx -> length idx = length l) ->
  df_columns df = map (fun c => (fst c, np_array (snd c))) (st_obs stn) /\
  forall k cells, dict_get (st_obs stn) k = Some cells -> length cells = length (df_index df).
Proof.
  unfold series_frame. intros H Hidx.
  destruct (forallb _ (st_obs stn)) eqn:Hall; [| discriminate].
  destruct (pd_to_datetime_index (st_date_time stn)) as [index |] eqn:Ei; [| discriminate].
  injection H as <-. simpl. split; [reflexivity |].
  intros k cells Hk. apply dict_get_In in Hk.
  rewrite forallb_forall in Hall. specialize (Hall _ Hk). simpl in Hall.
  apply Nat.eqb_eq in Hall. rewrite (Hidx _ _ Ei). exact Hall.
Qed.

(** The wind columns after the whole wind loop of the series builder:
    each pair leaves its vector under the suffix of its speed label, and
    no other wind column is touched. *)
Lemma series_wind_loop_columns (obs : dict (list cell)) (unit : string) (index : list Z)
      (pairs : list (string * string)) :
  (forall i_spd i_dir,
      In (i_spd, i_dir) pairs ->
      exists wspd wdir,
        dict_get obs i_spd = Some wspd /\ dict_get obs i_dir = Some wdir /\
        length wspd = length index /\ length wdir = length index) ->
  NoDup (suffixes pairs) ->
  forall (df : DataFrame) (UNITS : dict string),
    df_index df = index ->
    dict_get UNITS "wind_speed" = Some unit ->
    exists df' UNITS',
      fold_result (series_wind_step np_sin np_cos obs) pairs (df, UNITS) = Ok (df', UNITS') /\
      df_index df' = index /\
      (forall i_spd i_dir wspd wdir,
          In (i_spd, i_dir) pairs ->
          dict_get obs i_spd = Some wspd -> dict_get obs i_dir = Some wdir ->
          dict_get (df_columns df') ("wind_u_" ++ this_set i_spd)
          = Some (zip_with u_cell (np_array wspd) (np_array wdir)) /\
          dict_get (df_columns df') ("wind_v_" ++ this_set i_spd)
          = Some (zip_with v_cell (np_array wspd) (np_array wdir))) /\
      (forall s,
          ~ In s (suffixes pairs) ->
          dict_get (df_columns df') ("wind_u_" ++ s) = dict_get (df_columns df) ("wind_u_" ++ s) /\
          dict_get (df_columns df') ("wind_v_" ++ s) = dict_get (df_columns df) ("wind_v_" ++ s)).
Proof.
  induction pairs as [| [i_spd i_dir] pairs IH]; intros Hobs Hnd df UNITS Hidx Hunit.
  - exists df, UNITS. simpl. split; [reflexivity |]. split; [exact Hidx |].
    split; [intros ? ? ? ? [] | intros s _; split; reflexivity].
  - destruct (Hobs i_spd i_dir (or_introl eq_refl)) as [wspd [wdir [Hs [Hd [Hls Hld]]]]].
    rewrite <- Hidx in Hls, Hld.
    pose proof (series_wind_step_result obs i_spd i_dir df UNITS wspd wdir unit
                  Hs Hd Hls Hld Hunit) as Hstep.
    cbn [fold_result]. rewrite Hstep. cbn [rbind].
    cbn [map fst] in Hnd. apply NoDup_cons_iff in Hnd. destruct Hnd as [Hfresh Hnd'].
    match goal with
    | |- context [fold_result _ pairs (?d, ?U)] =>
        destruct (IH (fun a b H => Hobs a b (or_intror H)) Hnd' d U) as
          [df' [UNITS' [Hloop [Hi' [Hpairs Hrest]]]]]
    end.
    + exact Hidx.
    + rewrite !dict_get_set_other by discriminate. exact Hunit.
    + exists df', UNITS'. split; [exact Hloop |]. split; [exact Hi' |]. split.
      * intros a b wa wb [E | Hin] Ha Hb.
        -- injection E as <- <-.
           assert (wa = wspd) by congruence. assert (wb = wdir) by congruence. subst wa wb.
           destruct (Hrest (this_set i_spd) Hfresh) as [Hu Hv].
           rewrite Hu, Hv. cbn [df_columns]. split.
           ++ rewrite dict_get_set_other by (simpl; discriminate). apply dict_get_set_same.
           ++ apply dict_get_set_same.
        -- apply (Hpairs a b wa wb Hin Ha Hb).
      * intros s Hs'. cbn [map fst] in Hs'.
        assert (Hne : this_set i_spd <> s) by (intros E; apply Hs'; left; exact E).
        assert (Hs'' : ~ In s (suffixes pairs)) by (intros E; apply Hs'; right; exact E).
        destruct (Hrest s Hs'') as [Hu Hv]. rewrite Hu, Hv. cbn [df_columns].
        split; rewrite !dict_get_set_other; try reflexivity;
          try (simpl; discriminate);
          intros E; apply Hne; apply (wind_label_inj _ _ _ E).
Qed.

(** The same for the wind loop of the snapshot builder, when the paired
    slots hold numbers. *)
Lemma snapshot_wind_loop_columns (obs : dict SlotObs) (pairs : list (string * string)) :
  (forall i_spd i_dir,
      In (i_spd, i_dir) pairs ->
      exists o_spd o_dir s d,
        dict_get obs i_spd = Some o_spd /\ dict_get obs i_dir = Some o_dir /\
        so_value o_spd = Some s /\ so_value o_dir = Some d) ->
  NoDup (suffixes pairs) ->
  forall df : dict RawColumn,
    exists df',
      fold_result (snapshot_wind_step np_sin np_cos obs) pairs df = Ok df' /\
      (forall i_spd i_dir o_spd o_dir s d,
          In (i_spd, i_dir) pairs ->
          dict_get obs i_spd = Some o_spd -> dict_get obs i_dir = Some o_dir ->
          so_value o_spd = Some s -> so_value o_dir = Some d ->
          dict_get df' ("wind_u_" ++ this_set i_spd)
          = Some (Some (so_date_time o_spd), SVFloat (u_cell s d)) /\
          dict_get df' ("wind_v_" ++ this_set i_spd)
          = Some (Some (so_date_time o_spd), SVFloat (v_cell s d))) /\
      (forall s,
          ~ In s (suffixes pairs) ->
          dict_get df' ("wind_u_" ++ s) = dict_get df ("wind_u_" ++ s) /\
          dict_get df' ("wind_v_" ++ s) = dict_get df ("wind_v_" ++ s)).
Proof.
  induction pairs as [| [i_spd i_dir] pairs IH]; intros Hobs Hnd df.
  - exists df. simpl. split; [reflexivity |].
    split; [intros ? ? ? ? ? ? [] | intros s _; split; reflexivity].
  - destruct (Hobs i_spd i_dir (or_introl eq_refl))
      as [o_spd [o_dir [s [d [Hs [Hd [Hsv Hdv]]]]]]].
    cbn [fold_result]. unfold snapshot_wind_step at 1.
    rewrite (dict_item_get _ _ _ Hs). cbn [rbind]. rewrite String.eqb_refl.
    rewrite (dict_item_get _ _ _ Hd). cbn [rbind]. rewrite Hsv, Hdv.
    rewrite spddir_to_uv_scalars. cbn [rbind].
    cbn [map fst] in Hnd. apply NoDup_cons_iff in Hnd. destruct Hnd as [Hfresh Hnd'].
    match goal with
    | |- context [fold_result _ pairs ?d0] =>
        destruct (IH (fun a b H => Hobs a b (or_intror H)) Hnd' d0) as
          [df' [Hloop [Hpairs Hrest]]]
    end.
    exists df'. split; [exact Hloop |]. split.
    + intros a b oa ob sa da [E | Hin] Ha Hb Hsa Hda.
      * injection E as <- <-.
        assert (oa = o_spd) by congruence. assert (ob = o_dir) by congruence. subst oa ob.
        assert (sa = s) by congruence. assert (da = d) by congruence. subst sa da.
        destruct (Hrest (this_set i_spd) Hfresh) as [Hu Hv].
        rewrite Hu, Hv. split.
        -- rewrite dict_get_set_other by (simpl; discriminate). apply dict_get_set_same.
        -- apply dict_get_set_same.
      * apply (Hpairs a b oa ob sa da Hin Ha Hb Hsa Hda).
    + intros s0 Hs'. cbn [map fst] in Hs'.
      assert (Hne : this_set i_spd <> s0) by (intros E; apply Hs'; left; exact E).
      assert (Hs'' : ~ In s0 (suffixes pairs)) by (intros E; apply Hs'; right; exact E).
      destruct (Hrest s0 Hs'') as [Hu Hv]. rewrite Hu, Hv.
      split; rewrite !dict_get_set_other; try reflexivity;
        try (simpl; discriminate);
        intros E; apply Hne; apply (wind_label_inj _ _ _ E).
Qed.

(** C8, as the code behaves.  Both builders pair the [k]-th label of the
    [wind_speed] catalog with the [k]-th label of the [wind_direction]
    catalog, whatever the sets of the two labels, and store the vector
    under [wind_u_<set>] and [wind_v_<set>] with the set suffix of the
    speed label; no vector is stored under another suffix, so a direction
    label gets none under its own set unless a paired speed label carries
    that suffix.  Stated for paired speed labels of distinct suffixes.

    Series form: when the frame of the station is built, [UNITS] holds
    [wind_speed] and the paired labels are among the observations, the
    wind loop returns; the two columns of a pair hold, row for row, the
    components computed from the speed and the direction of that row, and
    not-a-number where both are missing; the table of the station is that
    frame after the renaming and [dropna].

    Snapshot form: when the paired slots hold numbers, the wind loop
    returns; the two columns of a pair hold the timestamp text of the
    speed slot and the component; when the builder returns without
    renaming, they are rows of its frame. *)
Theorem wind_columns_pair_catalog_positions :
  (forall (stn : StationSeries) (df : DataFrame) (UNITS : dict string) (unit : string)
          (spd dir : dict pyval),
      (forall l idx, pd_to_datetime_index l = Some idx -> length idx = length l) ->
      series_frame pd_to_datetime_index stn = Ok df ->
      dict_get UNITS "wind_speed" = Some unit ->
      dict_get (st_SENSOR_VARIABLES stn) "wind_speed" = Some spd ->
      dict_get (st_SENSOR_VARIABLES stn) "wind_direction" = Some dir ->
      (forall k i_spd i_dir,
          nth_error (dict_keys spd) k = Some i_spd ->
          nth_error (dict_keys dir) k = Some i_dir ->
          dict_mem (st_obs stn) i_spd = true /\ dict_mem (st_obs stn) i_dir = true) ->
      NoDup (suffixes (wind_pairs (st_SENSOR_VARIABLES stn))) ->
      exists df1 U,
        series_wind np_sin np_cos stn (sort_columns df, UNITS) = Ok (df1, U) /\
        df_index df1 = df_index df /\
        (forall k i_spd i_dir,
            nth_error (dict_keys spd) k = Some i_spd ->
            nth_error (dict_keys dir) k = Some i_dir ->
            exists wspd wdir u v,
              dict_get (st_obs stn) i_spd = Some wspd /\
              dict_get (st_obs stn) i_dir = Some wdir /\
              dict_get (df_columns df1) ("wind_u_" ++ this_set i_spd) = Some u /\
              dict_get (df_columns df1) ("wind_v_" ++ this_set i_spd) = Some v /\
              length u = length (df_index df) /\
              length v = length (df_index df) /\
              forall r s d,
                nth_error wspd r = Some s -> nth_error wdir r = Some d ->
                nth_error u r = Some (u_cell (number s) (number d)) /\
                nth_error v r = Some (v_cell (number s) (number d)) /\
                (s = None -> d = None ->
                 nth_error u r = Some nan /\ nth_error v r = Some nan)) /\
        (forall s,
            ~ In s (suffixes (wind_pairs (st_SENSOR_VARIABLES stn))) ->
            dict_get (df_columns df1) ("wind_u_" ++ s)
            = dict_get (df_columns (sort_columns df)) ("wind_u_" ++ s) /\
            dict_get (df_columns df1) ("wind_v_" ++ s)
            = dict_get (df_columns (sort_columns df)) ("wind_v_" ++ s)) /\
        (forall (rename_set_1 : bool) (params other : dict pyval) (t : SeriesTable)
                (U' : dict string) (log log' : list event),
            series_station np_sin np_cos pd_to_datetime_index py_number
                           rename_set_1 params other stn UNITS log
            = (Ok (t, U'), log') ->
            tb_frame t = dropna_all (if rename_set_1 then _rename_set_1 df1 else df1)))
  /\
  (forall (i : StationSnapshot) (spd dir : dict pyval),
      dict_get (sn_SENSOR_VARIABLES i) "wind_speed" = Some spd ->
      dict_get (sn_SENSOR_VARIABLES i) "wind_direction" = Some dir ->
      (forall k i_spd i_dir,
          nth_error (dict_keys spd) k = Some i_spd ->
          nth_error (dict_keys dir) k = Some i_dir ->
          exists o_spd o_dir s d,
            dict_get (sn_obs i) i_spd = Some o_spd /\ dict_get (sn_obs i) i_dir = Some o_dir /\
            so_value o_spd = Some s /\ so_value o_dir = Some d) ->
      NoDup (suffixes (wind_pairs (sn_SENSOR_VARIABLES i))) ->
      exists cols,
        snapshot_columns np_sin np_cos py_float i = Ok cols /\
        (forall k i_spd i_dir o_spd o_dir s d,
            nth_error (dict_keys spd) k = Some i_spd ->
            nth_error (dict_keys dir) k = Some i_dir ->
            dict_get (sn_obs i) i_spd = Some o_spd -> dict_get (sn_obs i) i_dir = Some o_dir ->
            so_value o_spd = Some s -> so_value o_dir = Some d ->
            dict_get cols ("wind_u_" ++ this_set i_spd)
            = Some (Some (so_date_time o_spd), SVFloat (u_cell s d)) /\
            dict_get cols ("wind_v_" ++ this_set i_spd)
            = Some (Some (so_date_time o_spd), SVFloat (v_cell s d)) /\
            forall frame,
              snapshot_station np_sin np_cos pd_timestamp py_float false i = Ok frame ->
              In {| row_label := "wind_u_" ++ this_set i_spd;
                    row_date_time := pd_timestamp (so_date_time o_spd);
                    row_value := SVFloat (u_cell s d) |} (sf_rows frame) /\
              In {| row_label := "wind_v_" ++ this_set i_spd;
                    row_date_time := pd_timestamp (so_date_time o_spd);
                    row_value := SVFloat (v_cell s d) |} (sf_rows frame)) /\
        (forall s,
            ~ In s (suffixes (wind_pairs (sn_SENSOR_VARIABLES i))) ->
            dict_get cols ("wind_u_" ++ s) = dict_get (snapshot_base i) ("wind_u_" ++ s) /\
            dict_get cols ("wind_v_" ++ s) = dict_get (snapshot_base i) ("wind_v_" ++ s))).
Proof.
  split.
  - intros stn df UNITS unit spd dir Hparse Hframe Hunit Hspd Hdir Hmem Hnd.
    destruct (series_frame_lengths stn df Hframe Hparse) as [_ Hlen].
    assert (Hpairs_eq : wind_pairs (st_SENSOR_VARIABLES stn)
                        = combine (dict_keys spd) (dict_keys dir))
      by (unfold wind_pairs; rewrite Hspd, Hdir; reflexivity).
    assert (Hobs : forall i_spd i_dir,
               In (i_spd, i_dir) (wind_pairs (st_SENSOR_VARIABLES stn)) ->
               exists wspd wdir,
                 dict_get (st_obs stn) i_spd = Some wspd /\
                 dict_get (st_obs stn) i_dir = Some wdir /\
                 length wspd = length (df_index df) /\ length wdir = length (df_index df)).
    { intros i_spd i_dir Hin. rewrite Hpairs_eq in Hin.
      apply In_nth_error in Hin. destruct Hin as [k Hk].
      apply nth_error_combine in Hk. destruct Hk as [Hks Hkd].
      destruct (Hmem k i_spd i_dir Hks Hkd) as [Hms Hmd]. unfold dict_mem in Hms, Hmd.
      destruct (dict_get (st_obs stn) i_spd) as [wspd |] eqn:Es; [| discriminate].
      destruct (dict_get (st_obs stn) i_dir) as [wdir |] eqn:Ed; [| discriminate].
      exists wspd, wdir. repeat split; eauto. }
    destruct (series_wind_loop_columns (st_obs stn) unit (df_index df)
                (wind_pairs (st_SENSOR_VARIABLES stn)) Hobs Hnd
                (sort_columns df) UNITS eq_refl Hunit)
      as [df1 [U [Hloop [Hidx [Hcols Hrest]]]]].
    exists df1, U. split; [exact Hloop |]. split; [exact Hidx |].
    split; [| split; [exact Hrest |]].
    + intros k i_spd i_dir Hks Hkd.
      assert (Hin : In (i_spd, i_dir) (wind_pairs (st_SENSOR_VARIABLES stn))).
      { rewrite Hpairs_eq. apply nth_error_In with k. apply nth_error_combine. auto. }
      destruct (Hobs i_spd i_dir Hin) as [wspd [wdir [Hs [Hd [Hls Hld]]]]].
      destruct (Hcols i_spd i_dir wspd wdir Hin Hs Hd) as [Hu Hv].
      assert (Hlen' : length (np_array wspd) = length (np_array wdir))
        by (unfold np_array; rewrite !length_map; congruence).
      exists wspd, wdir. eexists. eexists.
      split; [exact Hs |]. split; [exact Hd |].
      split; [exact Hu |]. split; [exact Hv |].
      rewrite !zip_with_length by exact Hlen'.
      split; [unfold np_array; rewrite length_map; exact Hls |].
      split; [unfold np_array; rewrite length_map; exact Hls |].
      intros r s d Hrs Hrd.
      rewrite !nth_error_zip_with.
      rewrite (nth_error_np_array _ _ _ Hrs), (nth_error_np_array _ _ _ Hrd).
      split; [reflexivity |]. split; [reflexivity |].
      intros -> ->. destruct missing_pair_is_nan as [Eu Ev].
      cbv beta iota. rewrite Eu, Ev. split; reflexivity.
    + intros rename_set_1 params other t U' log log' H.
      unfold series_station in H.
      apply bind_ok_inv in H. destruct H as [df0 [log0 [Hf H]]].
      unfold lift in Hf. injection Hf as Hf <-.
      assert (df0 = df) by congruence. subst df0.
      apply bind_ok_inv in H. destruct H as [[df1' U1] [log1 [Hw H]]].
      unfold lift in Hw. injection Hw as Hw <-.
      unfold series_wind in Hw. rewrite Hloop in Hw. injection Hw as <- <-.
      apply bind_ok_inv in H. destruct H as [u0 [log2 [_ H]]].
      apply bind_ok_inv in H. destruct H as [attrs1 [log3 [_ H]]].
      apply bind_ok_inv in H. destruct H as [attrs2 [log4 [_ H]]].
      unfold ret in H. injection H as <- _ _. reflexivity.
  - intros i spd dir Hspd Hdir Hslots Hnd.
    assert (Hpairs_eq : wind_pairs (sn_SENSOR_VARIABLES i)
                        = combine (dict_keys spd) (dict_keys dir))
      by (unfold wind_pairs; rewrite Hspd, Hdir; reflexivity).
    assert (Hobs : forall i_spd i_dir,
               In (i_spd, i_dir) (wind_pairs (sn_SENSOR_VARIABLES i)) ->
               exists o_spd o_dir s d,
                 dict_get (sn_obs i) i_spd = Some o_spd /\
                 dict_get (sn_obs i) i_dir = Some o_dir /\
                 so_value o_spd = Some s /\ so_value o_dir = Some d).
    { intros i_spd i_dir Hin. rewrite Hpairs_eq in Hin.
      apply In_nth_error in Hin. destruct Hin as [k Hk].
      apply nth_error_combine in Hk. destruct Hk as [Hks Hkd].
      apply (Hslots k i_spd i_dir Hks Hkd). }
    destruct (snapshot_wind_loop_columns (sn_obs i) (wind_pairs (sn_SENSOR_VARIABLES i))
                Hobs Hnd (snapshot_base i))
      as [cols [Hloop [Hcols Hrest]]].
    exists cols. split; [exact Hloop |]. split; [| exact Hrest].
    intros k i_spd i_dir o_spd o_dir s d Hks Hkd Hs Hd Hsv Hdv.
    assert (Hin : In (i_spd, i_dir) (wind_pairs (sn_SENSOR_VARIABLES i))).
    { rewrite Hpairs_eq. apply nth_error_In with k. apply nth_error_combine. auto. }
    destruct (Hcols i_spd i_dir o_spd o_dir s d Hin Hs Hd Hsv Hdv) as [Hu Hv].
    split; [exact Hu |]. split; [exact Hv |].
    intros frame H. unfold snapshot_station in H.
    change (snapshot_columns np_sin np_cos py_float i)
      with (fold_result (snapshot_wind_step np_sin np_cos (sn_obs i))
                        (wind_pairs (sn_SENSOR_VARIABLES i)) (snapshot_base i)) in H.
    rewrite Hloop in H. cbn [rbind] in H.
    destruct (sn_obs i) as [| o os]; [discriminate |].
    destruct (map_result (snapshot_row pd_timestamp) cols) as [rows |] eqn:Erows;
      [| discriminate].
    cbn [rbind] in H. injection H as <-. cbn [sf_rows].
    assert (Hrow : forall label text val,
               dict_get cols label = Some (Some text, val) ->
               In {| row_label := label; row_date_time := pd_timestamp text;
                     row_value := val |} rows).
    { intros label text val Hget. apply dict_get_In in Hget.
      destruct (map_result_In _ _ _ _ Erows Hget) as [row [Hr Hinr]].
      unfold snapshot_row in Hr. cbn [fst snd] in Hr.
      destruct (pd_timestamp text) as [t |]; [| discriminate].
      injection Hr as <-. exact Hinr. }
    split; apply sort_by_In; apply Hrow; assumption.
Qed.

End WindColumnFacts.

Section BuilderFacts.
Local Open Scope string_scope.
Variable np_sin np_cos : float -> float.
Variable py_repr : pyval -> string.
Variable pd_to_datetime_index : list string -> option (list Z).
Variable py_number : string -> option pyval.

Lemma series_loop_length (rename_set_1 : bool) (params other : dict pyval)
      (stations : list StationSeries) :
  forall (acc : list SeriesTable) (UNITS : dict string) (log : list event)
         (Z : list SeriesTable) (U : dict string) (log' : list event),
    for_each stations
             (fun stn (st : list SeriesTable * dict string) =>
                bind (series_station np_sin np_cos pd_to_datetime_index py_number
                                     rename_set_1 params other stn (snd st))
                     (fun r => ret (app (fst st) [fst r], snd r)))
             (acc, UNITS) log
    = (Ok (Z, U), log') ->
    length Z = length acc + length stations.
Proof.
  induction stations as [| stn stations IH]; intros acc UNITS log Z U log' H; simpl in H.
  - unfold ret in H. injection H as <- _ _. simpl. lia.
  - apply bind_ok_inv in H. destruct H as [[acc1 U1] [log1 [H1 H2]]].
    apply bind_ok_inv in H1. destruct H1 as [r [log0 [_ H1]]].
    unfold ret in H1. injection H1 as <- _ _.
    apply IH in H2. rewrite H2, length_app. simpl. lia.
Qed.

(** C10, as the code behaves: when the table of every station is built,
    a payload with exactly one station returns that station's table
    itself; every other payload, with two or more stations or with none,
    returns the list of the tables, which has one table per station. *)
Theorem one_station_returns_its_table :
  forall (verbose rename_set_1 : bool) (params : dict pyval) (data : SeriesData)
         (Z : list SeriesTable) (U : dict string) (log log1 : list event),
    series_loop np_sin np_cos pd_to_datetime_index py_number rename_set_1 params
                (sd_other data) (sd_STATION data) (sd_UNITS data) log
    = (Ok (Z, U), log1) ->
    let tables := map (share_units U) Z in
    let returned :=
      stations_timeseries_tables np_sin np_cos py_repr pd_to_datetime_index py_number
                                 verbose rename_set_1 params data log in
    length tables = length (sd_STATION data) /\
    (length (sd_STATION data) = 1 ->
     exists df, tables = [df] /\ returned = (Ok (OneTable df), log1)) /\
    (length (sd_STATION data) <> 1 ->
     verbose = false \/ (forall t, In t Z -> dict_get (tb_attrs t) "STID" <> None) ->
     exists log2, returned = (Ok (TableList tables), log2)).
Proof.
  intros verbose rename_set_1 params data Z U log log1 Hloop tables returned.
  assert (Hlen : length tables = length (sd_STATION data)).
  { unfold tables. rewrite length_map.
    unfold series_loop in Hloop. apply series_loop_length in Hloop. simpl in Hloop. exact Hloop. }
  assert (Hret : returned =
                 match tables with
                 | [df] => ret (OneTable df)
                 | _ =>
                     bind (when verbose
                             (bind (lift (map_result (fun t => dict_item (tb_attrs t) "STID") tables))
                                   (fun stids =>
                                      py_print ("Returned [" ++ PyStr.of_nat (length tables)
                                                ++ "] stations. " ++ py_str py_repr (PList stids)))))
                          (fun _ => ret (TableList tables))
                 end log1).
  { unfold returned, stations_timeseries_tables. rewrite (bind_ok _ _ _ _ _ Hloop). reflexivity. }
  split; [exact Hlen |]. split.
  - intros Hone. rewrite Hone in Hlen.
    destruct tables as [| df [| df' rest]]; simpl in Hlen; try discriminate.
    exists df. split; [reflexivity | exact Hret].
  - intros Hmany Hprint. rewrite Hret.
    assert (Hshape : match tables with [df] => False | _ => True end).
    { destruct tables as [| df [| df' rest]]; simpl in Hlen; auto. }
    assert (Hwhen : exists log2,
               when verbose
                    (bind (lift (map_result (fun t => dict_item (tb_attrs t) "STID") tables))
                          (fun stids =>
                             py_print ("Returned [" ++ PyStr.of_nat (length tables)
                                       ++ "] stations. " ++ py_str py_repr (PList stids))))
                    log1 = (Ok tt, log2)).
    { destruct verbose; [| exists log1; reflexivity].
      destruct Hprint as [Hv | Hstid]; [discriminate |].
      destruct (map_result_ok (fun t => dict_item (tb_attrs t) "STID") tables) as [stids Hs].
      { intros t Ht. unfold tables in Ht. apply in_map_iff in Ht.
        destruct Ht as [t0 [<- Ht0]]. simpl. unfold dict_item.
        destruct (dict_get (tb_attrs t0) "STID") as [v |] eqn:E; [eauto |].
        exfalso. apply (Hstid t0 Ht0). exact E. }
      simpl. unfold bind, lift. rewrite Hs. unfold py_print. eauto. }
    destruct Hwhen as [log2 Hwhen]. exists log2.
    destruct tables as [| df [| df' rest]]; try contradiction;
      rewrite (bind_ok _ _ _ _ _ Hwhen); reflexivity.
Qed.

End BuilderFacts.

(* ================================================================== *)
(** * Instances *)

(** The general statement of C1 at the mapping [{"start": "garbage"}]. *)
Lemma unparsable_text_raises_witness :
  exists e log',
    normalize_params sample_repr sample_to_datetime sample_to_timedelta
                     sample_timedelta_of_float sample_token
                     true [("start"%string, PStr "garbage")] []
    = (Raise e, log').
Proof.
  apply (unparsable_text_raises sample_repr sample_to_datetime sample_to_timedelta
           sample_timedelta_of_float sample_token
           true [("start"%string, PStr "garbage")] "start" "garbage").
  - reflexivity.
  - left. split; [simpl; auto | reflexivity].
Defined.

(** What the normalizer does with [{"start": "garbage"}] and with
    [{"within": "soon"}]: one warning, then an exception. *)
Lemma unparsable_start_and_within :
  normalize_params sample_repr sample_to_datetime sample_to_timedelta
                   sample_timedelta_of_float sample_token
                   true [("start"%string, PStr "garbage")] []
  = (Raise (ValueError "Invalid format specifier"),
     [Warning "🐼 Pandas could not parse [start=garbage] as a datetime."])
  /\
  normalize_params sample_repr sample_to_datetime sample_to_timedelta
                   sample_timedelta_of_float sample_token
                   true [("within"%string, PStr "soon")] []
  = (Raise (TypeError "unsupported operand type(s) for /"),
     [Warning "🐼 Pandas could not parse [within=soon] as a timedelta."]).
Proof.
  split; vm_compute; reflexivity.
Qed.

Lemma zero_speed_zero_vector_witness :
  spddir_to_uv sample_sin sample_cos (WScalars (Some 0%float) (Some nan))
  = Ok (UVScalars 0 0)
  /\
  exists u v,
    spddir_to_uv sample_sin sample_cos
                 (WLists [Some 0; Some 2.5; Some (-0)]%float [None; Some 90; Some 45]%float)
    = Ok (UVArrays u v) /\
    length u = 3 /\ length v = 3 /\
    forall i s,
      nth_error [Some 0; Some 2.5; Some (-0)]%float i = Some (Some s) ->
      (s =? 0)%float = true ->
      nth_error u i = Some 0%float /\ nth_error v i = Some 0%float.
Proof.
  split.
  - apply (proj1 (zero_speed_zero_vector sample_sin sample_cos) 0%float nan).
    reflexivity.
  - apply (proj2 (zero_speed_zero_vector sample_sin sample_cos)
                 [Some 0; Some 2.5; Some (-0)]%float [None; Some 90; Some 45]%float).
    reflexivity.
Defined.

Lemma lists_agree_with_scalars_witness :
  exists u v,
    spddir_to_uv sample_sin sample_cos
                 (WLists [Some 0; Some 2.5; None; Some 4]%float
                         [Some 90; Some 45; Some 0; None]%float)
    = Ok (UVArrays u v) /\
    length u = 4 /\ length v = 4 /\
    forall i cs cd,
      nth_error [Some 0; Some 2.5; None; Some 4]%float i = Some cs ->
      nth_error [Some 90; Some 45; Some 0; None]%float i = Some cd ->
      exists ui vi,
        nth_error u i = Some ui /\ nth_error v i = Some vi /\
        spddir_to_uv sample_sin sample_cos
                     (WScalars (Some (match cs with Some s => s | None => nan end))
                               (Some (match cd with Some d => d | None => nan end)))
        = Ok (UVScalars ui vi) /\
        (forall s d, cs = Some s -> cd = Some d ->
                     spddir_to_uv sample_sin sample_cos (WScalars cs cd)
                     = Ok (UVScalars ui vi)) /\
        (cs = None \/ cd = None ->
         exists e, spddir_to_uv sample_sin sample_cos (WScalars cs cd) = Raise e).
Proof.
  apply (lists_agree_with_scalars sample_sin sample_cos
           [Some 0; Some 2.5; None; Some 4]%float
           [Some 90; Some 45; Some 0; None]%float).
  reflexivity.
Defined.

(** Against C3 as stated: on the lists [[None]] and [[None]] the list
    form returns not-a-number at position 0, where the scalar form on the
    pair of entries raises, as it cannot negate [None]. *)
Lemma missing_entry_list_and_scalar :
  spddir_to_uv sample_sin sample_cos (WLists [None] [None]) = Ok (UVArrays [nan] [nan])
  /\ spddir_to_uv sample_sin sample_cos (WScalars None None)
     = Raise (TypeError "bad operand type for unary -: 'NoneType'").
Proof. split; reflexivity. Qed.

(** Ninety seconds are two minutes.  Beyond [2 ^ 53] nanoseconds the
    conversion to binary64 rounds before the division: one nanosecond over
    a million minutes is a million minutes, not a million and one. *)
Lemma ceil_minutes_samples :
  ceil_minutes 90000000000 = 2%Z
  /\ ceil_minutes (-90000000000) = (-1)%Z
  /\ ceil_minutes 60000000000000001 = 1000000%Z.
Proof. repeat split; vm_compute; reflexivity. Qed.

(** The first day of year 1 is written on nine characters, a day of 2020
    on twelve. *)
Lemma strftime_YmdHM_samples :
  strftime_YmdHM {| year := 1; month := 1; day := 1; hour := 0; minute := 0 |}
  = "101010000"%string
  /\ strftime_YmdHM {| year := 2020; month := 1; day := 31; hour := 9; minute := 5 |}
     = "202001310905"%string.
Proof. split; vm_compute; reflexivity. Qed.

(** A station without observations: the snapshot builder raises on the
    missing [date_time] row. *)
Lemma snapshot_without_observations_raises :
  snapshot_station sample_sin sample_cos sample_timestamp sample_float true
                   {| sn_fields := [("STID"%string, PStr "WBB")];
                      sn_obs := [];
                      sn_SENSOR_VARIABLES := [] |}
  = Raise (KeyError "date_time").
Proof. reflexivity. Qed.

(** The normalizer on [{"recent": 2}]: the minutes are the integer 2, not
    the string ["2"]. *)
Lemma recent_2_is_not_a_string :
  exists out,
    normalize_params sample_repr sample_to_datetime sample_to_timedelta
                     sample_timedelta_of_float sample_token
                     true [("recent"%string, PInt 2)] []
    = (Ok out, [Printed "Checking for data recent=2 minutes."])
    /\ dict_get out "recent" = Some (PInt 2)
    /\ dict_get out "recent" <> Some (PStr "2").
Proof.
  eexists. split; [vm_compute; reflexivity |].
  split; [reflexivity | discriminate].
Qed.

Lemma duration_keys_become_integer_minutes_witness :
  exists out log2,
    normalize_params sample_repr sample_to_datetime sample_to_timedelta
                     sample_timedelta_of_float sample_token
                     true [("recent"%string, PInt 2)] []
    = (Ok out, log2) /\
    (forall i dt,
        In i duration_keys ->
        dict_get [("recent"%string, PInt 2); ("token"%string, sample_token)] i = Some dt ->
        exists ns,
          duration_of sample_to_timedelta sample_timedelta_of_float dt = Some ns /\
          dict_get out i = Some (PInt (ceil_minutes ns)) /\
          ((Z.abs ns < 2 ^ 52)%Z ->
           ((ceil_minutes ns - 1) * minute_ns < ns <= ceil_minutes ns * minute_ns)%Z) /\
          (forall n : Z,
              ns = (n * minute_ns)%Z -> (Z.abs ns < 2 ^ 63)%Z -> ceil_minutes ns = n)) /\
    (forall k, ~ In k duration_keys ->
               dict_get out k
               = dict_get [("recent"%string, PInt 2); ("token"%string, sample_token)] k).
Proof.
  apply (duration_keys_become_integer_minutes
           sample_repr sample_to_datetime sample_to_timedelta
           sample_timedelta_of_float sample_token
           true [("recent"%string, PInt 2)]
           [("recent"%string, PInt 2); ("token"%string, sample_token)] [] []).
  - reflexivity.
  - intros i dt [<- | [<- | []]] H; simpl in H; inversion H; subst.
    vm_compute. discriminate.
Defined.




(** A rejected request to the [auth] service returns the response: no
    exception is raised. *)
Lemma rejected_auth_request_returns :
  synoptic_api sample_repr sample_to_datetime sample_to_timedelta
               sample_timedelta_of_float sample_token
               (sample_rejecting_get 2 "Invalid API key.") sample_unquote
               "auth" false false [("apikey"%string, PStr "not-a-key")] []
  = (Ok {| resp_url := "https://api.synopticdata.com/v2/auth?token=0123456789abcdef0123456789abcdef&stid=WBB";
           RESPONSE_CODE := 2;
           RESPONSE_MESSAGE := "Invalid API key." |}, []).
Proof. vm_compute. reflexivity. Qed.

(** With [hide_token] set, the message of the assertion error still holds
    the token: the redaction is applied only to the URL that is printed
    after the check. *)
Lemma hidden_token_shows_in_error :
  synoptic_api sample_repr sample_to_datetime sample_to_timedelta
               sample_timedelta_of_float sample_token
               (sample_rejecting_get 2 "No stations found for this request.") sample_unquote
               "timeseries" false true [("stid"%string, PStr "WBB")] []
  = (Raise (AssertionError
              "🛑 There are errors in the API request https://api.synopticdata.com/v2/stations/timeseries?token=0123456789abcdef0123456789abcdef&stid=WBB. No stations found for this request."),
     [])
  /\
  redact_token "https://api.synopticdata.com/v2/stations/timeseries?token=0123456789abcdef0123456789abcdef&stid=WBB"
  = "https://api.synopticdata.com/v2/stations/timeseries?token=🙈HIDDEN&stid=WBB"%string.
Proof. split; vm_compute; reflexivity. Qed.

Lemma remote_rejection_raises_witness :
  synoptic_api sample_repr sample_to_datetime sample_to_timedelta
               sample_timedelta_of_float sample_token
               (sample_rejecting_get 2 "No stations found for this request.") sample_unquote
               "timeseries" true false [("stid"%string, PStr "WBB"); ("recent"%string, PInt 30)] []
  = (Raise (AssertionError
              (api_error_message
                 "https://api.synopticdata.com/v2/stations/timeseries?token=0123456789abcdef0123456789abcdef&stid=WBB"
                 "No stations found for this request.")),
     [Printed "Checking for data recent=30 minutes."])
  /\ PyStr.contains
       "https://api.synopticdata.com/v2/stations/timeseries?token=0123456789abcdef0123456789abcdef&stid=WBB"
       (api_error_message
          "https://api.synopticdata.com/v2/stations/timeseries?token=0123456789abcdef0123456789abcdef&stid=WBB"
          "No stations found for this request.") = true
  /\ PyStr.contains
       "No stations found for this request."
       (api_error_message
          "https://api.synopticdata.com/v2/stations/timeseries?token=0123456789abcdef0123456789abcdef&stid=WBB"
          "No stations found for this request.") = true.
Proof.
  apply (remote_rejection_raises
           sample_repr sample_to_datetime sample_to_timedelta
           sample_timedelta_of_float sample_token
           (sample_rejecting_get 2 "No stations found for this request.") sample_unquote
           "timeseries"%string true false
           [("stid"%string, PStr "WBB"); ("recent"%string, PInt 30)]
           [("stid"%string, PStr "WBB"); ("recent"%string, PInt 30);
            ("token"%string, sample_token)]
           [] [Printed "Checking for data recent=30 minutes."]).
  - reflexivity.
  - discriminate.
  - reflexivity.
  - discriminate.
Defined.

(** A catalog whose first speed label is of set 1 and whose only
    direction label is of set 2: the two are paired.  The table of the
    station holds under [wind_u_set_1] and [wind_v_set_1] the vector of
    the speed of set 1 with the direction of set 2, and no vector for
    set 2, whose speed and direction are both reported. *)
Lemma wind_pair_across_sets :
  wind_pairs sample_two_anemometers
  = [("wind_speed_set_1"%string, "wind_direction_set_2"%string)]
  /\ this_set "wind_speed_set_1" = "set_1"%string
  /\ this_set "wind_direction_set_2" = "set_2"%string
  /\ exists table UNITS u v,
      series_station sample_sin sample_cos sample_index sample_number
                     false [] [] sample_two_anemometer_station sample_units []
      = (Ok (table, UNITS), [])
      /\ map fst (df_columns (tb_frame table))
         = ["wind_direction_set_2"; "wind_speed_set_1"; "wind_speed_set_2";
            "wind_u_set_1"; "wind_v_set_1"]%string
      /\ spddir_to_uv sample_sin sample_cos
                      (WLists [Some 2.5; Some 0]%float [Some 90; None]%float)
         = Ok (UVArrays u v)
      /\ dict_get (df_columns (tb_frame table)) "wind_u_set_1" = Some u
      /\ dict_get (df_columns (tb_frame table)) "wind_v_set_1" = Some v.
Proof.
  split; [reflexivity |]. split; [reflexivity |]. split; [reflexivity |].
  eexists. eexists. eexists. eexists.
  split; [vm_compute; reflexivity |].
  split; [reflexivity |].
  split; [vm_compute; reflexivity |].
  split; reflexivity.
Qed.

(** A payload without stations returns a list, the empty one. *)
Lemma no_station_returns_empty_list :
  stations_timeseries_tables sample_sin sample_cos sample_repr sample_index sample_number
                             false true [] (sample_payload []) []
  = (Ok (TableList []), []).
Proof. reflexivity. Qed.

(** The series builder on the sample station, names kept: the wind
    columns follow the sorted source columns, row by row. *)
Lemma sample_station_wind_columns :
  exists table UNITS,
    series_station sample_sin sample_cos sample_index sample_number
                   false [] [] sample_station sample_units []
    = (Ok (table, UNITS), [])
    /\ df_columns (tb_frame table)
       = [("air_temp_set_1"%string, [20.5; 21.5]%float);
          ("wind_direction_set_1"%string, [90; nan]%float);
          ("wind_speed_set_1"%string, [0; nan]%float);
          ("wind_u_set_1"%string, [0; nan]%float);
          ("wind_v_set_1"%string, [0; nan]%float)].
Proof. eexists. eexists. split; vm_compute; reflexivity. Qed.

Lemma wind_columns_pair_catalog_positions_witness :
  (exists df1 U,
      series_wind sample_sin sample_cos sample_two_anemometer_station
                  (sort_columns sample_two_anemometer_frame, sample_units)
      = Ok (df1, U) /\
      df_index df1 = df_index sample_two_anemometer_frame /\
      (forall k i_spd i_dir,
          nth_error (dict_keys [("wind_speed_set_1"%string, PNone);
                                ("wind_speed_set_2"%string, PNone)]) k = Some i_spd ->
          nth_error (dict_keys [("wind_direction_set_2"%string, PNone)]) k = Some i_dir ->
          exists wspd wdir u v,
            dict_get (st_obs sample_two_anemometer_station) i_spd = Some wspd /\
            dict_get (st_obs sample_two_anemometer_station) i_dir = Some wdir /\
            dict_get (df_columns df1) ("wind_u_" ++ this_set i_spd) = Some u /\
            dict_get (df_columns df1) ("wind_v_" ++ this_set i_spd) = Some v /\
            length u = length (df_index sample_two_anemometer_frame) /\
            length v = length (df_index sample_two_anemometer_frame) /\
            forall r s d,
              nth_error wspd r = Some s -> nth_error wdir r = Some d ->
              nth_error u r
              = Some (np_round3
                        (if (match s with Some x => x | None => nan end =? 0)%float
                         then 0%float
                         else u_of sample_sin (match s with Some x => x | None => nan end)
                                   (match d with Some x => x | None => nan end))) /\
              nth_error v r
              = Some (np_round3
                        (if (match s with Some x => x | None => nan end =? 0)%float
                         then 0%float
                         else v_of sample_cos (match s with Some x => x | None => nan end)
                                   (match d with Some x => x | None => nan end))) /\
              (s = None -> d = None -> nth_error u r = Some nan /\ nth_error v r = Some nan)) /\
      (forall s,
          ~ In s (map (fun p : string * string => this_set (fst p))
                      (wind_pairs (st_SENSOR_VARIABLES sample_two_anemometer_station))) ->
          dict_get (df_columns df1) ("wind_u_" ++ s)
          = dict_get (df_columns (sort_columns sample_two_anemometer_frame)) ("wind_u_" ++ s) /\
          dict_get (df_columns df1) ("wind_v_" ++ s)
          = dict_get (df_columns (sort_columns sample_two_anemometer_frame)) ("wind_v_" ++ s)) /\
      (forall (rename_set_1 : bool) (params other : dict pyval) (t : SeriesTable)
              (U' : dict string) (log log' : list event),
          series_station sample_sin sample_cos sample_index sample_number
                         rename_set_1 params other sample_two_anemometer_station
                         sample_units log
          = (Ok (t, U'), log') ->
          tb_frame t = dropna_all (if rename_set_1 then _rename_set_1 df1 else df1)))
  /\
  (exists cols,
      snapshot_columns sample_sin sample_cos sample_float sample_two_anemometer_snapshot
      = Ok cols /\
      (forall k i_spd i_dir o_spd o_dir s d,
          nth_error (dict_keys [("wind_speed_value_1"%string, PNone);
                                ("wind_speed_value_2"%string, PNone)]) k = Some i_spd ->
          nth_error (dict_keys [("wind_direction_value_2"%string, PNone)]) k = Some i_dir ->
          dict_get (sn_obs sample_two_anemometer_snapshot) i_spd = Some o_spd ->
          dict_get (sn_obs sample_two_anemometer_snapshot) i_dir = Some o_dir ->
          so_value o_spd = Some s -> so_value o_dir = Some d ->
          dict_get cols ("wind_u_" ++ this_set i_spd)
          = Some (Some (so_date_time o_spd),
                  SVFloat (np_round3 (if (s =? 0)%float then 0%float
                                      else u_of sample_sin s d))) /\
          dict_get cols ("wind_v_" ++ this_set i_spd)
          = Some (Some (so_date_time o_spd),
                  SVFloat (np_round3 (if (s =? 0)%float then 0%float
                                      else v_of sample_cos s d))) /\
          forall frame,
            snapshot_station sample_sin sample_cos sample_timestamp sample_float false
                             sample_two_anemometer_snapshot
            = Ok frame ->
            In {| row_label := ("wind_u_" ++ this_set i_spd)%string;
                  row_date_time := sample_timestamp (so_date_time o_spd);
                  row_value := SVFloat (np_round3 (if (s =? 0)%float then 0%float
                                                   else u_of sample_sin s d)) |}
               (sf_rows frame) /\
            In {| row_label := ("wind_v_" ++ this_set i_spd)%string;
                  row_date_time := sample_timestamp (so_date_time o_spd);
                  row_value := SVFloat (np_round3 (if (s =? 0)%float then 0%float
                                                   else v_of sample_cos s d)) |}
               (sf_rows frame)) /\
      (forall s,
          ~ In s (map (fun p : string * string => this_set (fst p))
                      (wind_pairs (sn_SENSOR_VARIABLES sample_two_anemometer_snapshot))) ->
          dict_get cols ("wind_u_" ++ s)
          = dict_get (fold_left (snapshot_field sample_float)
                                (snapshot_items sample_two_anemometer_snapshot)
                                (map (fun c : string * SlotObs =>
                                        (fst c, (Some (so_date_time (snd c)),
                                                 cell_value (so_value (snd c)))))
                                     (sn_obs sample_two_anemometer_snapshot)))
                     ("wind_u_" ++ s) /\
          dict_get cols ("wind_v_" ++ s)
          = dict_get (fold_left (snapshot_field sample_float)
                                (snapshot_items sample_two_anemometer_snapshot)
                                (map (fun c : string * SlotObs =>
                                        (fst c, (Some (so_date_time (snd c)),
                                                 cell_value (so_value (snd c)))))
                                     (sn_obs sample_two_anemometer_snapshot)))
                     ("wind_v_" ++ s))).
Proof.
  pose proof (wind_columns_pair_catalog_positions
                sample_sin sample_cos sample_index sample_timestamp sample_number
                sample_float) as [Hseries Hsnap].
  split.
  - apply (Hseries sample_two_anemometer_station sample_two_anemometer_frame
                   sample_units "m/s"%string
                   [("wind_speed_set_1"%string, PNone); ("wind_speed_set_2"%string, PNone)]
                   [("wind_direction_set_2"%string, PNone)]).
    + intros l idx H. injection H as <-. rewrite length_map, length_seq. reflexivity.
    + reflexivity.
    + reflexivity.
    + reflexivity.
    + reflexivity.
    + intros k i_spd i_dir Hs Hd. destruct k as [| k].
      * simpl in Hs, Hd. injection Hs as <-. injection Hd as <-. split; reflexivity.
      * destruct k; discriminate.
    + vm_compute. repeat constructor. intros [].
  - apply (Hsnap sample_two_anemometer_snapshot
                 [("wind_speed_value_1"%string, PNone); ("wind_speed_value_2"%string, PNone)]
                 [("wind_direction_value_2"%string, PNone)]).
    + reflexivity.
    + reflexivity.
    + intros k i_spd i_dir Hs Hd. destruct k as [| k].
      * simpl in Hs, Hd. injection Hs as <-. injection Hd as <-.
        eexists. eexists. eexists. eexists. repeat split; reflexivity.
      * destruct k; discriminate.
    + vm_compute. repeat constructor. intros [].
Defined.

Lemma one_station_returns_its_table_witness :
  (exists df,
      stations_timeseries_tables sample_sin sample_cos sample_repr sample_index sample_number
                                 true true [] (sample_payload [sample_station]) []
      = (Ok (OneTable df), []))
  /\
  (exists tables log2,
      length tables = 2 /\
      stations_timeseries_tables sample_sin sample_cos sample_repr sample_index sample_number
                                 true true []
                                 (sample_payload [sample_station; sample_station]) []
      = (Ok (TableList tables), log2)).
Proof.
  split.
  - edestruct (one_station_returns_its_table
                 sample_sin sample_cos sample_repr sample_index sample_number
                 true true [] (sample_payload [sample_station])) as [_ [Hone _]].
    + lazy. reflexivity.
    + destruct (Hone eq_refl) as [df [_ Hret]]. exists df. exact Hret.
  - edestruct (one_station_returns_its_table
                 sample_sin sample_cos sample_repr sample_index sample_number
                 true true [] (sample_payload [sample_station; sample_station]))
      as [Hlen [_ Hmany]].
    + lazy. reflexivity.
    + destruct Hmany as [log2 Hret].
      * discriminate.
      * right. intros t [<- | [<- | []]]; discriminate.
      * eexists. exists log2. split; [exact Hlen | exact Hret].
Defined.

(* ================================================================== *)
(** * Further properties of the code *)

(** ** Disambiguator: labels outside every family, and collisions *)

Section UnmarkedLabels.
Local Open Scope string_scope.
Variable marker : string.
Variable Score : Type.
Variable gt : Score -> Score -> bool.
Variable no_score : Score.

Lemma rename_target_unmarked (labels : list string) (scores : list Score)
      (i : nat) (v : string) :
  nth_error labels i = Some v ->
  PyStr.contains marker v = false ->
  (forall w, In w labels -> PyStr.startswith w (v ++ marker) = false) ->
  rename_target marker gt no_score labels scores i = v.
Proof.
  intros Hi Hv Hext.
  assert (Hname : nth i (map (strip_marker marker) labels) "" = v).
  { apply nth_error_nth. rewrite nth_error_map, Hi. simpl.
    unfold strip_marker. rewrite Hv. reflexivity. }
  unfold rename_target. rewrite Hname.
  replace (var_idx marker labels v) with (@nil nat).
  - apply nth_error_nth. exact Hi.
  - symmetry. unfold var_idx. apply np_where_none.
    intros b Hb. apply in_map_iff in Hb. destruct Hb as [w [<- Hw]]. apply Hext. exact Hw.
Qed.

Variables a b : string.
Hypothesis marker_shape : marker = String "_" (a ++ String "_" b).
Hypothesis marker_word : PyStr.contains "_" a = false.

(** A bare label [base] beside the only member of its family: the loop
    stores [base] for both. *)
Lemma rename_target_bare_and_member (labels : list string) (scores : list Score)
      (i j : nat) (base sfx : string) :
  nth_error labels i = Some (base ++ marker ++ sfx) ->
  PyStr.contains "_" (b ++ sfx) = false ->
  length (var_idx marker labels base) = 1 ->
  nth_error labels j = Some base ->
  PyStr.contains marker base = false ->
  rename_target marker gt no_score labels scores i = base /\
  rename_target marker gt no_score labels scores j = base /\
  i <> j.
Proof.
  intros Hi Hs Hone Hj Hbase.
  destruct (rename_target_member marker Score gt no_score a b marker_shape marker_word
              labels scores i base sfx Hi Hs) as [HiG Ht].
  assert (HG : var_idx marker labels base = [i]).
  { destruct (var_idx marker labels base) as [| k [| k' G]]; simpl in Hone; try discriminate.
    destruct HiG as [-> | []]. reflexivity. }
  assert (Hnamei : nth i (map (strip_marker marker) labels) "" = base).
  { apply nth_error_nth. rewrite nth_error_map, Hi. simpl. f_equal.
    apply (strip_marker_member marker a b marker_shape marker_word). exact Hs. }
  assert (Hnamej : nth j (map (strip_marker marker) labels) "" = base).
  { apply nth_error_nth. rewrite nth_error_map, Hj. simpl.
    unfold strip_marker. rewrite Hbase. reflexivity. }
  split; [| split].
  - unfold rename_target. rewrite Hnamei, HG. exact Hnamei.
  - unfold rename_target. rewrite Hnamej, HG. exact Hnamei.
  - intros ->. rewrite Hi in Hj. injection Hj as Hj.
    rewrite <- Hj in Hbase. rewrite contains_app in Hbase. discriminate.
Qed.

End UnmarkedLabels.

Lemma NoDup_nth_error_eq {A} (l : list A) (i j : nat) (x : A) :
  NoDup l -> nth_error l i = Some x -> nth_error l j = Some x -> i = j.
Proof.
  intros Hnd Hi Hj. apply (proj1 (NoDup_nth_error l) Hnd).
  - apply nth_error_Some. congruence.
  - congruence.
Qed.

(** X1: a label that does not hold the text [_set_1] (or [_value_1]) and
    that no label extends with it keeps its name: metadata rows, bare
    names, and the labels of sets 2 to 9. *)
Theorem unmarked_label_keeps_name :
  (forall (df : DataFrame) (i : nat) (v : string),
      let labels := map fst (df_columns df) in
      NoDup labels ->
      nth_error labels i = Some v ->
      PyStr.contains "_set_1" v = false ->
      (forall w, In w labels -> PyStr.startswith w (v ++ "_set_1") = false) ->
      nth_error (map fst (df_columns (_rename_set_1 df))) i = Some v)
  /\
  (forall (V : Type) (df : SnapFrame V) (i : nat) (v : string),
      let labels := map (@row_label V) (sf_rows df) in
      NoDup labels ->
      nth_error labels i = Some v ->
      PyStr.contains "_value_1" v = false ->
      (forall w, In w labels -> PyStr.startswith w (v ++ "_value_1") = false) ->
      nth_error (map (@row_label V) (sf_rows (_rename_value_1 df))) i = Some v).
Proof.
  split.
  - intros df i v labels Hnd Hi Hv Hext.
    unfold _rename_set_1. simpl. rewrite map_map. simpl.
    rewrite <- (map_map fst (apply_renames _)).
    erewrite renamed_label_at by exact Hi.
    rewrite (apply_rename_loop_at _ _ _ _ _ _ i) by assumption.
    f_equal. apply rename_target_unmarked; assumption.
  - intros V df i v labels Hnd Hi Hv Hext.
    unfold _rename_value_1. simpl. rewrite map_map. simpl.
    rewrite <- (map_map (@row_label V) (apply_renames _)).
    erewrite renamed_label_at by exact Hi.
    rewrite (apply_rename_loop_at _ _ _ _ _ _ i) by assumption.
    f_equal. apply rename_target_unmarked; assumption.
Qed.

(** X2: renaming can produce a duplicate name.  When the table has a
    column [base] and, as the only member of its family, a column
    [base_set_1<sfx>], both columns are called [base] afterwards; the same
    holds for the rows of a snapshot. *)
Theorem bare_label_and_sole_member_collide :
  (forall (df : DataFrame) (i j : nat) (base sfx : string),
      let labels := map fst (df_columns df) in
      let renamed := map fst (df_columns (_rename_set_1 df)) in
      NoDup labels ->
      nth_error labels i = Some (base ++ "_set_1" ++ sfx)%string ->
      PyStr.contains "_" sfx = false ->
      length (var_idx "_set_1" labels base) = 1 ->
      nth_error labels j = Some base ->
      PyStr.contains "_set_1" base = false ->
      nth_error renamed i = Some base /\ nth_error renamed j = Some base /\
      i <> j /\ ~ NoDup renamed)
  /\
  (forall (V : Type) (df : SnapFrame V) (i j : nat) (base sfx : string),
      let labels := map (@row_label V) (sf_rows df) in
      let renamed := map (@row_label V) (sf_rows (_rename_value_1 df)) in
      NoDup labels ->
      nth_error labels i = Some (base ++ "_value_1" ++ sfx)%string ->
      PyStr.contains "_" sfx = false ->
      length (var_idx "_value_1" labels base) = 1 ->
      nth_error labels j = Some base ->
      PyStr.contains "_value_1" base = false ->
      nth_error renamed i = Some base /\ nth_error renamed j = Some base /\
      i <> j /\ ~ NoDup renamed).
Proof.
  split.
  - intros df i j base sfx labels renamed Hnd Hi Hs Hone Hj Hbase.
    assert (Hs' : PyStr.contains "_" ("1" ++ sfx) = false)
      by (simpl; rewrite Hs; reflexivity).
    destruct (rename_target_bare_and_member "_set_1" nat count_gt 0 "set" "1"
                eq_refl eq_refl labels (df_count df) i j base sfx Hi Hs' Hone Hj Hbase)
      as [Hti [Htj Hij]].
    assert (Hat : forall k v, nth_error labels k = Some v ->
                nth_error renamed k
                = Some (rename_target "_set_1" count_gt 0 labels (df_count df) k)).
    { intros k v Hk. unfold renamed, _rename_set_1. simpl. rewrite map_map. simpl.
      rewrite <- (map_map fst (apply_renames _)).
      erewrite renamed_label_at by exact Hk.
      rewrite (apply_rename_loop_at _ _ _ _ _ _ k) by assumption. reflexivity. }
    assert (Hri : nth_error renamed i = Some base)
      by (rewrite (Hat i _ Hi); f_equal; exact Hti).
    assert (Hrj : nth_error renamed j = Some base)
      by (rewrite (Hat j _ Hj); f_equal; exact Htj).
    split; [exact Hri |]. split; [exact Hrj |]. split; [exact Hij |].
    intros Hnd'. apply Hij. exact (NoDup_nth_error_eq renamed i j base Hnd' Hri Hrj).
  - intros V df i j base sfx labels renamed Hnd Hi Hs Hone Hj Hbase.
    assert (Hs' : PyStr.contains "_" ("1" ++ sfx) = false)
      by (simpl; rewrite Hs; reflexivity).
    destruct (rename_target_bare_and_member "_value_1" (option Z) timestamp_gt None "value" "1"
                eq_refl eq_refl labels (map (@row_date_time V) (sf_rows df)) i j base sfx
                Hi Hs' Hone Hj Hbase)
      as [Hti [Htj Hij]].
    assert (Hat : forall k v, nth_error labels k = Some v ->
                nth_error renamed k
                = Some (rename_target "_value_1" timestamp_gt None labels
                                      (map (@row_date_time V) (sf_rows df)) k)).
    { intros k v Hk. unfold renamed, _rename_value_1. simpl. rewrite map_map. simpl.
      rewrite <- (map_map (@row_label V) (apply_renames _)).
      erewrite renamed_label_at by exact Hk.
      rewrite (apply_rename_loop_at _ _ _ _ _ _ k) by assumption. reflexivity. }
    assert (Hri : nth_error renamed i = Some base)
      by (rewrite (Hat i _ Hi); f_equal; exact Hti).
    assert (Hrj : nth_error renamed j = Some base)
      by (rewrite (Hat j _ Hj); f_equal; exact Htj).
    split; [exact Hri |]. split; [exact Hrj |]. split; [exact Hij |].
    intros Hnd'. apply Hij. exact (NoDup_nth_error_eq renamed i j base Hnd' Hri Hrj).
Qed.

(** ** Wind decomposer and the wind loops *)

Lemma fold_result_raises {A St} (step : A -> St -> result St) (x : A) (l : list A) :
  In x l ->
  (forall st, exists e, step x st = Raise e) ->
  forall st, exists e, fold_result step l st = Raise e.
Proof.
  intros Hin Hraise. induction l as [| y l IH]; [destruct Hin |].
  intros st. simpl. destruct (step y st) as [st' | e] eqn:E; simpl.
  - destruct Hin as [-> | Hin].
    + destruct (Hraise st) as [e E']. congruence.
    + apply IH. exact Hin.
  - eauto.
Qed.

Section WindLoopFacts.
Local Open Scope string_scope.
Variable np_sin np_cos : float -> float.
Variable pd_to_datetime_index : list string -> option (list Z).
Variable pd_timestamp : string -> option Z.
Variable py_float : pyval -> option float.

Local Abbreviation u_cell :=
  (fun s d : float => np_round3 (if (s =? 0)%float then 0%float else u_of np_sin s d)).
Local Abbreviation v_cell :=
  (fun s d : float => np_round3 (if (s =? 0)%float then 0%float else v_of np_cos s d)).

Lemma missing_speed_cell (d : float) : u_cell nan d = nan /\ v_cell nan d = nan.
Proof.
  unfold u_of, v_of.
  change ((nan =? 0)%float) with false. cbv iota.
  change ((- nan)%float) with nan. rewrite !mul_nan_l. split; reflexivity.
Qed.

(** X3: a missing speed gives a missing wind vector, whatever the
    direction: at every position of equal-length lists where the speed is
    [None] or not-a-number both components are not-a-number, and so are
    the components of a scalar pair whose speed is not-a-number. *)
Theorem missing_speed_missing_vector :
  (forall wspd wdir : list cell,
      length wspd = length wdir ->
      exists u v,
        spddir_to_uv np_sin np_cos (WLists wspd wdir) = Ok (UVArrays u v) /\
        forall i c,
          nth_error wspd i = Some c -> c = None \/ c = Some nan ->
          nth_error u i = Some nan /\ nth_error v i = Some nan)
  /\
  (forall d : float,
      spddir_to_uv np_sin np_cos (WScalars (Some nan) (Some d)) = Ok (UVScalars nan nan)).
Proof.
  split.
  - intros wspd wdir Hlen.
    eexists. eexists. split; [apply spddir_to_uv_lists; exact Hlen |].
    intros i c Hi Hc.
    assert (Hsp : nth_error (np_array wspd) i = Some nan).
    { unfold np_array. rewrite nth_error_map, Hi. destruct Hc as [-> | ->]; reflexivity. }
    assert (Hd : exists d, nth_error (np_array wdir) i = Some d).
    { destruct (nth_error (np_array wdir) i) as [d |] eqn:E; [eauto |].
      apply nth_error_None in E.
      assert (i < length wspd) by (apply nth_error_Some; congruence).
      unfold np_array in E. rewrite length_map in E. exfalso. lia. }
    destruct Hd as [d Hd].
    rewrite !nth_error_zip_with, Hsp, Hd.
    destruct (missing_speed_cell d) as [Eu Ev]. cbv beta in Eu, Ev.
    rewrite Eu, Ev. split; reflexivity.
  - intros d. rewrite spddir_to_uv_scalars.
    destruct (missing_speed_cell d) as [Eu Ev]. cbv beta in Eu, Ev.
    rewrite Eu, Ev. reflexivity.
Qed.

Lemma not_wind_label (k x : string) (p : string) :
  PyStr.startswith k p = false -> (p ++ x)%string <> k.
Proof.
  intros Hk E. subst k. unfold PyStr.startswith in Hk.
  rewrite prefix_app_self in Hk. discriminate.
Qed.

Lemma series_wind_loop (obs : dict (list cell)) (unit : string) (index : list Z)
      (pairs : list (string * string)) :
  (forall i_spd i_dir,
      In (i_spd, i_dir) pairs ->
      exists wspd wdir,
        dict_get obs i_spd = Some wspd /\ dict_get obs i_dir = Some wdir /\
        length wspd = length index /\ length wdir = length index) ->
  forall (df : DataFrame) (UNITS : dict string),
    df_index df = index ->
    dict_get UNITS "wind_speed" = Some unit ->
    exists df' UNITS',
      fold_result (series_wind_step np_sin np_cos obs) pairs (df, UNITS) = Ok (df', UNITS') /\
      df_index df' = index /\
      df_RENAMED df' = df_RENAMED df /\
      (forall k, PyStr.startswith k "wind_u_" = false ->
                 PyStr.startswith k "wind_v_" = false ->
                 dict_get (df_columns df') k = dict_get (df_columns df) k) /\
      (forall k, k <> "wind_u" -> k <> "wind_v" -> dict_get UNITS' k = dict_get UNITS k) /\
      (pairs <> [] ->
       dict_get UNITS' "wind_u" = Some unit /\ dict_get UNITS' "wind_v" = Some unit).
Proof.
  induction pairs as [| [i_spd i_dir] pairs IH]; intros Hobs df UNITS Hidx Hunit.
  - exists df, UNITS. simpl. repeat split; auto; congruence.
  - destruct (Hobs i_spd i_dir (or_introl eq_refl)) as [wspd [wdir [Hs [Hd [Hls Hld]]]]].
    rewrite <- Hidx in Hls, Hld.
    pose proof (series_wind_step_result np_sin np_cos obs i_spd i_dir df UNITS wspd wdir unit
                  Hs Hd Hls Hld Hunit) as Hstep.
    cbn [fold_result]. rewrite Hstep. cbn [rbind].
    match goal with
    | |- context [fold_result _ pairs (?d, ?U)] =>
        destruct (IH (fun a b H => Hobs a b (or_intror H)) d U) as
          [df' [UNITS' [Hloop [Hi' [Hr' [Hc' [Hu' Hw']]]]]]]
    end.
    + exact Hidx.
    + rewrite !dict_get_set_other by discriminate. exact Hunit.
    + exists df', UNITS'. split; [exact Hloop |]. split; [exact Hi' |].
      split; [exact Hr' |]. split; [| split].
      * intros k Hku Hkv. rewrite (Hc' k Hku Hkv). cbn [df_columns].
        rewrite !dict_get_set_other by (apply not_wind_label; assumption). reflexivity.
      * intros k Hku Hkv. rewrite (Hu' k Hku Hkv).
        rewrite !dict_get_set_other by congruence. reflexivity.
      * intros _. destruct pairs as [| p pairs].
        -- simpl in Hloop. injection Hloop as <- <-.
           split; [rewrite dict_get_set_other by discriminate |]; apply dict_get_set_same.
        -- apply Hw'. discriminate.
Qed.

(** X4: the outcomes of the wind loop of the series builder, on a station
    whose frame builds and whose catalog pairs name lists of its
    observations.  When [UNITS] holds [wind_speed] the loop returns: it
    leaves the index and every column whose label does not start with
    [wind_u_] or [wind_v_] as they are, and when it pairs at least one
    sensor it records the unit of [wind_speed] for [wind_u] and [wind_v],
    no other unit being touched.  When no sensor is paired the loop
    returns the frame and the units as they are, whatever [UNITS] holds.
    When a sensor is paired and [UNITS] lacks [wind_speed] the loop
    raises [KeyError] on [wind_speed]. *)
Theorem series_wind_loop_outcomes :
  forall (stn : StationSeries) (df : DataFrame) (UNITS : dict string),
    (forall l idx, pd_to_datetime_index l = Some idx -> length idx = length l) ->
    series_frame pd_to_datetime_index stn = Ok df ->
    (forall i_spd i_dir,
        In (i_spd, i_dir) (wind_pairs (st_SENSOR_VARIABLES stn)) ->
        dict_mem (st_obs stn) i_spd = true /\ dict_mem (st_obs stn) i_dir = true) ->
    (forall unit,
        dict_get UNITS "wind_speed" = Some unit ->
        exists df' UNITS',
          series_wind np_sin np_cos stn (sort_columns df, UNITS) = Ok (df', UNITS') /\
          df_index df' = df_index df /\
          (forall k, PyStr.startswith k "wind_u_" = false ->
                     PyStr.startswith k "wind_v_" = false ->
                     dict_get (df_columns df') k = dict_get (df_columns (sort_columns df)) k) /\
          (forall k, k <> "wind_u" -> k <> "wind_v" -> dict_get UNITS' k = dict_get UNITS k) /\
          (wind_pairs (st_SENSOR_VARIABLES stn) <> [] ->
           dict_get UNITS' "wind_u" = Some unit /\ dict_get UNITS' "wind_v" = Some unit))
    /\
    (wind_pairs (st_SENSOR_VARIABLES stn) = [] ->
     series_wind np_sin np_cos stn (sort_columns df, UNITS) = Ok (sort_columns df, UNITS))
    /\
    (wind_pairs (st_SENSOR_VARIABLES stn) <> [] ->
     dict_get UNITS "wind_speed" = None ->
     series_wind np_sin np_cos stn (sort_columns df, UNITS) = Raise (KeyError "wind_speed")).
Proof.
  intros stn df UNITS Hparse Hframe Hobs.
  destruct (series_frame_lengths pd_to_datetime_index stn df Hframe Hparse) as [_ Hlen].
  assert (Hlists : forall i_spd i_dir,
             In (i_spd, i_dir) (wind_pairs (st_SENSOR_VARIABLES stn)) ->
             exists wspd wdir,
               dict_get (st_obs stn) i_spd = Some wspd /\
               dict_get (st_obs stn) i_dir = Some wdir /\
               length wspd = length (df_index df) /\ length wdir = length (df_index df)).
  { intros i_spd i_dir Hin. destruct (Hobs i_spd i_dir Hin) as [Hms Hmd].
    unfold dict_mem in Hms, Hmd.
    destruct (dict_get (st_obs stn) i_spd) as [wspd |] eqn:Es; [| discriminate].
    destruct (dict_get (st_obs stn) i_dir) as [wdir |] eqn:Ed; [| discriminate].
    exists wspd, wdir. repeat split; eauto. }
  split; [| split].
  - intros unit Hunit.
    destruct (series_wind_loop (st_obs stn) unit (df_index df)
                (wind_pairs (st_SENSOR_VARIABLES stn)) Hlists)
      with (df := sort_columns df) (UNITS := UNITS)
      as [df' [UNITS' [Hloop [Hi [_ [Hc [Hu Hw]]]]]]].
    + reflexivity.
    + exact Hunit.
    + exists df', UNITS'. unfold series_wind. repeat split; auto; apply Hw; assumption.
  - intros Hnone. unfold series_wind. rewrite Hnone. reflexivity.
  - intros Hsome Hunit. unfold series_wind.
    destruct (wind_pairs (st_SENSOR_VARIABLES stn)) as [| [i_spd i_dir] pairs];
      [contradiction |].
    destruct (Hlists i_spd i_dir (or_introl eq_refl)) as [wspd [wdir [Hs [Hd [Hls Hld]]]]].
    assert (Hlen2 : length wspd = length wdir) by congruence.
    assert (Hlen' : length (np_array wspd) = length (np_array wdir))
      by (unfold np_array; rewrite !length_map; exact Hlen2).
    cbn [fold_result]. unfold series_wind_step at 1.
    rewrite (dict_item_get _ _ _ Hs), (dict_item_get _ _ _ Hd). cbn [rbind].
    rewrite (spddir_to_uv_lists np_sin np_cos wspd wdir Hlen2). cbn [rbind].
    unfold set_column at 1. cbn [sort_columns df_index].
    rewrite zip_with_length by exact Hlen'. unfold np_array at 1. rewrite length_map, Hls.
    rewrite Nat.eqb_refl. cbn [rbind].
    unfold set_column at 1. cbn [df_index].
    rewrite zip_with_length by exact Hlen'. unfold np_array at 1. rewrite length_map, Hls.
    rewrite Nat.eqb_refl. cbn [rbind].
    unfold dict_item at 1. rewrite Hunit. reflexivity.
Qed.

(** X5: the snapshot builder fails on a null wind value.  When the
    catalog pairs a speed slot with a direction slot and the value of the
    speed slot, or of the direction slot, is [null], no frame is built for
    the station: the scalar form of the wind decomposer raises. *)
Theorem snapshot_null_wind_value_raises :
  forall (rename_value_1 : bool) (i : StationSnapshot) (i_spd i_dir : string)
         (o_spd : SlotObs),
    In (i_spd, i_dir) (wind_pairs (sn_SENSOR_VARIABLES i)) ->
    dict_get (sn_obs i) i_spd = Some o_spd ->
    so_value o_spd = None
    \/ (exists o_dir, dict_get (sn_obs i) i_dir = Some o_dir /\ so_value o_dir = None) ->
    exists e,
      snapshot_station np_sin np_cos pd_timestamp py_float rename_value_1 i = Raise e.
Proof.
  intros rename_value_1 i i_spd i_dir o_spd Hin Hspd Hnull.
  assert (Hstep : forall df, exists e,
             snapshot_wind_step np_sin np_cos (sn_obs i) (i_spd, i_dir) df = Raise e).
  { intros df. unfold snapshot_wind_step.
    rewrite (dict_item_get _ _ _ Hspd). cbn [rbind]. rewrite String.eqb_refl.
    destruct Hnull as [Hs | [o_dir [Hdir Hd]]].
    - rewrite Hs. destruct (dict_item (sn_obs i) i_dir) as [o_dir | e];
        cbn [rbind spddir_to_uv]; eauto.
    - rewrite (dict_item_get _ _ _ Hdir). cbn [rbind]. rewrite Hd.
      destruct (so_value o_spd); cbn [rbind spddir_to_uv]; eauto. }
  unfold snapshot_station, snapshot_columns.
  match goal with
  | |- context [fold_result ?step ?l ?st] =>
      destruct (fold_result_raises step (i_spd, i_dir) l Hin Hstep st) as [e He]
  end.
  exists e. rewrite He. reflexivity.
Qed.

End WindLoopFacts.

(** ** Dropping the rows without observations *)

Lemma map_nth_seq {A} (d : A) (l : list A) :
  map (fun r => nth r l d) (seq 0 (length l)) = l.
Proof.
  induction l as [| x l IH]; [reflexivity |].
  cbn [length seq map nth]. f_equal.
  rewrite <- seq_shift, map_map. exact IH.
Qed.

Lemma filter_all_true {A} (p : A -> bool) (l : list A) :
  (forall x, In x l -> p x = true) -> filter p l = l.
Proof.
  induction l as [| x l IH]; intros H; [reflexivity |].
  simpl. rewrite (H x (or_introl eq_refl)). f_equal. apply IH.
  intros y Hy. apply H. right. exact Hy.
Qed.

Lemma keep_rows_all {A} (keep : nat -> bool) (l : list A) :
  (forall r, r < length l -> keep r = true) -> keep_rows keep l = l.
Proof.
  intros H. destruct l as [| d l0] eqn:E; [reflexivity |]. rewrite <- E in *.
  rewrite (keep_rows_selection keep d l), filter_all_true.
  - apply map_nth_seq.
  - intros r Hr. apply in_seq in Hr. apply H. lia.
Qed.

Lemma keep_rows_length {A} (keep : nat -> bool) (l : list A) (n : nat) :
  length l = n -> length (keep_rows keep l) = length (filter keep (seq 0 n)).
Proof.
  intros <-. destruct l as [| d l0] eqn:E; [reflexivity |]. rewrite <- E.
  rewrite (keep_rows_selection keep d l), length_map. reflexivity.
Qed.

Lemma keep_rows_nth {A} (keep : nat -> bool) (d : A) (l : list A) (r : nat) :
  r < length (filter keep (seq 0 (length l))) ->
  nth r (keep_rows keep l) d = nth (nth r (filter keep (seq 0 (length l))) 0) l d.
Proof.
  intros Hr. rewrite (keep_rows_selection keep d l).
  rewrite (nth_indep _ d (nth 0 l d)) by (rewrite length_map; exact Hr).
  rewrite (map_nth (fun r => nth r l d)). reflexivity.
Qed.

(** The cells of a dropped row are missing in every column, so a column
    keeps all its observations. *)
Lemma keep_rows_filter_from {A} (keep : nat -> bool) (p : A -> bool) (d : A) (l : list A) :
  forall i,
    (forall r, r < length l -> keep (i + r) = false -> p (nth r l d) = false) ->
    filter p (map snd (filter (fun q => keep (fst q)) (combine (seq i (length l)) l)))
    = filter p l.
Proof.
  induction l as [| x l IH]; intros i H; [reflexivity |].
  assert (Htail : filter p (map snd (filter (fun q => keep (fst q))
                                            (combine (seq (S i) (length l)) l)))
                  = filter p l).
  { apply IH. intros r Hr Hk. apply (H (S r)); [simpl; lia |].
    rewrite Nat.add_succ_r. exact Hk. }
  change (length (x :: l)) with (S (length l)).
  cbn [seq combine filter fst]. destruct (keep i) eqn:Hk; cbn [map snd filter].
  - rewrite Htail. reflexivity.
  - rewrite Htail.
    assert (Hx : p x = false).
    { apply (H 0); [simpl; lia |]. rewrite Nat.add_0_r. exact Hk. }
    rewrite Hx. reflexivity.
Qed.

Lemma row_has_value_false (cols : list (string * list float)) (r : nat) (c : string * list float) :
  In c cols -> row_has_value cols r = false ->
  negb (is_nan (nth r (snd c) nan)) = false.
Proof.
  intros Hc H. unfold row_has_value in H.
  destruct (negb (is_nan (nth r (snd c) nan))) eqn:E; [| reflexivity].
  assert (existsb (fun c => negb (is_nan (nth r (snd c) nan))) cols = true).
  { apply existsb_exists. exists c. split; assumption. }
  congruence.
Qed.

Lemma dropna_all_shape (df : DataFrame) :
  (forall c, In c (df_columns df) -> length (snd c) = length (df_index df)) ->
  forall c, In c (df_columns (dropna_all df)) ->
            length (snd c) = length (df_index (dropna_all df)).
Proof.
  intros Hshape c Hc. unfold dropna_all in *. cbn [df_columns df_index] in *.
  apply in_map_iff in Hc. destruct Hc as [c0 [<- Hc0]]. cbn [snd].
  rewrite (keep_rows_length _ (df_index df) (length (df_index df)) eq_refl).
  apply keep_rows_length. apply Hshape. exact Hc0.
Qed.

Lemma dropna_all_rows (df : DataFrame) :
  (forall c, In c (df_columns df) -> length (snd c) = length (df_index df)) ->
  forall r, r < length (df_index (dropna_all df)) ->
            row_has_value (df_columns (dropna_all df)) r = true.
Proof.
  intros Hshape r Hr.
  set (keep := row_has_value (df_columns df)) in *.
  set (kept := filter keep (seq 0 (length (df_index df)))).
  assert (Hidx : length (df_index (dropna_all df)) = length kept).
  { unfold dropna_all. cbn [df_index]. apply keep_rows_length. reflexivity. }
  rewrite Hidx in Hr.
  assert (Hin : In (nth r kept 0) kept) by (apply nth_In; exact Hr).
  apply filter_In in Hin. destruct Hin as [_ Hkeep].
  unfold keep, row_has_value in Hkeep. apply existsb_exists in Hkeep.
  destruct Hkeep as [c [Hc Hv]].
  unfold row_has_value. apply existsb_exists.
  exists (fst c, keep_rows keep (snd c)). split.
  - unfold dropna_all. cbn [df_columns].
    apply in_map_iff. exists c. split; [reflexivity | exact Hc].
  - cbn [snd]. rewrite keep_rows_nth; rewrite (Hshape c Hc); [exact Hv | exact Hr].
Qed.

(** X6: dropping the rows without observations ([df.dropna(how="all")])
    from a table whose columns have one cell per index entry keeps the
    labels in their order, leaves every column with one cell per remaining
    index entry, leaves no row whose cells are all missing, loses no
    observation (every column keeps its count of non-missing cells) and
    changes nothing when it is applied a second time. *)
Theorem dropna_all_invariants :
  forall df : DataFrame,
    (forall c, In c (df_columns df) -> length (snd c) = length (df_index df)) ->
    let out := dropna_all df in
    map fst (df_columns out) = map fst (df_columns df) /\
    (forall c, In c (df_columns out) -> length (snd c) = length (df_index out)) /\
    (forall r, r < length (df_index out) -> row_has_value (df_columns out) r = true) /\
    df_count out = df_count df /\
    dropna_all out = out.
Proof.
  intros df Hshape out.
  assert (Hcol : forall c, In c (df_columns out) -> length (snd c) = length (df_index out))
    by (apply dropna_all_shape; exact Hshape).
  assert (Hrow : forall r, r < length (df_index out) -> row_has_value (df_columns out) r = true)
    by (apply dropna_all_rows; exact Hshape).
  split; [| split; [exact Hcol | split; [exact Hrow | split]]].
  - unfold out, dropna_all. cbn [df_columns]. rewrite map_map. reflexivity.
  - unfold df_count, out, dropna_all. cbn [df_columns]. rewrite map_map.
    apply map_ext_in. intros c Hc. cbn [snd]. f_equal.
    unfold keep_rows. apply (keep_rows_filter_from _ _ nan).
    intros r Hr Hk. apply (row_has_value_false (df_columns df)); assumption.
  - assert (Hk : forall l : list float,
               length l = length (df_index out) ->
               keep_rows (row_has_value (df_columns out)) l = l).
    { intros l Hl. apply keep_rows_all. intros r Hr. apply Hrow. lia. }
    assert (Hk' : keep_rows (row_has_value (df_columns out)) (df_index out) = df_index out).
    { apply keep_rows_all. intros r Hr. apply Hrow. exact Hr. }
    unfold dropna_all at 1. rewrite Hk'.
    assert (Hc' : map (fun c => (fst c, keep_rows (row_has_value (df_columns out)) (snd c)))
                      (df_columns out) = df_columns out).
    { transitivity (map (fun c : string * list float => c) (df_columns out)); [| apply map_id].
      apply map_ext_in. intros [k l] Hc. cbn [fst snd]. f_equal.
      apply Hk. apply (Hcol (k, l)). exact Hc. }
    rewrite Hc'. destruct out; reflexivity.
Qed.

(** ** Parameter normalizer: keys, pass-through values, token *)

Lemma dict_keys_set_present {V} (d : dict V) (k : string) (v x : V) :
  dict_get d k = Some x -> dict_keys (dict_set d k v) = dict_keys d.
Proof.
  induction d as [| [k' v'] d IH]; simpl; [discriminate |].
  destruct (String.eqb k' k) eqn:E; simpl; [reflexivity |].
  intros H. f_equal. apply IH. exact H.
Qed.

Lemma dict_set_absent {V} (d : dict V) (k : string) (v : V) :
  dict_get d k = None -> dict_set d k v = (d ++ [(k, v)])%list.
Proof.
  induction d as [| [k' v'] d IH]; simpl; [reflexivity |].
  destruct (String.eqb k' k) eqn:E; [discriminate |].
  intros H. f_equal. apply IH. exact H.
Qed.

Lemma dict_keys_set_In {V} (d : dict V) (k k0 : string) (v : V) :
  In k (dict_keys (dict_set d k0 v)) <-> k = k0 \/ In k (dict_keys d).
Proof.
  induction d as [| [k' v'] d IH]; simpl.
  - intuition congruence.
  - destruct (String.eqb_spec k' k0) as [E | E]; simpl.
    + subst k'. intuition congruence.
    + rewrite IH. intuition congruence.
Qed.

Lemma dict_keys_set_NoDup {V} (d : dict V) (k0 : string) (v : V) :
  NoDup (dict_keys d) -> NoDup (dict_keys (dict_set d k0 v)).
Proof.
  induction d as [| [k' v'] d IH]; simpl; intros H.
  - constructor; [intros [] | constructor].
  - inversion H as [| ? ? Hn Hd]; subst.
    destruct (String.eqb_spec k' k0) as [E | E]; simpl.
    + constructor; assumption.
    + constructor; [| apply IH; exact Hd].
      intros Hin. apply dict_keys_set_In in Hin. destruct Hin as [-> | Hin]; auto.
Qed.

Lemma dict_get_keys {V} (d : dict V) (k : string) :
  In k (dict_keys d) <-> dict_get d k <> None.
Proof.
  induction d as [| [k' v'] d IH]; simpl.
  - intuition congruence.
  - destruct (String.eqb_spec k' k) as [E | E].
    + split; [discriminate | auto].
    + rewrite <- IH. intuition congruence.
Qed.

(** The comprehension of step 1) from any accumulator. *)
Lemma lower_fold_skip (p : dict pyval) :
  forall (acc : dict pyval) (k : string),
    (forall kv, In kv p -> PyStr.lower (fst kv) <> k) ->
    dict_get (fold_left (fun acc kv => dict_set acc (PyStr.lower (fst kv)) (snd kv)) p acc) k
    = dict_get acc k.
Proof.
  induction p as [| kv p IH]; intros acc k H; simpl; [reflexivity |].
  rewrite IH by (intros; apply H; right; assumption).
  apply dict_get_set_other. apply H. left. reflexivity.
Qed.

Lemma lower_fold_last (before after : dict pyval) (k0 : string) (v : pyval) (acc : dict pyval) :
  (forall kv, In kv after -> PyStr.lower (fst kv) <> PyStr.lower k0) ->
  dict_get (fold_left (fun acc kv => dict_set acc (PyStr.lower (fst kv)) (snd kv))
                      (before ++ (k0, v) :: after) acc) (PyStr.lower k0)
  = Some v.
Proof.
  intros H. rewrite fold_left_app. cbn [fold_left fst snd].
  rewrite lower_fold_skip by exact H. apply dict_get_set_same.
Qed.

Lemma lower_fold_keys (p : dict pyval) :
  forall (acc : dict pyval) (k : string),
    In k (dict_keys (fold_left (fun acc kv => dict_set acc (PyStr.lower (fst kv)) (snd kv)) p acc))
    <-> In k (dict_keys acc) \/ exists k0, In k0 (dict_keys p) /\ k = PyStr.lower k0.
Proof.
  induction p as [| kv p IH]; intros acc k; simpl.
  - split; [auto | intros [H | [k0 [[] _]]]; exact H].
  - rewrite IH, dict_keys_set_In. split.
    + intros [[-> | H] | [k0 [H1 H2]]]; eauto.
    + intros [H | [k0 [[<- | H1] H2]]]; eauto.
Qed.

Lemma lower_fold_NoDup (p : dict pyval) :
  forall acc : dict pyval,
    NoDup (dict_keys acc) ->
    NoDup (dict_keys (fold_left (fun acc kv => dict_set acc (PyStr.lower (fst kv)) (snd kv))
                                p acc)).
Proof.
  induction p as [| kv p IH]; intros acc H; simpl; [exact H |].
  apply IH. apply dict_keys_set_NoDup. exact H.
Qed.

Section RequestFacts.
Local Open Scope string_scope.
Variable py_repr : pyval -> string.
Variable pd_to_datetime : pyval -> option pyval.
Variable pd_to_timedelta : pyval -> option pyval.
Variable timedelta_of_float_minutes : float -> result pyval.
Variable config_token : pyval.

Local Abbreviation datetime_step := (normalize_datetime py_repr pd_to_datetime).
Local Abbreviation duration_step :=
  (normalize_duration py_repr pd_to_timedelta timedelta_of_float_minutes).
Local Abbreviation normalize :=
  (normalize_params py_repr pd_to_datetime pd_to_timedelta
                    timedelta_of_float_minutes config_token).
Local Abbreviation seen_by_steps :=
  (fun params => join_lists py_repr (lower_keys (set_default_token config_token params))).
Local Abbreviation joined :=
  (fun v => match v with
            | PList l => PStr (PyStr.join "," (map (py_str py_repr) l))
            | _ => v
            end).

Lemma join_lists_keys (p : dict pyval) : dict_keys (join_lists py_repr p) = dict_keys p.
Proof.
  unfold join_lists, dict_keys. rewrite map_map. apply map_ext.
  intros [k v]. unfold join_list_value. cbn [fst snd].
  destruct v; try reflexivity. destruct (negb _); reflexivity.
Qed.

Lemma join_lists_get (p : dict pyval) (k : string) :
  dict_get (join_lists py_repr p) k
  = option_map (fun v => snd (join_list_value py_repr (k, v))) (dict_get p k).
Proof.
  induction p as [| [k' v'] p IH]; [reflexivity |].
  unfold join_lists. cbn [map].
  assert (Hfst : fst (join_list_value py_repr (k', v')) = k').
  { unfold join_list_value. cbn [fst snd].
    destruct v'; try reflexivity. destruct (negb _); reflexivity. }
  destruct (join_list_value py_repr (k', v')) as [k1 v1] eqn:E. cbn [fst] in Hfst. subst k1.
  cbn [dict_get]. destruct (String.eqb_spec k' k) as [-> | Hne].
  - cbn [option_map]. rewrite E. reflexivity.
  - exact IH.
Qed.

Lemma join_list_value_plain (k : string) (v : pyval) :
  k <> "obrange" -> snd (join_list_value py_repr (k, v)) = joined v.
Proof.
  intros Hk. unfold join_list_value. cbn [fst snd]. destruct v; try reflexivity.
  unfold str_in. cbn [existsb].
  destruct (String.eqb_spec k "obrange"); [contradiction | reflexivity].
Qed.

Lemma normalize_datetime_keys (i : string) (params params' : dict pyval)
      (log log' : list event) :
  datetime_step i params log = (Ok params', log') ->
  dict_keys params' = dict_keys params.
Proof.
  unfold normalize_datetime.
  destruct (dict_get params i) as [date |] eqn:Hget; [| unfold ret; congruence].
  intros H. apply bind_ok_inv in H. destruct H as [p1 [log1 [H1 H]]].
  apply bind_ok_inv in H. destruct H as [v [log2 [Hv H]]].
  apply bind_ok_inv in H. destruct H as [s [log3 [_ H]]].
  unfold ret in H. injection H as <- _.
  unfold lift, dict_item in Hv.
  destruct (dict_get p1 i) as [x |] eqn:Hx; [| discriminate].
  rewrite (dict_keys_set_present _ _ _ _ Hx).
  destruct (pd_to_datetime (pad_compact_date date)).
  - unfold ret in H1. injection H1 as <- _. apply (dict_keys_set_present _ _ _ _ Hget).
  - apply bind_ok_inv in H1. destruct H1 as [u [log4 [_ H1]]].
    unfold ret in H1. congruence.
Qed.

Lemma normalize_obrange_keys (params params' : dict pyval) (log log' : list event) :
  normalize_obrange params log = (Ok params', log') ->
  dict_keys params' = dict_keys params.
Proof.
  unfold normalize_obrange.
  destruct (dict_get params "obrange") as [v |] eqn:Hget; [| unfold ret; congruence].
  destruct (isinstance_str v); [unfold ret; congruence |].
  intros H. apply bind_ok_inv in H. destruct H as [parts [log1 [_ H]]].
  unfold ret in H. injection H as <- _.
  apply (dict_keys_set_present _ _ _ _ Hget).
Qed.

Lemma normalize_duration_keys (verbose : bool) (i : string) (params params' : dict pyval)
      (log log' : list event) :
  duration_step verbose i params log = (Ok params', log') ->
  dict_keys params' = dict_keys params.
Proof.
  unfold normalize_duration.
  destruct (dict_get params i) as [dt |] eqn:Hget; [| unfold ret; congruence].
  intros H. apply bind_ok_inv in H. destruct H as [dt' [log0 [_ H]]].
  apply bind_ok_inv in H. destruct H as [p1 [log1 [H1 H]]].
  apply bind_ok_inv in H. destruct H as [v [log2 [Hv H]]].
  apply bind_ok_inv in H. destruct H as [m [log3 [_ H]]].
  apply bind_ok_inv in H. destruct H as [u [log4 [_ H]]].
  unfold ret in H. injection H as <- _.
  unfold lift, dict_item in Hv.
  destruct (dict_get p1 i) as [x |] eqn:Hx; [| discriminate].
  rewrite (dict_keys_set_present _ _ _ _ Hx).
  destruct (pd_to_timedelta dt').
  - unfold ret in H1. injection H1 as <- _. apply (dict_keys_set_present _ _ _ _ Hget).
  - apply bind_ok_inv in H1. destruct H1 as [u' [log5 [_ H1]]].
    unfold ret in H1. congruence.
Qed.

(** What steps 3) to 5) keep of the mapping they are given: its keys, and
    the values under the keys they do not handle. *)
Lemma normalize_steps_keep (verbose : bool) (params out : dict pyval) (log log' : list event) :
  normalize verbose params log = (Ok out, log') ->
  dict_keys out = dict_keys (seen_by_steps params) /\
  forall k, ~ In k datetime_keys -> ~ In k duration_keys -> k <> "obrange" ->
            dict_get out k = dict_get (seen_by_steps params) k.
Proof.
  intros H. unfold normalize_params in H.
  apply bind_ok_inv in H. destruct H as [P1 [log1 [H1 H2]]].
  unfold normalize_instants in H1.
  apply bind_ok_inv in H1. destruct H1 as [P0 [log0 [H0 Hob]]].
  set (seen := seen_by_steps params) in *.
  split.
  - transitivity (dict_keys P1).
    { apply (for_each_keeps (fun p => dict_keys p = dict_keys P1) (duration_step verbose)
               duration_keys) with (st := P1) (log := log1) (log' := log');
        [| reflexivity | exact H2].
      intros y st lg st' lg' _ HP Hstep.
      rewrite (normalize_duration_keys _ _ _ _ _ _ Hstep). exact HP. }
    rewrite (normalize_obrange_keys _ _ _ _ Hob).
    apply (for_each_keeps (fun p => dict_keys p = dict_keys seen) datetime_step
             datetime_keys) with (st := seen) (log := log) (log' := log0);
      [| reflexivity | exact H0].
    intros y st lg st' lg' _ HP Hstep.
    rewrite (normalize_datetime_keys _ _ _ _ _ Hstep). exact HP.
  - intros k Hdt Hdu Hobk.
    transitivity (dict_get P1 k).
    { apply (for_each_keeps (fun p => dict_get p k = dict_get P1 k) (duration_step verbose)
               duration_keys) with (st := P1) (log := log1) (log' := log');
        [| reflexivity | exact H2].
      intros y st lg st' lg' Hy HP Hstep.
      assert (Hne : y <> k) by (intros ->; contradiction).
      rewrite (normalize_duration_other _ _ _ _ _ _ _ _ _ _ Hne Hstep). exact HP. }
    rewrite (normalize_obrange_other k _ _ _ _ Hobk Hob).
    apply (for_each_keeps (fun p => dict_get p k = dict_get seen k) datetime_step
             datetime_keys) with (st := seen) (log := log) (log' := log0);
      [| reflexivity | exact H0].
    intros y st lg st' lg' Hy HP Hstep.
    assert (Hne : y <> k) by (intros ->; contradiction).
    rewrite (normalize_datetime_other _ _ _ _ _ _ _ _ Hne Hstep). exact HP.
Qed.

(** X7: whenever the normalizer returns, the keys of the request are
    pairwise distinct and are exactly the caller's keys in lower case
    together with [token]: no parameter is dropped and none is added. *)
Theorem request_keys_are_lower_case :
  forall (verbose : bool) (params out : dict pyval) (log log' : list event),
    normalize verbose params log = (Ok out, log') ->
    NoDup (dict_keys out) /\
    forall k, In k (dict_keys out)
              <-> k = "token" \/ exists k0, In k0 (dict_keys params) /\ k = PyStr.lower k0.
Proof.
  intros verbose params out log log' H.
  destruct (normalize_steps_keep verbose params out log log' H) as [Hkeys _].
  rewrite Hkeys, join_lists_keys. unfold lower_keys. split.
  - apply lower_fold_NoDup. constructor.
  - intros k. rewrite lower_fold_keys. cbn [dict_keys map In].
    unfold set_default_token, dict_mem.
    destruct (dict_get params "token") as [x |] eqn:Ht.
    + split.
      * intros [[] | Hk]. right. exact Hk.
      * intros [-> | Hk]; right; [| exact Hk].
        exists "token". split; [| reflexivity].
        apply dict_get_keys. congruence.
    + rewrite (dict_set_absent _ _ _ Ht). unfold dict_keys. rewrite map_app. cbn [map fst].
      split.
      * intros [[] | [k0 [Hin ->]]]. apply in_app_iff in Hin.
        destruct Hin as [Hin | [<- | []]]; [right; eauto | left; reflexivity].
      * intros [-> | [k0 [Hin ->]]]; right.
        -- exists "token". split; [apply in_app_iff; right; left; reflexivity | reflexivity].
        -- exists k0. split; [apply in_app_iff; left; exact Hin | reflexivity].
Qed.

(** X8: when the caller passes no parameter spelled exactly [token], the
    request carries the configured token (a list joined with commas): a
    token passed as [Token] or [TOKEN] is replaced by it, because the
    default is set before the keys are lower-cased. *)
Theorem configured_token_is_sent :
  forall (verbose : bool) (params out : dict pyval) (log log' : list event),
    dict_mem params "token" = false ->
    normalize verbose params log = (Ok out, log') ->
    dict_get out "token" = Some (joined config_token).
Proof.
  intros verbose params out log log' Hmem H.
  destruct (normalize_steps_keep verbose params out log log' H) as [_ Hval].
  rewrite Hval.
  - rewrite join_lists_get.
    unfold set_default_token. rewrite Hmem.
    unfold dict_mem in Hmem.
    destruct (dict_get params "token") eqn:Ht; [discriminate |].
    rewrite (dict_set_absent _ _ _ Ht). unfold lower_keys.
    pose proof (lower_fold_last params [] "token" config_token [] (fun kv (Hin : In kv []) => match Hin with end)) as Hl.
    change (PyStr.lower "token") with "token" in Hl. rewrite Hl.
    cbn [option_map]. f_equal. apply join_list_value_plain. discriminate.
  - unfold datetime_keys. simpl. intuition discriminate.
  - unfold duration_keys. simpl. intuition discriminate.
  - discriminate.
Qed.

(** X9: a parameter whose lower-cased key is not a datetime key, a
    duration key or [obrange] reaches the request under that key; when
    several keys lower-case to it the last one wins.  A list is sent as
    its items joined with commas, every other value as it is.  For the
    key [token] this holds when the caller spells it exactly so. *)
Theorem plain_values_pass_through :
  forall (verbose : bool) (before after : dict pyval) (k0 : string) (v : pyval)
         (out : dict pyval) (log log' : list event),
    let params := (before ++ (k0, v) :: after)%list in
    let k := PyStr.lower k0 in
    normalize verbose params log = (Ok out, log') ->
    (forall kv, In kv after -> PyStr.lower (fst kv) <> k) ->
    k <> "token" \/ dict_mem params "token" = true ->
    ~ In k datetime_keys -> ~ In k duration_keys -> k <> "obrange" ->
    dict_get out k = Some (joined v).
Proof.
  intros verbose before after k0 v out log log' params k H Hlast Htok Hdt Hdu Hob.
  destruct (normalize_steps_keep verbose params out log log' H) as [_ Hval].
  rewrite (Hval k Hdt Hdu Hob), join_lists_get.
  assert (Hlow : dict_get (lower_keys (set_default_token config_token params)) k = Some v).
  { unfold set_default_token, lower_keys.
    destruct (dict_mem params "token") eqn:Hmem.
    - apply lower_fold_last. exact Hlast.
    - destruct Htok as [Htok | Htok]; [| discriminate].
      unfold dict_mem in Hmem.
      destruct (dict_get params "token") eqn:Ht; [discriminate |].
      rewrite (dict_set_absent _ _ _ Ht). unfold params. rewrite <- app_assoc.
      cbn [app]. apply lower_fold_last.
      intros kv Hin. apply in_app_iff in Hin. destruct Hin as [Hin | [<- | []]].
      + apply Hlast. exact Hin.
      + cbn [fst]. intros E. apply Htok. symmetry. exact E. }
  rewrite Hlow. cbn [option_map]. f_equal. apply join_list_value_plain. exact Hob.
Qed.

End RequestFacts.

(** ** Parameter normalizer: datetimes and whole minutes *)

Lemma str_length_app (a b : string) :
  String.length (a ++ b) = String.length a + String.length b.
Proof. induction a as [| c a IH]; simpl; [reflexivity | rewrite IH; reflexivity]. Qed.

Lemma all_digits_app (a b : string) :
  PyStr.all_digits (a ++ b) = PyStr.all_digits a && PyStr.all_digits b.
Proof.
  induction a as [| c a IH]; simpl; [reflexivity |].
  rewrite IH. apply andb_assoc.
Qed.

Lemma is_digit_of_digit (d : nat) : d < 10 -> PyStr.is_digit (ascii_of_nat (48 + d)) = true.
Proof.
  intros H. unfold PyStr.is_digit. cbv zeta.
  assert (E : nat_of_ascii (ascii_of_nat (48 + d)) = 48 + d)
    by (apply nat_ascii_embedding; lia).
  rewrite E. apply andb_true_iff. split; apply Nat.leb_le; lia.
Qed.

Lemma digits_fuel_spec (fuel : nat) :
  forall (n : nat) (acc : string) (k : nat),
    n < fuel -> n < 10 ^ k -> 1 <= k ->
    exists ds,
      PyStr.digits_fuel fuel n acc = (ds ++ acc)%string /\
      1 <= String.length ds <= k /\ PyStr.all_digits ds = true.
Proof.
  induction fuel as [| fuel IH]; intros n acc k Hf Hk H1; [lia |].
  cbn [PyStr.digits_fuel].
  assert (Hd : PyStr.is_digit (ascii_of_nat (48 + n mod 10)) = true).
  { apply is_digit_of_digit. apply Nat.mod_upper_bound. lia. }
  set (c := ascii_of_nat (48 + n mod 10)) in *.
  destruct (Nat.ltb_spec n 10) as [Hlt | Hge].
  - exists (String c EmptyString).
    split; [reflexivity |]. split; [cbn [String.length]; lia |].
    cbn [PyStr.all_digits]. rewrite Hd. reflexivity.
  - destruct k as [| k]; [lia |].
    destruct k as [| k]; [rewrite Nat.pow_1_r in Hk; lia |].
    destruct (IH (n / 10) (String c acc) (S k)) as [ds [E [Hlen Hall]]].
    + pose proof (Nat.Div0.div_lt_upper_bound n 10 n). lia.
    + apply Nat.Div0.div_lt_upper_bound.
      rewrite Nat.pow_succ_r' in Hk. exact Hk.
    + lia.
    + exists (ds ++ String c EmptyString)%string.
      split; [| split].
      * rewrite E, str_app_assoc. reflexivity.
      * rewrite str_length_app. cbn [String.length]. lia.
      * rewrite all_digits_app, Hall. cbn [PyStr.all_digits andb]. rewrite Hd. reflexivity.
Qed.

Lemma zeros_spec (k : nat) :
  String.length (PyStr.zeros k) = k /\ PyStr.all_digits (PyStr.zeros k) = true.
Proof.
  induction k as [| k [IHl IHd]]; [split; reflexivity |].
  split; simpl; [rewrite IHl; reflexivity | exact IHd].
Qed.

(** A number below [10 ^ w] printed in a field of width [w]: [w] decimal
    digits. *)
Lemma pad0_spec (w n : nat) :
  1 <= w -> n < 10 ^ w ->
  String.length (PyStr.pad0 w n) = w /\ PyStr.all_digits (PyStr.pad0 w n) = true.
Proof.
  intros Hw Hn. unfold PyStr.pad0, PyStr.of_nat.
  destruct (digits_fuel_spec (S n) n EmptyString w) as [ds [E [Hlen Hall]]]; [lia | exact Hn | exact Hw |].
  rewrite E.
  assert (Hds : (ds ++ "")%string = ds).
  { clear. induction ds as [| c ds IH]; simpl; [reflexivity | rewrite IH; reflexivity]. }
  rewrite Hds.
  destruct (zeros_spec (w - String.length ds)) as [Hzl Hzd].
  split.
  - rewrite str_length_app, Hzl. lia.
  - rewrite all_digits_app, Hzd, Hall. reflexivity.
Qed.

Lemma str_app_nil (a : string) : (a ++ EmptyString)%string = a.
Proof. induction a as [| c a IH]; simpl; [reflexivity | rewrite IH; reflexivity]. Qed.

(** [str(n)] has as many digits as [n] needs. *)
Lemma digits_fuel_length (fuel : nat) :
  forall (n : nat) (acc : string) (k : nat),
    n < fuel -> 10 ^ k <= n -> n < 10 ^ S k ->
    exists ds,
      PyStr.digits_fuel fuel n acc = (ds ++ acc)%string /\ String.length ds = S k.
Proof.
  induction fuel as [| fuel IH]; intros n acc k Hf Hlo Hhi; [lia |].
  cbn [PyStr.digits_fuel].
  set (c := ascii_of_nat (48 + n mod 10)) in *.
  destruct (Nat.ltb_spec n 10) as [Hlt | Hge].
  - exists (String c EmptyString). split; [reflexivity |].
    destruct k as [| k]; [reflexivity |].
    rewrite Nat.pow_succ_r' in Hlo.
    assert (1 <= 10 ^ k) by (apply Nat.neq_0_lt_0, Nat.pow_nonzero; discriminate). lia.
  - destruct k as [| k]; [rewrite Nat.pow_1_r in Hhi; lia |].
    destruct (IH (n / 10) (String c acc) k) as [ds [E Hlen]].
    + pose proof (Nat.Div0.div_lt_upper_bound n 10 n). lia.
    + apply Nat.div_le_lower_bound; [discriminate |].
      rewrite Nat.pow_succ_r' in Hlo. exact Hlo.
    + apply Nat.Div0.div_lt_upper_bound.
      rewrite (Nat.pow_succ_r' 10 (S k)) in Hhi. exact Hhi.
    + exists (ds ++ String c EmptyString)%string. split.
      * rewrite E, str_app_assoc. reflexivity.
      * rewrite str_length_app. cbn [String.length]. lia.
Qed.

Lemma of_nat_digits (n : nat) : PyStr.all_digits (PyStr.of_nat n) = true.
Proof.
  unfold PyStr.of_nat.
  destruct (digits_fuel_spec (S n) n EmptyString (S n)) as [ds [E [_ Hall]]];
    [lia | | lia |].
  - pose proof (Nat.pow_gt_lin_r 10 (S n)). lia.
  - rewrite E, str_app_nil. exact Hall.
Qed.

Lemma of_nat_length_le (n k : nat) :
  1 <= k -> n < 10 ^ k -> 1 <= String.length (PyStr.of_nat n) <= k.
Proof.
  intros Hk Hn. unfold PyStr.of_nat.
  destruct (digits_fuel_spec (S n) n EmptyString k) as [ds [E [Hlen _]]];
    [lia | exact Hn | exact Hk |].
  rewrite E, str_app_nil. exact Hlen.
Qed.

Lemma of_nat_length (n k : nat) :
  10 ^ k <= n -> n < 10 ^ S k -> String.length (PyStr.of_nat n) = S k.
Proof.
  intros Hlo Hhi. unfold PyStr.of_nat.
  destruct (digits_fuel_length (S n) n EmptyString k) as [ds [E Hlen]];
    [lia | exact Hlo | exact Hhi |].
  rewrite E, str_app_nil. exact Hlen.
Qed.

(** The text of a datetime: digits only; twelve of them from the year 1000
    on, fewer before, since the year is not padded. *)
Lemma strftime_YmdHM_digits (t : datetime) :
  month t <= 99 -> day t <= 99 -> hour t <= 99 -> minute t <= 99 ->
  PyStr.isnumeric (strftime_YmdHM t) = true /\
  (10 ^ 3 <= year t -> year t < 10 ^ 4 -> String.length (strftime_YmdHM t) = 12) /\
  (year t < 10 ^ 3 -> String.length (strftime_YmdHM t) < 12).
Proof.
  intros Hm Hd Hh Hmi. unfold strftime_YmdHM.
  pose proof (of_nat_digits (year t)) as Dy.
  destruct (pad0_spec 2 (month t)) as [Lm Dm]; [lia | cbn [Nat.pow Nat.mul Nat.add]; lia |].
  destruct (pad0_spec 2 (day t)) as [Ld Dd]; [lia | cbn [Nat.pow Nat.mul Nat.add]; lia |].
  destruct (pad0_spec 2 (hour t)) as [Lh Dh]; [lia | cbn [Nat.pow Nat.mul Nat.add]; lia |].
  destruct (pad0_spec 2 (minute t)) as [Lmi Dmi]; [lia | cbn [Nat.pow Nat.mul Nat.add]; lia |].
  assert (Hlen : String.length (PyStr.of_nat (year t) ++ PyStr.pad0 2 (month t)
                                ++ PyStr.pad0 2 (day t) ++ PyStr.pad0 2 (hour t)
                                ++ PyStr.pad0 2 (minute t))
                 = String.length (PyStr.of_nat (year t)) + 8).
  { rewrite !str_length_app, Lm, Ld, Lh, Lmi. reflexivity. }
  split; [| split].
  - unfold PyStr.isnumeric.
    destruct (PyStr.of_nat (year t) ++ PyStr.pad0 2 (month t) ++ PyStr.pad0 2 (day t)
              ++ PyStr.pad0 2 (hour t) ++ PyStr.pad0 2 (minute t))%string eqn:E;
      [simpl in Hlen; lia |].
    rewrite <- E, !all_digits_app, Dy, Dm, Dd, Dh, Dmi. reflexivity.
  - intros Hlo Hhi. rewrite Hlen, (of_nat_length (year t) 3 Hlo Hhi). reflexivity.
  - intros Hy. rewrite Hlen.
    pose proof (of_nat_length_le (year t) 3 ltac:(lia) Hy). lia.
Qed.

Lemma datetime_key_cases (k : string) :
  In k datetime_keys <->
  k = "start"%string \/ k = "end"%string \/ k = "expire"%string \/ k = "attime"%string.
Proof. unfold datetime_keys. simpl. intuition congruence. Qed.

Lemma duration_key_cases (k : string) :
  In k duration_keys <-> k = "recent"%string \/ k = "within"%string.
Proof. unfold duration_keys. simpl. intuition congruence. Qed.

Section InstantFacts.
Local Open Scope string_scope.
Variable py_repr : pyval -> string.
Variable pd_to_datetime : pyval -> option pyval.
Variable pd_to_timedelta : pyval -> option pyval.
Variable timedelta_of_float_minutes : float -> result pyval.
Variable config_token : pyval.

Local Abbreviation datetime_step := (normalize_datetime py_repr pd_to_datetime).
Local Abbreviation duration_step :=
  (normalize_duration py_repr pd_to_timedelta timedelta_of_float_minutes).
Local Abbreviation instants := (normalize_instants py_repr pd_to_datetime config_token).
Local Abbreviation normalize :=
  (normalize_params py_repr pd_to_datetime pd_to_timedelta
                    timedelta_of_float_minutes config_token).
Local Abbreviation resolved := (duration_of pd_to_timedelta timedelta_of_float_minutes).
Local Abbreviation seen_by_steps :=
  (fun params => join_lists py_repr (lower_keys (set_default_token config_token params))).

(** A step of 3) that returns has stored a [YYYYmmddHHMM] text: of the
    datetime that pandas made of the value or, when pandas refused a value
    that is a datetime itself, of that datetime. *)
Lemma normalize_datetime_result (i : string) (params params' : dict pyval)
      (log log' : list event) (date : pyval) :
  datetime_step i params log = (Ok params', log') ->
  dict_get params i = Some date ->
  exists t,
    (pd_to_datetime (pad_compact_date date) = Some (PDatetime t)
     \/ (pd_to_datetime (pad_compact_date date) = None /\ date = PDatetime t)) /\
    dict_get params' i = Some (PStr (strftime_YmdHM t)).
Proof.
  unfold normalize_datetime. intros H Hget. rewrite Hget in H.
  apply bind_ok_inv in H. destruct H as [p1 [log1 [H1 H]]].
  apply bind_ok_inv in H. destruct H as [v [log2 [Hv H]]].
  apply bind_ok_inv in H. destruct H as [s [log3 [Hs H]]].
  unfold ret in H. injection H as <- _.
  unfold lift in Hv, Hs. injection Hv as Hv _. injection Hs as Hs _.
  destruct (pd_to_datetime (pad_compact_date date)) as [parsed |].
  - unfold ret in H1. injection H1 as <- _.
    rewrite (dict_item_get _ _ _ (dict_get_set_same params i parsed)) in Hv.
    injection Hv as <-.
    destruct parsed; try discriminate. injection Hs as <-.
    exists t. split; [left; reflexivity | apply dict_get_set_same].
  - apply bind_ok_inv in H1. destruct H1 as [u [log4 [_ H1]]].
    unfold ret in H1. injection H1 as <- _.
    rewrite (dict_item_get _ _ _ Hget) in Hv. injection Hv as <-.
    destruct date; try discriminate. injection Hs as <-.
    exists t. split; [right; split; reflexivity | apply dict_get_set_same].
Qed.

Lemma datetime_loop_result (keys : list string) :
  NoDup keys ->
  forall (st st' : dict pyval) (log log' : list event) (i : string) (date : pyval),
    for_each keys datetime_step st log = (Ok st', log') ->
    In i keys ->
    dict_get st i = Some date ->
    exists t,
      (pd_to_datetime (pad_compact_date date) = Some (PDatetime t)
       \/ (pd_to_datetime (pad_compact_date date) = None /\ date = PDatetime t)) /\
      dict_get st' i = Some (PStr (strftime_YmdHM t)).
Proof.
  induction keys as [| y keys IH]; intros Hnd st st' log log' i date H Hin Hget;
    [destruct Hin |].
  inversion Hnd as [| ? ? Hny Hnd']; subst.
  simpl in H. apply bind_ok_inv in H. destruct H as [st1 [log1 [H1 H2]]].
  destruct (String.eqb_spec y i) as [-> | Hne].
  - destruct (normalize_datetime_result _ _ _ _ _ _ H1 Hget) as [t [Ht Hout]].
    exists t. split; [exact Ht |].
    rewrite <- Hout.
    apply (for_each_keeps (fun p => dict_get p i = dict_get st1 i) datetime_step keys)
      with (st := st1) (log := log1) (log' := log'); [| reflexivity | exact H2].
    intros y st0 lg st0' lg' Hy HP Hstep.
    assert (Hne : y <> i) by (intros ->; contradiction).
    rewrite (normalize_datetime_other _ _ _ _ _ _ _ _ Hne Hstep). exact HP.
  - destruct Hin as [Hin | Hin]; [contradiction |].
    apply (IH Hnd' st1 st' log1 log' i date H2 Hin).
    rewrite (normalize_datetime_other _ _ _ _ _ _ _ _ Hne H1). exact Hget.
Qed.

(** X10: whenever the normalizer returns, a datetime key ([start], [end],
    [expire], [attime]) holds the text [YYYYmmddHHMM] of the datetime that
    pandas made of the value, or of the value itself when it is a datetime
    that pandas refused.  That text holds decimal digits only; the year is
    written without padding, so the text has twelve characters for a year
    from 1000 to 9999 and fewer for an earlier year. *)
Theorem datetime_keys_become_twelve_digits :
  forall (verbose : bool) (params out : dict pyval) (log log' : list event)
         (i : string) (date : pyval),
    normalize verbose params log = (Ok out, log') ->
    In i datetime_keys ->
    dict_get (seen_by_steps params) i = Some date ->
    exists t,
      (pd_to_datetime (pad_compact_date date) = Some (PDatetime t)
       \/ (pd_to_datetime (pad_compact_date date) = None /\ date = PDatetime t)) /\
      dict_get out i = Some (PStr (strftime_YmdHM t)) /\
      (month t <= 99 -> day t <= 99 -> hour t <= 99 -> minute t <= 99 ->
       PyStr.isnumeric (strftime_YmdHM t) = true /\
       (10 ^ 3 <= year t -> year t < 10 ^ 4 -> String.length (strftime_YmdHM t) = 12) /\
       (year t < 10 ^ 3 -> String.length (strftime_YmdHM t) < 12)).
Proof.
  intros verbose params out log log' i date H Hi Hget.
  unfold normalize_params in H.
  apply bind_ok_inv in H. destruct H as [P1 [log1 [H1 H2]]].
  unfold normalize_instants in H1.
  apply bind_ok_inv in H1. destruct H1 as [P0 [log0 [H0 Hob]]].
  assert (Hnd : NoDup datetime_keys).
  { unfold datetime_keys.
    repeat (apply NoDup_cons; [simpl; intuition discriminate |]). apply NoDup_nil. }
  destruct (datetime_loop_result datetime_keys Hnd _ _ _ _ i date H0 Hi Hget)
    as [t [Ht Hout]].
  assert (Hi' : i = "start" \/ i = "end" \/ i = "expire" \/ i = "attime")
    by (apply datetime_key_cases; exact Hi).
  exists t. split; [exact Ht |]. split; [| apply strftime_YmdHM_digits].
  rewrite <- Hout.
  transitivity (dict_get P1 i).
  - apply (for_each_keeps (fun p => dict_get p i = dict_get P1 i) (duration_step verbose)
             duration_keys) with (st := P1) (log := log1) (log' := log');
      [| reflexivity | exact H2].
    intros y st lg st' lg' Hy HP Hstep.
    assert (Hne : y <> i).
    { apply duration_key_cases in Hy.
      destruct Hy as [-> | ->]; destruct Hi' as [-> | [-> | [-> | ->]]]; discriminate. }
    rewrite (normalize_duration_other _ _ _ _ _ _ _ _ _ _ Hne Hstep). exact HP.
  - apply (normalize_obrange_other i _ _ _ _) with (2 := Hob).
    destruct Hi' as [-> | [-> | [-> | ->]]]; discriminate.
Qed.

(** X11: whole minutes pass through unchanged.  When pandas maps every
    duration in its range to itself and each duration key present after
    steps 1) to 4) holds an [int] of minutes in that range, the normalizer
    returns and every key of its output holds the value it held after
    step 4): [recent=30] is sent as the integer 30. *)
Theorem whole_minutes_are_kept :
  forall (verbose : bool) (params P1 : dict pyval) (log log1 : list event),
    (forall ns, (Z.abs ns < 2 ^ 63)%Z -> pd_to_timedelta (PTimedelta ns) = Some (PTimedelta ns)) ->
    instants params log = (Ok P1, log1) ->
    (forall i v, In i duration_keys -> dict_get P1 i = Some v ->
                 exists n, v = PInt n /\ (Z.abs (n * minute_ns) < 2 ^ 63)%Z) ->
    exists out log2,
      normalize verbose params log = (Ok out, log2) /\
      forall k, dict_get out k = dict_get P1 k.
Proof.
  intros verbose params P1 log log1 Hpd Hinst Hint.
  assert (Hres : forall n, (Z.abs (n * minute_ns) < 2 ^ 63)%Z ->
                           resolved (PInt n) = Some (n * minute_ns)%Z).
  { intros n Hn. unfold duration_of, timedelta_of_int_minutes.
    assert (Hdays : ((-999999999 <=? n / 1440) && (n / 1440 <=? 999999999))%Z = true).
    { assert (Hb : (-9223372036854775808 < n * 60000000000 < 9223372036854775808)%Z).
      { unfold minute_ns in Hn. change (2 ^ 63)%Z with 9223372036854775808%Z in Hn. lia. }
      assert (Hq : (-999999999 <= n / 1440 <= 999999999)%Z).
      { split.
        - apply Z.div_le_lower_bound; lia.
        - apply Z.div_le_upper_bound; lia. }
      apply andb_true_iff. split; apply Z.leb_le; lia. }
    rewrite Hdays. unfold as_timedelta. rewrite (Hpd _ Hn). reflexivity. }
  unfold normalize_params. rewrite (bind_ok _ _ _ _ _ Hinst).
  destruct (normalize_duration_total py_repr pd_to_timedelta timedelta_of_float_minutes
              verbose "recent" P1 log1) as [P2 [log2 [E2 [K2 R2]]]].
  { intros dt Hdt. destruct (Hint "recent" dt) as [n [-> Hn]];
      [apply duration_key_cases; left; reflexivity | exact Hdt |].
    rewrite (Hres n Hn). discriminate. }
  assert (Hsame2 : forall k, dict_get P2 k = dict_get P1 k).
  { intros k. destruct (String.eqb_spec k "recent") as [-> | Hne]; [| apply K2; exact Hne].
    destruct (dict_get P1 "recent") as [dt |] eqn:Hdt.
    - destruct (R2 dt eq_refl) as [ns [Hns Hout]].
      destruct (Hint "recent" dt) as [n [-> Hn]];
        [apply duration_key_cases; left; reflexivity | exact Hdt |].
      rewrite (Hres n Hn) in Hns. injection Hns as <-.
      rewrite Hout, ceil_minutes_whole by exact Hn. reflexivity.
    - unfold normalize_duration in E2. rewrite Hdt in E2. unfold ret in E2.
      injection E2 as <- _. exact Hdt. }
  destruct (normalize_duration_total py_repr pd_to_timedelta timedelta_of_float_minutes
              verbose "within" P2 log2) as [P3 [log3 [E3 [K3 R3]]]].
  { intros dt Hdt. rewrite Hsame2 in Hdt. destruct (Hint "within" dt) as [n [-> Hn]];
      [apply duration_key_cases; right; reflexivity | exact Hdt |].
    rewrite (Hres n Hn). discriminate. }
  exists P3, log3. split.
  - unfold duration_keys. simpl.
    rewrite (bind_ok _ _ _ _ _ E2), (bind_ok _ _ _ _ _ E3). reflexivity.
  - intros k. rewrite <- Hsame2.
    destruct (String.eqb_spec k "within") as [-> | Hne]; [| apply K3; exact Hne].
    destruct (dict_get P2 "within") as [dt |] eqn:Hdt.
    + destruct (R3 dt eq_refl) as [ns [Hns Hout]].
      rewrite Hsame2 in Hdt.
      destruct (Hint "within" dt) as [n [-> Hn]];
        [apply duration_key_cases; right; reflexivity | exact Hdt |].
      rewrite (Hres n Hn) in Hns. injection Hns as <-.
      rewrite Hout, ceil_minutes_whole by exact Hn. reflexivity.
    + unfold normalize_duration in E3. rewrite Hdt in E3. unfold ret in E3.
      injection E3 as <- _. exact Hdt.
Qed.

End InstantFacts.

(** ** [synoptic_api] and its callers *)

Lemma py_assert_ok (b : bool) (msg : string) (log log' : list event) (u : unit) :
  py_assert b msg log = (Ok u, log') -> b = true /\ log' = log.
Proof.
  unfold py_assert. destruct b; unfold ret, raise; intros H; [| discriminate].
  injection H as _ <-. split; reflexivity.
Qed.

Lemma existsb_str_in (l sel : list string) :
  existsb (fun i => str_in i sel) l = true <-> exists k, In k l /\ In k sel.
Proof.
  rewrite existsb_exists. unfold str_in. split.
  - intros [k [Hk Hs]]. exists k. split; [exact Hk |].
    apply existsb_exists in Hs. destruct Hs as [y [Hy E]].
    apply String.eqb_eq in E. subst y. exact Hy.
  - intros [k [Hk Hs]]. exists k. split; [exact Hk |].
    apply existsb_exists. exists k. split; [exact Hs | apply String.eqb_refl].
Qed.

Section EngineFacts.
Local Open Scope string_scope.
Variable py_repr : pyval -> string.
Variable pd_to_datetime : pyval -> option pyval.
Variable pd_to_timedelta : pyval -> option pyval.
Variable timedelta_of_float_minutes : float -> result pyval.
Variable config_token : pyval.
Variable requests_get : string -> dict pyval -> Response.
Variable urllib_unquote : string -> string.

Local Abbreviation normalize :=
  (normalize_params py_repr pd_to_datetime pd_to_timedelta
                    timedelta_of_float_minutes config_token).
Local Abbreviation api :=
  (synoptic_api py_repr pd_to_datetime pd_to_timedelta timedelta_of_float_minutes
                config_token requests_get urllib_unquote).

(** What a call of the engine that returns has done. *)
Lemma synoptic_api_returns (service : string) (verbose hide_token : bool)
      (params : dict pyval) (f : Response) (log log' : list event) :
  api service verbose hide_token params log = (Ok f, log') ->
  str_in service _service = true /\
  exists P log1,
    normalize verbose params log = (Ok P, log1) /\
    f = requests_get (service_url service) P /\
    (service = "auth" \/ RESPONSE_CODE f = 1%Z) /\
    (service = "auth" \/ verbose = false -> log' = log1).
Proof.
  unfold synoptic_api. intros H.
  apply bind_ok_inv in H. destruct H as [u [log0 [Ha H]]].
  apply py_assert_ok in Ha. destruct Ha as [Hsvc ->].
  split; [exact Hsvc |].
  apply bind_ok_inv in H. destruct H as [P [log1 [Hn H]]].
  exists P, log1. split; [exact Hn |].
  destruct (String.eqb_spec service "auth") as [E | E].
  - unfold ret in H. injection H as <- <-. repeat split; auto.
  - apply bind_ok_inv in H. destruct H as [u1 [log2 [Hc H]]].
    apply py_assert_ok in Hc. destruct Hc as [Hcode ->].
    apply bind_ok_inv in H. destruct H as [u2 [log3 [Hp H]]].
    unfold ret in H. injection H as <- <-.
    split; [reflexivity |]. split; [right; apply Z.eqb_eq; exact Hcode |].
    intros [Hs | Hv]; [contradiction |]. subst verbose.
    unfold when, ret in Hp. congruence.
Qed.

(** X12: a response that [synoptic_api] returns was accepted.  The
    service is one of the ten known ones; unless it is [auth] the summary
    of the response reports code 1; the response is the answer to one
    request, made with the normalized parameters, which hold a [token], at
    [<root>/stations/<service>] for the station services and at
    [<root>/<service>] for the others. *)
Theorem returned_response_was_accepted :
  forall (service : string) (verbose hide_token : bool) (params : dict pyval)
         (f : Response) (log log' : list event),
    api service verbose hide_token params log = (Ok f, log') ->
    In service _service /\
    (service <> "auth" -> RESPONSE_CODE f = 1%Z) /\
    exists P log1,
      normalize verbose params log = (Ok P, log1) /\
      f = requests_get (service_url service) P /\
      dict_mem P "token" = true /\
      (In service _stations ->
       service_url service = "https://api.synopticdata.com/v2/stations/" ++ service) /\
      (~ In service _stations ->
       service_url service = "https://api.synopticdata.com/v2/" ++ service).
Proof.
  intros service verbose hide_token params f log log' H.
  destruct (synoptic_api_returns service verbose hide_token params f log log' H)
    as [Hsvc [P [log1 [Hn [Hf [Hcode _]]]]]].
  split; [| split].
  - unfold str_in in Hsvc. apply existsb_exists in Hsvc.
    destruct Hsvc as [y [Hy E]]. apply String.eqb_eq in E. subst y. exact Hy.
  - intros Hne. destruct Hcode as [E | E]; [contradiction | exact E].
  - exists P, log1. split; [exact Hn |]. split; [exact Hf |]. split; [| split].
    + destruct (normalize_steps_keep py_repr pd_to_datetime pd_to_timedelta
                  timedelta_of_float_minutes config_token verbose params P log log1 Hn)
        as [Hkeys _].
      assert (Hin : In "token" (dict_keys P)).
      { rewrite Hkeys, join_lists_keys. unfold lower_keys. apply lower_fold_keys.
        right. exists "token". split; [| reflexivity].
        unfold set_default_token, dict_mem.
        destruct (dict_get params "token") eqn:Ht.
        - apply dict_get_keys. congruence.
        - apply dict_keys_set_In. left. reflexivity. }
      apply dict_get_keys in Hin. unfold dict_mem.
      destruct (dict_get P "token"); [reflexivity | contradiction].
    + intros Hst. unfold service_url.
      assert (E : str_in service _stations = true).
      { unfold str_in. apply existsb_exists. exists service.
        split; [exact Hst | apply String.eqb_refl]. }
      rewrite E. rewrite <- !str_app_assoc. reflexivity.
    + intros Hst. unfold service_url.
      assert (E : str_in service _stations = false).
      { destruct (str_in service _stations) eqn:E; [| reflexivity].
        exfalso. apply Hst. unfold str_in in E. apply existsb_exists in E.
        destruct E as [y [Hy E]]. apply String.eqb_eq in E. subst y. exact Hy. }
      rewrite E. rewrite <- !str_app_assoc. reflexivity.
Qed.

End EngineFacts.

(** ** The series builder, station by station *)

Lemma nodup_length_le (l : list string) : length (nodup string_dec l) <= length l.
Proof.
  induction l as [| x l IH]; [simpl; lia |].
  simpl. destruct (in_dec string_dec x l); simpl; lia.
Qed.

(** [len(l) != len(set(l))] holds exactly when a name occurs twice. *)
Lemma has_duplicates_spec (l : list string) : has_duplicates l = false <-> NoDup l.
Proof.
  unfold has_duplicates. rewrite negb_false_iff, Nat.eqb_eq. split.
  - induction l as [| x l IH]; intros H; [constructor |].
    simpl in H. destruct (in_dec string_dec x l) as [Hin | Hnin].
    + pose proof (nodup_length_le l). simpl in H. lia.
    + simpl in H. constructor; [exact Hnin | apply IH; lia].
  - intros H. rewrite (nodup_fixed_point string_dec H). reflexivity.
Qed.

Lemma dict_remove_get_other {V} (d : dict V) (k k0 : string) :
  k0 <> k -> dict_get (dict_remove d k0) k = dict_get d k.
Proof.
  intros Hne. induction d as [| [k' v'] d IH]; simpl; [reflexivity |].
  destruct (String.eqb_spec k' k0) as [E | E].
  - subst k'. destruct (String.eqb_spec k0 k); [contradiction | reflexivity].
  - simpl. destruct (String.eqb_spec k' k); [reflexivity | exact IH].
Qed.

Lemma dict_remove_get_same {V} (d : dict V) (k : string) :
  NoDup (dict_keys d) -> dict_get (dict_remove d k) k = None.
Proof.
  induction d as [| [k' v'] d IH]; simpl; intros H; [reflexivity |].
  inversion H as [| ? ? Hn Hd]; subst.
  destruct (String.eqb_spec k' k) as [E | E].
  - subst k'. destruct (dict_get d k) eqn:G; [| reflexivity].
    exfalso. apply Hn. apply dict_get_keys. congruence.
  - simpl. destruct (String.eqb_spec k' k); [contradiction | apply IH; exact Hd].
Qed.

Lemma dict_remove_keys_NoDup {V} (d : dict V) (k : string) :
  NoDup (dict_keys d) -> NoDup (dict_keys (dict_remove d k)).
Proof.
  induction d as [| [k' v'] d IH]; simpl; intros H; [constructor |].
  inversion H as [| ? ? Hn Hd]; subst.
  destruct (String.eqb_spec k' k) as [E | E]; [exact Hd |].
  simpl. constructor; [| apply IH; exact Hd].
  intros Hin. apply Hn. apply dict_get_keys. apply dict_get_keys in Hin.
  destruct (String.eqb_spec k k') as [E' | E']; [congruence |].
  rewrite dict_remove_get_other in Hin by exact E'. exact Hin.
Qed.

Lemma dict_merge_get {V} (d2 : dict V) :
  forall (d1 : dict V) (k : string),
    dict_get d2 k = None -> dict_get (dict_merge d1 d2) k = dict_get d1 k.
Proof.
  unfold dict_merge. induction d2 as [| [k' v'] d2 IH]; intros d1 k H; simpl; [reflexivity |].
  simpl in H. destruct (String.eqb_spec k' k) as [E | E]; [discriminate |].
  rewrite IH by exact H. apply dict_get_set_other. exact E.
Qed.

Section StationFacts.
Local Open Scope string_scope.
Variable np_sin np_cos : float -> float.
Variable pd_to_datetime_index : list string -> option (list Z).
Variable py_number : string -> option pyval.

Local Abbreviation station :=
  (series_station np_sin np_cos pd_to_datetime_index py_number).
Local Abbreviation converted := (map (convert_attr py_number)).

Lemma convert_attr_key (kv : string * pyval) : fst (convert_attr py_number kv) = fst kv.
Proof.
  unfold convert_attr. destruct (snd kv); try reflexivity.
  destruct (negb _); [| reflexivity]. destruct (py_number s); reflexivity.
Qed.

Lemma converted_keys (fields : dict pyval) : dict_keys (converted fields) = dict_keys fields.
Proof.
  unfold dict_keys. rewrite map_map. apply map_ext. apply convert_attr_key.
Qed.

Lemma converted_get (fields : dict pyval) (k : string) :
  dict_get (converted fields) k
  = option_map (fun v => snd (convert_attr py_number (k, v))) (dict_get fields k).
Proof.
  induction fields as [| [k' v'] fields IH]; [reflexivity |].
  cbn [map]. pose proof (convert_attr_key (k', v')) as Hk.
  destruct (convert_attr py_number (k', v')) as [k1 v1] eqn:E. cbn [fst] in Hk. subst k1.
  cbn [dict_get]. destruct (String.eqb_spec k' k) as [-> | Hne].
  - cbn [option_map]. rewrite E. reflexivity.
  - exact IH.
Qed.

(** What a call of the loop body that returns has done. *)
Lemma series_station_returns (rename_set_1 : bool) (params other : dict pyval)
      (stn : StationSeries) (UNITS U : dict string) (t : SeriesTable)
      (log log' : list event) :
  station rename_set_1 params other stn UNITS log = (Ok (t, U), log') ->
  exists df df1 attrs1 attrs2,
    series_frame pd_to_datetime_index stn = Ok df /\
    series_wind np_sin np_cos stn (sort_columns df, UNITS) = Ok (df1, U) /\
    tb_frame t = dropna_all (if rename_set_1 then _rename_set_1 df1 else df1) /\
    rename_attr (converted (st_fields stn)) "LATITUDE" "latitude" = Ok attrs1 /\
    rename_attr attrs1 "LONGITUDE" "longitude" = Ok attrs2 /\
    tb_attrs t = dict_merge attrs2 other /\
    tb_UNITS t = U /\
    tb_SENSOR_VARIABLES t = st_SENSOR_VARIABLES stn /\
    tb_params t = params /\
    tb_service t = "stations_timeseries" /\
    log' = (log ++ if has_duplicates (map fst (df_columns (tb_frame t)))
                   then [Warning "🤹🏼‍♂️ DataFrame contains duplicate column names."]
                   else [])%list.
Proof.
  unfold series_station. intros H.
  apply bind_ok_inv in H. destruct H as [df [log0 [Hf H]]].
  unfold lift in Hf. injection Hf as Hf <-.
  apply bind_ok_inv in H. destruct H as [[df1 U1] [log1 [Hw H]]].
  unfold lift in Hw. injection Hw as Hw <-.
  apply bind_ok_inv in H. destruct H as [u [log2 [Hd H]]].
  apply bind_ok_inv in H. destruct H as [attrs1 [log3 [Ha1 H]]].
  unfold lift in Ha1. injection Ha1 as Ha1 <-.
  apply bind_ok_inv in H. destruct H as [attrs2 [log4 [Ha2 H]]].
  unfold lift in Ha2. injection Ha2 as Ha2 <-.
  unfold ret in H. injection H as <- <- <-.
  exists df, df1, attrs1, attrs2. cbn [tb_frame tb_attrs tb_UNITS tb_SENSOR_VARIABLES
                                        tb_params tb_service].
  repeat (split; [first [assumption | reflexivity] |]).
  unfold when in Hd.
  destruct (has_duplicates _).
  - unfold warnings_warn in Hd. congruence.
  - unfold ret in Hd. injection Hd as _ <-. rewrite app_nil_r. reflexivity.
Qed.

(** X13: the series builder announces duplicate column names.  When the
    body of the station loop returns, it has emitted the warning about
    duplicate column names if two columns of the finished table share a
    name, and nothing at all if the names are pairwise distinct. *)
Theorem duplicate_names_are_announced :
  forall (rename_set_1 : bool) (params other : dict pyval) (stn : StationSeries)
         (UNITS U : dict string) (t : SeriesTable) (log log' : list event),
    station rename_set_1 params other stn UNITS log = (Ok (t, U), log') ->
    let labels := map fst (df_columns (tb_frame t)) in
    (NoDup labels -> log' = log) /\
    (~ NoDup labels ->
     log' = (log ++ [Warning "🤹🏼‍♂️ DataFrame contains duplicate column names."])%list).
Proof.
  intros rename_set_1 params other stn UNITS U t log log' H labels.
  destruct (series_station_returns _ _ _ _ _ _ _ _ _ H)
    as [df [df1 [a1 [a2 [_ [_ [_ [_ [_ [_ [_ [_ [_ [_ Hlog]]]]]]]]]]]]]].
  fold labels in Hlog. split.
  - intros Hnd. apply has_duplicates_spec in Hnd. rewrite Hnd in Hlog.
    rewrite app_nil_r in Hlog. exact Hlog.
  - intros Hnd. destruct (has_duplicates labels) eqn:E; [exact Hlog |].
    exfalso. apply Hnd. apply has_duplicates_spec. exact E.
Qed.

(** X14: the attributes of a station's table.  When the body of the
    station loop returns for a station with pairwise distinct fields (and
    the payload has no top-level entry of these names), the station has
    the fields [LATITUDE] and [LONGITUDE]; the table holds their values,
    converted to numbers where possible, under [latitude] and [longitude]
    and no longer under the upper-case names; [STID] is kept as it came,
    never converted to a number. *)
Theorem station_attributes :
  forall (rename_set_1 : bool) (params other : dict pyval) (stn : StationSeries)
         (UNITS U : dict string) (t : SeriesTable) (log log' : list event),
    station rename_set_1 params other stn UNITS log = (Ok (t, U), log') ->
    NoDup (dict_keys (st_fields stn)) ->
    (forall k, In k ["STID"; "LATITUDE"; "LONGITUDE"; "latitude"; "longitude"] ->
               dict_get other k = None) ->
    exists lat lon,
      dict_get (st_fields stn) "LATITUDE" = Some lat /\
      dict_get (st_fields stn) "LONGITUDE" = Some lon /\
      dict_get (tb_attrs t) "latitude" = Some (snd (convert_attr py_number ("LATITUDE", lat))) /\
      dict_get (tb_attrs t) "longitude" = Some (snd (convert_attr py_number ("LONGITUDE", lon))) /\
      dict_get (tb_attrs t) "LATITUDE" = None /\
      dict_get (tb_attrs t) "LONGITUDE" = None /\
      dict_get (tb_attrs t) "STID" = dict_get (st_fields stn) "STID".
Proof.
  intros rename_set_1 params other stn UNITS U t log log' H Hnd Hother.
  destruct (series_station_returns _ _ _ _ _ _ _ _ _ H)
    as [df [df1 [a1 [a2 [_ [_ [_ [Ha1 [Ha2 [Hattrs _]]]]]]]]]].
  unfold rename_attr in Ha1, Ha2.
  unfold dict_item in Ha1.
  rewrite converted_get in Ha1.
  destruct (dict_get (st_fields stn) "LATITUDE") as [lat |] eqn:Hlat; [| discriminate].
  cbn [option_map rbind] in Ha1. injection Ha1 as <-.
  set (c := converted (st_fields stn)) in *.
  set (vlat := snd (convert_attr py_number ("LATITUDE", lat))) in *.
  assert (Hc : NoDup (dict_keys c)) by (unfold c; rewrite converted_keys; exact Hnd).
  assert (Hget1 : forall k, k <> "LATITUDE" -> k <> "latitude" ->
                            dict_get (dict_set (dict_remove c "LATITUDE") "latitude" vlat) k
                            = dict_get c k).
  { intros k H1 H2. rewrite dict_get_set_other by congruence.
    apply dict_remove_get_other. congruence. }
  unfold dict_item in Ha2. rewrite Hget1 in Ha2 by discriminate.
  unfold c in Ha2. rewrite converted_get in Ha2. fold c in Ha2.
  destruct (dict_get (st_fields stn) "LONGITUDE") as [lon |] eqn:Hlon; [| discriminate].
  cbn [option_map rbind] in Ha2. injection Ha2 as <-.
  set (vlon := snd (convert_attr py_number ("LONGITUDE", lon))) in *.
  exists lat, lon. split; [reflexivity |]. split; [reflexivity |].
  rewrite Hattrs.
  rewrite !dict_merge_get by (apply Hother; simpl; auto 6).
  split; [| split; [| split; [| split]]].
  - rewrite dict_get_set_other by discriminate.
    rewrite dict_remove_get_other by discriminate. apply dict_get_set_same.
  - apply dict_get_set_same.
  - rewrite dict_get_set_other by discriminate.
    rewrite dict_remove_get_other by discriminate.
    rewrite dict_get_set_other by discriminate.
    apply dict_remove_get_same. exact Hc.
  - rewrite dict_get_set_other by discriminate.
    apply dict_remove_get_same.
    apply dict_keys_set_NoDup. apply dict_remove_keys_NoDup. exact Hc.
  - rewrite dict_get_set_other by discriminate.
    rewrite dict_remove_get_other by discriminate.
    rewrite Hget1 by discriminate.
    unfold c. rewrite converted_get.
    destruct (dict_get (st_fields stn) "STID") as [v |]; [| reflexivity].
    cbn [option_map]. f_equal. unfold convert_attr. cbn [fst snd].
    destruct v; reflexivity.
Qed.

End StationFacts.

(** ** The service functions *)

Section ServiceFacts.
Local Open Scope string_scope.
Variable np_sin np_cos : float -> float.
Variable py_repr : pyval -> string.
Variable pd_to_datetime : pyval -> option pyval.
Variable pd_to_timedelta : pyval -> option pyval.
Variable timedelta_of_float_minutes : float -> result pyval.
Variable config_token : pyval.
Variable requests_get : string -> dict pyval -> Response.
Variable urllib_unquote : string -> string.
Variable pd_to_datetime_index : list string -> option (list Z).
Variable py_number : string -> option pyval.
Variable config_hide_token : bool.
Variable json_series : Response -> SeriesData.

Local Abbreviation normalize :=
  (normalize_params py_repr pd_to_datetime pd_to_timedelta
                    timedelta_of_float_minutes config_token).
Local Abbreviation call :=
  (call_api py_repr pd_to_datetime pd_to_timedelta timedelta_of_float_minutes
            config_token requests_get urllib_unquote config_hide_token).
Local Abbreviation timeseries :=
  (stations_timeseries np_sin np_cos py_repr pd_to_datetime pd_to_timedelta
                       timedelta_of_float_minutes config_token requests_get urllib_unquote
                       pd_to_datetime_index py_number config_hide_token json_series).
Local Abbreviation nearesttime_request :=
  (stations_nearesttime_request py_repr pd_to_datetime pd_to_timedelta
                                timedelta_of_float_minutes config_token requests_get
                                urllib_unquote config_hide_token).
Local Abbreviation latest_request :=
  (stations_latest_request py_repr pd_to_datetime pd_to_timedelta
                           timedelta_of_float_minutes config_token requests_get
                           urllib_unquote config_hide_token).
Local Abbreviation stamped :=
  (fun (params : dict pyval) (t : SeriesTable) =>
     tb_params t = params /\ tb_service t = "stations_timeseries").

Lemma series_loop_stamps (rename_set_1 : bool) (params other : dict pyval)
      (stations : list StationSeries) :
  forall (acc : list SeriesTable) (UNITS : dict string) (log : list event)
         (Z : list SeriesTable) (U : dict string) (log' : list event),
    for_each stations
             (fun stn (st : list SeriesTable * dict string) =>
                bind (series_station np_sin np_cos pd_to_datetime_index py_number
                                     rename_set_1 params other stn (snd st))
                     (fun r => ret (app (fst st) [fst r], snd r)))
             (acc, UNITS) log
    = (Ok (Z, U), log') ->
    Forall (stamped params) acc ->
    length Z = length acc + length stations /\ Forall (stamped params) Z.
Proof.
  induction stations as [| stn stations IH]; intros acc UNITS log Z U log' H Hacc; simpl in H.
  - unfold ret in H. injection H as <- _ _. split; [simpl; lia | exact Hacc].
  - apply bind_ok_inv in H. destruct H as [[acc1 U1] [log1 [H1 H2]]].
    apply bind_ok_inv in H1. destruct H1 as [[t Ut] [log0 [Hst H1]]].
    unfold ret in H1. injection H1 as <- _ _. cbn [fst snd] in *.
    destruct (series_station_returns _ _ _ _ _ _ _ _ _ _ _ _ _ Hst)
      as [df [df1 [a1 [a2 [_ [_ [_ [_ [_ [_ [_ [_ [Hp [Hs _]]]]]]]]]]]]]].
    destruct (IH _ _ _ _ _ _ H2) as [Hlen HZ].
    + apply Forall_app. split; [exact Hacc |]. constructor; [| constructor].
      split; assumption.
    + split; [| exact HZ]. rewrite Hlen, length_app. simpl. lia.
Qed.

(** X15: what [stations_timeseries] guarantees when it returns.  The
    caller passed [start] and [end], or [recent], and at least one station
    selector, each spelled in lower case; the response came from the
    [stations/timeseries] endpoint with code 1; a single table is returned
    exactly for a payload of one station, otherwise a list with one table
    per station; every table records the caller's parameters and the
    service name [stations_timeseries]. *)
Theorem timeseries_returns_checked_tables :
  forall (verbose rename_set_1 : bool) (params : dict pyval) (r : series_return)
         (log log' : list event),
    timeseries verbose rename_set_1 params log = (Ok r, log') ->
    ((dict_mem params "start" = true /\ dict_mem params "end" = true)
     \/ dict_mem params "recent" = true) /\
    (exists k, In k (dict_keys params) /\ In k _stn_selector) /\
    exists P web,
      web = requests_get "https://api.synopticdata.com/v2/stations/timeseries" P /\
      RESPONSE_CODE web = 1%Z /\
      match r with
      | OneTable t =>
          length (sd_STATION (json_series web)) = 1 /\ stamped params t
      | TableList Z =>
          length Z = length (sd_STATION (json_series web)) /\
          length Z <> 1 /\
          Forall (stamped params) Z
      end.
Proof.
  intros verbose rename_set_1 params r log log' H.
  unfold stations_timeseries in H.
  apply bind_ok_inv in H. destruct H as [u1 [log1 [Hw H]]].
  apply py_assert_ok in Hw. destruct Hw as [Hw ->].
  apply bind_ok_inv in H. destruct H as [u2 [log2 [Hs H]]].
  apply py_assert_ok in Hs. destruct Hs as [Hs ->].
  apply bind_ok_inv in H. destruct H as [web [log3 [Hweb H]]].
  split; [| split].
  - apply orb_true_iff in Hw. destruct Hw as [Hw | Hw]; [left | right; exact Hw].
    apply andb_true_iff. exact Hw.
  - apply existsb_str_in. exact Hs.
  - unfold call_api in Hweb.
    destruct (synoptic_api_returns _ _ _ _ _ _ _ _ _ _ _ _ _ _ Hweb)
      as [_ [P [log4 [_ [Hf [Hcode _]]]]]].
    exists P, web. split; [exact Hf |].
    split; [destruct Hcode as [E | E]; [discriminate | exact E] |].
    unfold stations_timeseries_tables in H.
    apply bind_ok_inv in H. destruct H as [[Z U] [log5 [Hloop H]]].
    unfold series_loop in Hloop.
    destruct (series_loop_stamps _ _ _ _ _ _ _ _ _ _ Hloop (Forall_nil _)) as [Hlen HZ].
    cbn [length Nat.add] in Hlen. cbn [fst snd] in H.
    assert (HZ' : Forall (stamped params) (map (share_units U) Z)).
    { rewrite Forall_map. exact HZ. }
    assert (Hlen' : length (map (share_units U) Z) = length (sd_STATION (json_series web)))
      by (rewrite length_map; exact Hlen).
    destruct (map (share_units U) Z) as [| t [| t' rest]] eqn:E.
    + apply bind_ok_inv in H. destruct H as [u3 [log6 [_ H]]].
      unfold ret in H. injection H as <- _.
      split; [exact Hlen' |]. split; [simpl; discriminate | exact HZ'].
    + unfold ret in H. injection H as <- _.
      split; [symmetry; exact Hlen' |]. inversion HZ'. assumption.
    + apply bind_ok_inv in H. destruct H as [u3 [log6 [_ H]]].
      unfold ret in H. injection H as <- _.
      split; [exact Hlen' |]. split; [simpl; discriminate | exact HZ'].
Qed.

(** The value that step 5) leaves under [within] when the mapping it is
    given holds the integer 60 there. *)
Lemma within_default_normalized (verbose : bool) (params P : dict pyval)
      (log log' : list event) :
  (forall ns, (Z.abs ns < 2 ^ 63)%Z -> pd_to_timedelta (PTimedelta ns) = Some (PTimedelta ns)) ->
  dict_mem params "within" = false ->
  normalize verbose (dict_setdefault params "within" (PInt 60)) log = (Ok P, log') ->
  dict_get P "within" = Some (PInt 60).
Proof.
  intros Hpd Hmem H.
  unfold dict_setdefault in H. rewrite Hmem in H.
  unfold dict_mem in Hmem.
  destruct (dict_get params "within") eqn:Hw; [discriminate |].
  rewrite (dict_set_absent _ _ _ Hw) in H.
  set (params' := (params ++ [("within", PInt 60)])%list) in *.
  assert (Hseen : dict_get (join_lists py_repr (lower_keys (set_default_token config_token params')))
                           "within" = Some (PInt 60)).
  { rewrite join_lists_get.
    assert (Hlow : dict_get (lower_keys (set_default_token config_token params')) "within"
                   = Some (PInt 60)).
    { unfold set_default_token, lower_keys.
      destruct (dict_mem params' "token") eqn:Ht.
      - pose proof (lower_fold_last params [] "within" (PInt 60) []
                      (fun kv (Hin : In kv []) => match Hin with end)) as Hl.
        exact Hl.
      - unfold dict_mem in Ht.
        destruct (dict_get params' "token") eqn:Ht'; [discriminate |].
        rewrite (dict_set_absent _ _ _ Ht'). unfold params'. rewrite <- app_assoc.
        cbn [app].
        apply (lower_fold_last params [("token", config_token)] "within" (PInt 60) []).
        intros kv [<- | []]. cbn [fst]. discriminate. }
    rewrite Hlow. reflexivity. }
  unfold normalize_params in H.
  apply bind_ok_inv in H. destruct H as [P1 [log1 [H1 H2]]].
  assert (HP1 : dict_get P1 "within" = Some (PInt 60)).
  { unfold normalize_instants in H1.
    rewrite <- Hseen.
    apply (instants_keep_durations py_repr pd_to_datetime pd_to_timedelta config_token
             "within" _ P1 log log1); [| exact H1].
    apply duration_key_cases. right. reflexivity. }
  unfold duration_keys in H2. cbn [for_each] in H2.
  apply bind_ok_inv in H2. destruct H2 as [P2 [log2 [Hr H2]]].
  apply bind_ok_inv in H2. destruct H2 as [P3 [log3 [Hwi H2]]].
  unfold ret in H2. injection H2 as <- _.
  assert (HP2 : dict_get P2 "within" = Some (PInt 60)).
  { assert (Hne : "recent" <> "within") by discriminate.
    rewrite (normalize_duration_other _ _ _ _ _ _ _ _ _ _ Hne Hr).
    exact HP1. }
  destruct (normalize_duration_total py_repr pd_to_timedelta timedelta_of_float_minutes
              verbose "within" P2 log2) as [out [lg [E [_ R]]]].
  { intros dt Hdt. rewrite HP2 in Hdt. injection Hdt as <-.
    unfold duration_of. cbn. unfold as_timedelta. rewrite Hpd; [discriminate |].
    vm_compute. reflexivity. }
  rewrite E in Hwi. injection Hwi as <- _.
  destruct (R (PInt 60) HP2) as [ns [Hns Hout]].
  unfold duration_of in Hns. cbn in Hns. unfold as_timedelta in Hns.
  rewrite Hpd in Hns by (vm_compute; reflexivity).
  injection Hns as <-. rewrite Hout. reflexivity.
Qed.

(** X16: [stations_nearesttime] and [stations_latest] ask for the
    observations within 60 minutes unless told otherwise.  When the caller
    passes no parameter spelled exactly [within], the parameters recorded
    for the table hold [within = 60], every other parameter being the
    caller's, and the request is made with [within] equal to the integer
    60; a value passed as [Within] is replaced.  Pandas is assumed to map
    a duration in its range to itself. *)
Theorem snapshot_requests_default_to_an_hour :
  (forall ns, (Z.abs ns < 2 ^ 63)%Z -> pd_to_timedelta (PTimedelta ns) = Some (PTimedelta ns)) ->
  forall (verbose : bool) (params p : dict pyval) (web : Response) (log log' : list event),
    nearesttime_request verbose params log = (Ok (web, p), log')
    \/ latest_request verbose params log = (Ok (web, p), log') ->
    dict_mem params "within" = false ->
    dict_get p "within" = Some (PInt 60) /\
    (forall k, k <> "within" -> dict_get p k = dict_get params k) /\
    exists P url,
      web = requests_get url P /\
      dict_get P "within" = Some (PInt 60).
Proof.
  intros Hpd verbose params p web log log' H Hmem.
  assert (Hcall : exists service lg,
             call service verbose (dict_setdefault params "within" (PInt 60)) lg
             = (Ok web, log')
             /\ p = dict_setdefault params "within" (PInt 60)).
  { destruct H as [H | H].
    - unfold stations_nearesttime_request in H.
      apply bind_ok_inv in H. destruct H as [u1 [log1 [_ H]]].
      apply bind_ok_inv in H. destruct H as [u2 [log2 [_ H]]].
      apply bind_ok_inv in H. destruct H as [w [log3 [Hweb H]]].
      unfold ret in H. injection H as <- <- <-. eauto.
    - unfold stations_latest_request in H.
      apply bind_ok_inv in H. destruct H as [u2 [log2 [_ H]]].
      apply bind_ok_inv in H. destruct H as [w [log3 [Hweb H]]].
      unfold ret in H. injection H as <- <- <-. eauto. }
  destruct Hcall as [service [lg [Hweb ->]]].
  split; [| split].
  - unfold dict_setdefault. rewrite Hmem. apply dict_get_set_same.
  - intros k Hk. unfold dict_setdefault. rewrite Hmem.
    apply dict_get_set_other. congruence.
  - unfold call_api in Hweb.
    destruct (synoptic_api_returns _ _ _ _ _ _ _ _ _ _ _ _ _ _ Hweb)
      as [_ [P [log4 [Hn [Hf _]]]]].
    exists P, (service_url service). split; [exact Hf |].
    apply (within_default_normalized verbose params P lg log4 Hpd Hmem Hn).
Qed.

End ServiceFacts.

(** ** Sorting by label *)

Lemma leb_total (a : string) : forall b, PyStr.leb a b = false -> PyStr.leb b a = true.
Proof.
  induction a as [| x a IH]; intros [| y b]; simpl; try discriminate; try reflexivity.
  destruct (Nat.ltb_spec (nat_of_ascii x) (nat_of_ascii y)); [discriminate |].
  destruct (Nat.ltb_spec (nat_of_ascii y) (nat_of_ascii x)); [reflexivity |].
  apply IH.
Qed.

Lemma leb_trans (a : string) :
  forall b c, PyStr.leb a b = true -> PyStr.leb b c = true -> PyStr.leb a c = true.
Proof.
  induction a as [| x a IH]; intros [| y b] [| z c]; simpl; try discriminate; try reflexivity.
  destruct (Nat.ltb_spec (nat_of_ascii x) (nat_of_ascii y));
    destruct (Nat.ltb_spec (nat_of_ascii y) (nat_of_ascii x));
    destruct (Nat.ltb_spec (nat_of_ascii y) (nat_of_ascii z));
    destruct (Nat.ltb_spec (nat_of_ascii z) (nat_of_ascii y));
    destruct (Nat.ltb_spec (nat_of_ascii x) (nat_of_ascii z));
    destruct (Nat.ltb_spec (nat_of_ascii z) (nat_of_ascii x));
    try discriminate; try reflexivity; try lia.
  apply IH.
Qed.

Section SortFacts.
Context {A : Type}.
Variable key : A -> string.

Local Abbreviation before := (fun a b : A => PyStr.leb (key a) (key b) = true).

Lemma insert_by_perm (x : A) (l : list A) : Permutation (x :: l) (insert_by key x l).
Proof.
  induction l as [| y l IH]; simpl; [apply Permutation_refl |].
  destruct (PyStr.leb (key x) (key y)); [apply Permutation_refl |].
  eapply Permutation_trans; [apply perm_swap |]. apply perm_skip. exact IH.
Qed.

Lemma insert_by_sorted (x : A) (l : list A) :
  StronglySorted before l -> StronglySorted before (insert_by key x l).
Proof.
  induction l as [| y l IH]; simpl; intros H.
  - constructor; constructor.
  - inversion H as [| ? ? Hs Hall]; subst.
    destruct (PyStr.leb (key x) (key y)) eqn:E.
    + constructor; [exact H |]. constructor; [exact E |].
      eapply Forall_impl; [| exact Hall].
      intros z Hz. cbv beta in *. eapply leb_trans; eassumption.
    + constructor; [apply IH; exact Hs |].
      apply (Permutation_Forall (insert_by_perm x l)).
      constructor; [apply leb_total; exact E | exact Hall].
Qed.

Lemma sort_by_perm (l : list A) : Permutation l (sort_by key l).
Proof.
  unfold sort_by. induction l as [| x l IH]; simpl; [constructor |].
  eapply Permutation_trans; [apply perm_skip; exact IH | apply insert_by_perm].
Qed.

Lemma sort_by_sorted (l : list A) : StronglySorted before (sort_by key l).
Proof.
  unfold sort_by. induction l as [| x l IH]; simpl; [constructor |].
  apply insert_by_sorted. exact IH.
Qed.

End SortFacts.

Lemma dict_get_In_NoDup {V} (d : dict V) (k : string) (v : V) :
  NoDup (dict_keys d) -> In (k, v) d -> dict_get d k = Some v.
Proof.
  induction d as [| [k' v'] d IH]; simpl; intros Hnd Hin; [destruct Hin |].
  inversion Hnd as [| ? ? Hn Hd]; subst.
  destruct (String.eqb_spec k' k) as [E | E].
  - subst k'. destruct Hin as [Hin | Hin]; [congruence |].
    exfalso. apply Hn. apply in_map_iff. exists (k, v). split; [reflexivity | exact Hin].
  - destruct Hin as [Hin | Hin]; [congruence | apply IH; assumption].
Qed.

Lemma dict_get_perm {V} (d d' : dict V) (k : string) :
  NoDup (dict_keys d) -> Permutation d d' -> dict_get d' k = dict_get d k.
Proof.
  intros Hnd Hp.
  assert (Hnd' : NoDup (dict_keys d')).
  { apply (Permutation_NoDup (l := dict_keys d)); [| exact Hnd].
    unfold dict_keys. apply Permutation_map. exact Hp. }
  destruct (dict_get d k) as [v |] eqn:E.
  - apply dict_get_In in E. apply dict_get_In_NoDup; [exact Hnd' |].
    apply (Permutation_in _ Hp). exact E.
  - destruct (dict_get d' k) as [v |] eqn:E'; [| reflexivity].
    apply dict_get_In in E'. apply (Permutation_in _ (Permutation_sym Hp)) in E'.
    rewrite (dict_get_In_NoDup d k v Hnd E') in E. discriminate.
Qed.

(** X17: the builders sort by label.  [sort_columns] keeps the index,
    permutes the columns so that every column's label is at most the label
    of every later column, and, for pairwise distinct labels, leaves the
    cells of each label as they were; the rows of a snapshot frame that is
    not renamed are in the same order of their labels. *)
Theorem tables_are_sorted_by_label :
  (forall df : DataFrame,
      let out := sort_columns df in
      df_index out = df_index df /\
      Permutation (df_columns df) (df_columns out) /\
      StronglySorted (fun a b => PyStr.leb (fst a) (fst b) = true) (df_columns out) /\
      (NoDup (map fst (df_columns df)) ->
       forall k, dict_get (df_columns out) k = dict_get (df_columns df) k))
  /\
  (forall (np_sin np_cos : float -> float) (pd_timestamp : string -> option Z)
          (py_float : pyval -> option float) (i : StationSnapshot)
          (df : SnapFrame snap_value),
      snapshot_station np_sin np_cos pd_timestamp py_float false i = Ok df ->
      StronglySorted (fun a b => PyStr.leb (row_label a) (row_label b) = true) (sf_rows df)).
Proof.
  split.
  - intros df out. unfold out, sort_columns. cbn [df_index df_columns].
    split; [reflexivity |]. split; [apply sort_by_perm |].
    split; [apply (sort_by_sorted (@fst string (list float))) |].
    intros Hnd k. apply dict_get_perm; [exact Hnd | apply sort_by_perm].
  - intros np_sin np_cos pd_timestamp py_float i df H.
    unfold snapshot_station in H.
    destruct (snapshot_columns np_sin np_cos py_float i) as [cols | e]; [| discriminate].
    cbn [rbind] in H.
    destruct (sn_obs i) as [| o obs]; [discriminate |].
    destruct (map_result (snapshot_row pd_timestamp) cols) as [rows | e]; [| discriminate].
    cbn [rbind] in H. injection H as <-. cbn [sf_rows].
    apply (sort_by_sorted (@row_label snap_value)).
Qed.

(** ** Disambiguator: what renaming leaves alone *)

Lemma fold_dict_set_keys {V} (key : nat -> string) (val : nat -> V) (l : list nat) :
  forall d : dict V,
    NoDup (dict_keys d ++ map key l) ->
    dict_keys (fold_left (fun r j => dict_set r (key j) (val j)) l d)
    = (dict_keys d ++ map key l)%list.
Proof.
  induction l as [| j l IH]; intros d Hnd; simpl.
  - rewrite app_nil_r. reflexivity.
  - assert (Habs : dict_get d (key j) = None).
    { destruct (dict_get d (key j)) eqn:E; [| reflexivity].
      exfalso. apply NoDup_remove_2 in Hnd. apply Hnd.
      apply in_app_iff. left. apply dict_get_keys. congruence. }
    rewrite IH; rewrite (dict_set_absent _ _ _ Habs); unfold dict_keys; rewrite map_app;
      cbn [map fst]; rewrite <- app_assoc; [reflexivity | exact Hnd].
Qed.

Lemma rename_loop_keys (marker : string) (Score : Type) (gt : Score -> Score -> bool)
      (no_score : Score) (labels : list string) (scores : list Score) :
  NoDup labels -> dict_keys (rename_loop marker gt no_score labels scores) = labels.
Proof.
  intros Hnd. unfold rename_loop.
  rewrite fold_dict_set_keys; cbn [dict_keys map app]; rewrite map_nth_seq;
    [reflexivity | exact Hnd].
Qed.

(** X18: renaming touches names only.  [_rename_set_1] keeps the index and
    the cells of every column in their order, and [_rename_value_1] the
    timestamp and the value of every row; for pairwise distinct labels the
    mapping stored as [RENAMED] has exactly the original labels as keys,
    in their order, and maps each to the name found at its position
    afterwards. *)
Theorem renaming_touches_names_only :
  (forall df : DataFrame,
      let labels := map fst (df_columns df) in
      let out := _rename_set_1 df in
      df_index out = df_index df /\
      map snd (df_columns out) = map snd (df_columns df) /\
      (NoDup labels ->
       exists renames,
         df_RENAMED out = Some renames /\
         dict_keys renames = labels /\
         forall i v, nth_error labels i = Some v ->
                     exists new, dict_get renames v = Some new /\
                                 nth_error (map fst (df_columns out)) i = Some new))
  /\
  (forall (V : Type) (df : SnapFrame V),
      let labels := map (@row_label V) (sf_rows df) in
      let out := _rename_value_1 df in
      map (@row_date_time V) (sf_rows out) = map (@row_date_time V) (sf_rows df) /\
      map (@row_value V) (sf_rows out) = map (@row_value V) (sf_rows df) /\
      (NoDup labels ->
       exists renames,
         sf_RENAMED out = Some renames /\
         dict_keys renames = labels /\
         forall i v, nth_error labels i = Some v ->
                     exists new, dict_get renames v = Some new /\
                                 nth_error (map (@row_label V) (sf_rows out)) i = Some new)).
Proof.
  split.
  - intros df labels out. unfold out, _rename_set_1. cbn [df_index df_columns df_RENAMED].
    split; [reflexivity |]. split; [rewrite map_map; reflexivity |].
    intros Hnd. eexists. split; [reflexivity |].
    split; [apply rename_loop_keys; exact Hnd |].
    intros i v Hi.
    exists (rename_target "_set_1" count_gt 0 labels (df_count df) i).
    assert (Hlt : i < length labels) by (apply nth_error_Some; congruence).
    assert (Hv : nth i labels ""%string = v) by (apply nth_error_nth; exact Hi).
    split.
    + rewrite <- Hv. apply rename_loop_lookup; assumption.
    + rewrite map_map. cbn [fst].
      rewrite <- (map_map fst (apply_renames _)).
      erewrite renamed_label_at by exact Hi.
      rewrite (apply_rename_loop_at _ _ _ _ _ _ i) by assumption. reflexivity.
  - intros V df labels out. unfold out, _rename_value_1. cbn [sf_rows sf_RENAMED].
    split; [rewrite map_map; reflexivity |]. split; [rewrite map_map; reflexivity |].
    intros Hnd. eexists. split; [reflexivity |].
    split; [apply rename_loop_keys; exact Hnd |].
    intros i v Hi.
    exists (rename_target "_value_1" timestamp_gt None labels
                          (map (@row_date_time V) (sf_rows df)) i).
    assert (Hlt : i < length labels) by (apply nth_error_Some; congruence).
    assert (Hv : nth i labels ""%string = v) by (apply nth_error_nth; exact Hi).
    split.
    + rewrite <- Hv. apply rename_loop_lookup; assumption.
    + rewrite map_map. cbn [row_label].
      rewrite <- (map_map (@row_label V) (apply_renames _)).
      erewrite renamed_label_at by exact Hi.
      rewrite (apply_rename_loop_at _ _ _ _ _ _ i) by assumption. reflexivity.
Qed.

(** ** The series builder: a well-formed station always gives a table *)

Lemma fold_result_keeps {A St} (P : St -> Prop) (step : A -> St -> result St) (l : list A) :
  (forall x st st', P st -> step x st = Ok st' -> P st') ->
  forall st st', P st -> fold_result step l st = Ok st' -> P st'.
Proof.
  intros Hstep. induction l as [| x l IH]; intros st st' HP H; simpl in H.
  - injection H as <-. exact HP.
  - destruct (step x st) as [st1 |] eqn:E; [| discriminate]. cbn [rbind] in H.
    apply (IH st1 st'); [eapply Hstep; eassumption | exact H].
Qed.

Lemma set_column_shape (df df' : DataFrame) (label : string) (values : list float) :
  set_column df label values = Ok df' ->
  (forall c, In c (df_columns df) -> length (snd c) = length (df_index df)) ->
  (forall c, In c (df_columns df') -> length (snd c) = length (df_index df')) /\
  df_index df' = df_index df.
Proof.
  unfold set_column. destruct (Nat.eqb_spec (length values) (length (df_index df))) as [E | E];
    [| discriminate].
  intros H Hshape. injection H as <-. cbn [df_columns df_index]. split; [| reflexivity].
  intros c Hc. apply dict_set_In in Hc. destruct Hc as [-> | Hc]; [exact E | apply Hshape; exact Hc].
Qed.

Section TotalFacts.
Local Open Scope string_scope.
Variable np_sin np_cos : float -> float.
Variable pd_to_datetime_index : list string -> option (list Z).
Variable py_number : string -> option pyval.

Local Abbreviation station :=
  (series_station np_sin np_cos pd_to_datetime_index py_number).
Local Abbreviation shaped :=
  (fun df : DataFrame =>
     forall c, In c (df_columns df) -> length (snd c) = length (df_index df)).

Lemma series_wind_step_shape (obs : dict (list cell)) (pair : string * string)
      (df df' : DataFrame) (U U' : dict string) :
  shaped df ->
  series_wind_step np_sin np_cos obs pair (df, U) = Ok (df', U') ->
  shaped df'.
Proof.
  intros Hshape H. destruct pair as [i_spd i_dir]. unfold series_wind_step in H.
  destruct (dict_item obs i_spd) as [wspd |]; [| discriminate]. cbn [rbind] in H.
  destruct (dict_item obs i_dir) as [wdir |]; [| discriminate]. cbn [rbind] in H.
  destruct (spddir_to_uv np_sin np_cos (WLists wspd wdir)) as [[u v | u v] |];
    try discriminate. cbn [rbind] in H.
  destruct (set_column df _ u) as [df1 |] eqn:E1; [| discriminate]. cbn [rbind] in H.
  destruct (set_column df1 _ v) as [df2 |] eqn:E2; [| discriminate]. cbn [rbind] in H.
  destruct (dict_item U "wind_speed") as [unit |]; [| discriminate]. cbn [rbind] in H.
  destruct (dict_item _ "wind_speed") as [unit' |]; [| discriminate]. cbn [rbind] in H.
  injection H as <- _.
  destruct (set_column_shape _ _ _ _ E1 Hshape) as [H1 _].
  destruct (set_column_shape _ _ _ _ E2 H1) as [H2 _]. exact H2.
Qed.

Lemma series_frame_shape (stn : StationSeries) (df : DataFrame) :
  (forall l idx, pd_to_datetime_index l = Some idx -> length idx = length l) ->
  series_frame pd_to_datetime_index stn = Ok df ->
  shaped (sort_columns df).
Proof.
  intros Hparse Hframe c Hc.
  destruct (series_frame_lengths pd_to_datetime_index stn df Hframe Hparse) as [Hcols Hlen].
  unfold sort_columns in Hc. cbn [df_columns df_index] in *.
  apply (Permutation_in _ (Permutation_sym (sort_by_perm fst (df_columns df)))) in Hc.
  rewrite Hcols in Hc. apply in_map_iff in Hc. destruct Hc as [[k cells] [<- Hin]].
  cbn [fst snd]. unfold np_array. rewrite length_map.
  unfold series_frame in Hframe.
  destruct (forallb _ (st_obs stn)) eqn:Hall; [| discriminate].
  destruct (pd_to_datetime_index (st_date_time stn)) as [index |] eqn:Ei; [| discriminate].
  injection Hframe as <-. cbn [df_index].
  rewrite forallb_forall in Hall. specialize (Hall _ Hin). cbn [snd] in Hall.
  apply Nat.eqb_eq in Hall. unfold sort_columns. cbn [df_index].
  rewrite (Hparse _ _ Ei). exact Hall.
Qed.

(** X19: a well-formed station always gives a table.  When the frame of
    the station builds, the index parser returns one entry per text, the
    labels paired by the catalog are observations of the station, the
    units name [wind_speed] if there is a pair, and the station has the
    fields [LATITUDE] and [LONGITUDE], the body of the station loop
    returns; every column of its table has one cell per index entry and
    no row is without an observation. *)
Theorem well_formed_station_gives_a_table :
  forall (rename_set_1 : bool) (params other : dict pyval) (stn : StationSeries)
         (df : DataFrame) (UNITS : dict string) (log : list event),
    (forall l idx, pd_to_datetime_index l = Some idx -> length idx = length l) ->
    series_frame pd_to_datetime_index stn = Ok df ->
    (wind_pairs (st_SENSOR_VARIABLES stn) <> [] -> dict_mem UNITS "wind_speed" = true) ->
    (forall i_spd i_dir,
        In (i_spd, i_dir) (wind_pairs (st_SENSOR_VARIABLES stn)) ->
        dict_mem (st_obs stn) i_spd = true /\ dict_mem (st_obs stn) i_dir = true) ->
    dict_mem (st_fields stn) "LATITUDE" = true ->
    dict_mem (st_fields stn) "LONGITUDE" = true ->
    exists t U log',
      station rename_set_1 params other stn UNITS log = (Ok (t, U), log') /\
      (forall c, In c (df_columns (tb_frame t)) ->
                 length (snd c) = length (df_index (tb_frame t))) /\
      (forall r, r < length (df_index (tb_frame t)) ->
                 row_has_value (df_columns (tb_frame t)) r = true).
Proof.
  intros rename_set_1 params other stn df UNITS log Hparse Hframe Hunit Hobs Hlat Hlon.
  destruct (series_frame_lengths pd_to_datetime_index stn df Hframe Hparse) as [_ Hlen].
  assert (Hloop : exists df1 U,
             fold_result (series_wind_step np_sin np_cos (st_obs stn))
                         (wind_pairs (st_SENSOR_VARIABLES stn)) (sort_columns df, UNITS)
             = Ok (df1, U)).
  { destruct (wind_pairs (st_SENSOR_VARIABLES stn)) as [| p pairs] eqn:Ep.
    - exists (sort_columns df), UNITS. reflexivity.
    - assert (Hmem : dict_mem UNITS "wind_speed" = true) by (apply Hunit; discriminate).
      unfold dict_mem in Hmem.
      destruct (dict_get UNITS "wind_speed") as [unit |] eqn:Eu; [| discriminate].
      destruct (series_wind_loop np_sin np_cos (st_obs stn) unit (df_index df) (p :: pairs))
        with (df := sort_columns df) (UNITS := UNITS)
        as [df1 [U [Hloop _]]].
      + intros i_spd i_dir Hin. destruct (Hobs i_spd i_dir Hin) as [Hms Hmd].
        unfold dict_mem in Hms, Hmd.
        destruct (dict_get (st_obs stn) i_spd) as [wspd |] eqn:Es; [| discriminate].
        destruct (dict_get (st_obs stn) i_dir) as [wdir |] eqn:Ed; [| discriminate].
        exists wspd, wdir. repeat split; eauto.
      + reflexivity.
      + exact Eu.
      + exists df1, U. exact Hloop. }
  destruct Hloop as [df1 [U Hloop]].
  assert (Hshape1 : shaped df1).
  { apply (fold_result_keeps (fun st : DataFrame * dict string => shaped (fst st))
             (series_wind_step np_sin np_cos (st_obs stn))
             (wind_pairs (st_SENSOR_VARIABLES stn)))
      with (st := (sort_columns df, UNITS)) (st' := (df1, U)); [| | exact Hloop].
    - intros x [d0 U0] [d1 U1] HP Hstep. cbn [fst] in *.
      apply (series_wind_step_shape _ _ _ _ _ _ HP Hstep).
    - cbn [fst]. apply (series_frame_shape stn df Hparse Hframe). }
  set (df2 := if rename_set_1 then _rename_set_1 df1 else df1).
  assert (Hshape2 : shaped df2).
  { unfold df2. destruct rename_set_1; [| exact Hshape1].
    intros c Hc. unfold _rename_set_1 in *. cbn [df_columns df_index] in *.
    apply in_map_iff in Hc. destruct Hc as [c0 [<- Hc0]]. cbn [snd].
    apply Hshape1. exact Hc0. }
  unfold dict_mem in Hlat, Hlon.
  destruct (dict_get (st_fields stn) "LATITUDE") as [lat |] eqn:Elat; [| discriminate].
  destruct (dict_get (st_fields stn) "LONGITUDE") as [lon |] eqn:Elon; [| discriminate].
  unfold series_station.
  unfold bind at 1. unfold lift at 1. rewrite Hframe.
  unfold bind at 1. unfold lift at 1. unfold series_wind. rewrite Hloop.
  fold df2.
  pose proof (dropna_all_shape df2 Hshape2) as Hcol.
  pose proof (dropna_all_rows df2 Hshape2) as Hrow.
  set (out := dropna_all df2) in *.
  set (attrs := map (convert_attr py_number) (st_fields stn)).
  assert (Ha1 : rename_attr attrs "LATITUDE" "latitude"
                = Ok (dict_set (dict_remove attrs "LATITUDE") "latitude"
                               (snd (convert_attr py_number ("LATITUDE", lat))))).
  { unfold rename_attr, dict_item, attrs. rewrite converted_get, Elat. reflexivity. }
  set (attrs1 := dict_set (dict_remove attrs "LATITUDE") "latitude"
                          (snd (convert_attr py_number ("LATITUDE", lat)))) in *.
  assert (Ha2 : rename_attr attrs1 "LONGITUDE" "longitude"
                = Ok (dict_set (dict_remove attrs1 "LONGITUDE") "longitude"
                               (snd (convert_attr py_number ("LONGITUDE", lon))))).
  { unfold rename_attr, dict_item, attrs1.
    rewrite dict_get_set_other by discriminate.
    rewrite dict_remove_get_other by discriminate.
    unfold attrs. rewrite converted_get, Elon. reflexivity. }
  destruct (when (has_duplicates (map fst (df_columns out)))
                 (warnings_warn "🤹🏼‍♂️ DataFrame contains duplicate column names.") log)
    as [[u | e] log1] eqn:Ew.
  - eexists. eexists. exists log1. split.
    { unfold bind at 1. rewrite Ew.
      unfold bind at 1. unfold lift at 1. rewrite Ha1.
      unfold bind at 1. unfold lift at 1. rewrite Ha2.
      unfold ret. reflexivity. }
    cbn [tb_frame]. split; [exact Hcol | exact Hrow].
  - exfalso. unfold when in Ew. destruct (has_duplicates _); discriminate.
Qed.

End TotalFacts.

(** ** What a quiet call writes *)

Section QuietFacts.
Local Open Scope string_scope.
Variable py_repr : pyval -> string.
Variable pd_to_datetime : pyval -> option pyval.
Variable pd_to_timedelta : pyval -> option pyval.
Variable timedelta_of_float_minutes : float -> result pyval.
Variable config_token : pyval.
Variable requests_get : string -> dict pyval -> Response.
Variable urllib_unquote : string -> string.

(** A computation that only ever appends warnings to the log. *)
Local Abbreviation warns_only c :=
  (forall (log : list event) r (log' : list event),
      c log = (r, log') ->
      exists ws, log' = (log ++ ws)%list /\ Forall (fun e => exists msg, e = Warning msg) ws).

Lemma warns_only_pure {A} (r0 : result A) : warns_only (lift r0).
Proof.
  intros log r log' H. unfold lift in H. injection H as _ <-.
  exists []. split; [rewrite app_nil_r; reflexivity | constructor].
Qed.

Lemma warns_only_ret {A} (a : A) : warns_only (ret a).
Proof. apply (warns_only_pure (Ok a)). Qed.

Lemma warns_only_warn (msg : string) : warns_only (warnings_warn msg).
Proof.
  intros log r log' H. unfold warnings_warn in H. injection H as _ <-.
  exists [Warning msg]. split; [reflexivity |]. constructor; [eauto | constructor].
Qed.

Lemma warns_only_assert (b : bool) (msg : string) : warns_only (py_assert b msg).
Proof.
  unfold py_assert. destruct b; [apply warns_only_ret |].
  apply (warns_only_pure (Raise (AssertionError msg))).
Qed.

Lemma warns_only_bind {A B} (c : M A) (k : A -> M B) :
  warns_only c -> (forall a, warns_only (k a)) -> warns_only (bind c k).
Proof.
  intros Hc Hk log r log' H. unfold bind in H.
  destruct (c log) as [[a | e] log1] eqn:E.
  - destruct (Hc _ _ _ E) as [ws1 [-> H1]].
    destruct (Hk a _ _ _ H) as [ws2 [-> H2]].
    exists (ws1 ++ ws2)%list. split; [rewrite app_assoc; reflexivity |].
    apply Forall_app. split; assumption.
  - injection H as <- <-. apply (Hc _ _ _ E).
Qed.

Lemma warns_only_for_each {A St} (body : A -> St -> M St) (l : list A) :
  (forall x st, warns_only (body x st)) ->
  forall st, warns_only (for_each l body st).
Proof.
  intros Hbody. induction l as [| x l IH]; intros st; simpl.
  - apply warns_only_ret.
  - apply warns_only_bind; [apply Hbody | exact IH].
Qed.

Lemma normalize_warns_only (params : dict pyval) :
  warns_only (normalize_params py_repr pd_to_datetime pd_to_timedelta
                               timedelta_of_float_minutes config_token false params).
Proof.
  unfold normalize_params, normalize_instants.
  apply warns_only_bind; [apply warns_only_bind |].
  - apply warns_only_for_each. intros i st. unfold normalize_datetime.
    destruct (dict_get st i) as [date |]; [| apply warns_only_ret].
    apply warns_only_bind.
    + destruct (pd_to_datetime (pad_compact_date date)); [apply warns_only_ret |].
      apply warns_only_bind; [apply warns_only_warn | intros ?; apply warns_only_ret].
    + intros p. apply warns_only_bind; [apply warns_only_pure |].
      intros v. apply warns_only_bind; [apply warns_only_pure |].
      intros s. apply warns_only_ret.
  - intros p. unfold normalize_obrange.
    destruct (dict_get p "obrange") as [v |]; [| apply warns_only_ret].
    destruct (isinstance_str v); [apply warns_only_ret |].
    apply warns_only_bind; [apply warns_only_pure | intros ?; apply warns_only_ret].
  - intros p. apply warns_only_for_each. intros i st. unfold normalize_duration.
    destruct (dict_get st i) as [dt |]; [| apply warns_only_ret].
    apply warns_only_bind.
    + destruct dt; first [apply warns_only_pure | apply warns_only_ret].
    + intros dt'. apply warns_only_bind.
      * destruct (pd_to_timedelta dt'); [apply warns_only_ret |].
        apply warns_only_bind; [apply warns_only_warn | intros ?; apply warns_only_ret].
      * intros p'. apply warns_only_bind; [apply warns_only_pure |].
        intros v. apply warns_only_bind; [apply warns_only_pure |].
        intros m. apply warns_only_bind; [apply warns_only_ret | intros ?; apply warns_only_ret].
Qed.

(** X20: a quiet call prints nothing.  With [verbose] off, whatever
    [synoptic_api] does (return the response or raise), everything it adds
    to the log is a warning: no line is printed. *)
Theorem quiet_call_prints_nothing :
  forall (service : string) (hide_token : bool) (params : dict pyval)
         (log : list event) (r : result Response) (log' : list event),
    synoptic_api py_repr pd_to_datetime pd_to_timedelta timedelta_of_float_minutes
                 config_token requests_get urllib_unquote
                 service false hide_token params log = (r, log') ->
    exists ws,
      log' = (log ++ ws)%list /\
      Forall (fun e => exists msg, e = Warning msg) ws.
Proof.
  intros service hide_token params.
  unfold synoptic_api.
  apply warns_only_bind; [apply warns_only_assert |]. intros _.
  apply warns_only_bind; [apply normalize_warns_only |]. intros P.
  destruct (String.eqb service "auth"); [apply warns_only_ret |].
  apply warns_only_bind; [apply warns_only_assert |]. intros _.
  apply warns_only_bind; [apply warns_only_ret | intros ?; apply warns_only_ret].
Qed.

End QuietFacts.

(* ================================================================== *)
(** ** Instances of the further properties *)

Lemma unmarked_label_keeps_name_witness :
  nth_error (map fst (df_columns (_rename_set_1 sample_plain_columns))) 1
  = Some "wind_speed_set_2"%string
  /\
  nth_error (map (@row_label unit) (sf_rows (_rename_value_1 sample_value_1_and_1d))) 0
  = Some "ELEVATION"%string.
Proof.
  split.
  - apply (proj1 unmarked_label_keeps_name sample_plain_columns 1 "wind_speed_set_2"%string).
    + distinct_labels.
    + reflexivity.
    + reflexivity.
    + intros w [<- | [<- | []]]; reflexivity.
  - apply (proj2 unmarked_label_keeps_name unit sample_value_1_and_1d 0 "ELEVATION"%string).
    + distinct_labels.
    + reflexivity.
    + reflexivity.
    + intros w [<- | [<- | [<- | []]]]; reflexivity.
Defined.

Lemma bare_label_and_sole_member_collide_witness :
  (nth_error (map fst (df_columns (_rename_set_1 sample_bare_and_set_1))) 1
   = Some "air_temp"%string /\
   nth_error (map fst (df_columns (_rename_set_1 sample_bare_and_set_1))) 0
   = Some "air_temp"%string /\
   1 <> 0 /\
   ~ NoDup (map fst (df_columns (_rename_set_1 sample_bare_and_set_1))))
  /\
  (nth_error (map (@row_label unit) (sf_rows (_rename_value_1 sample_bare_and_value_1))) 1
   = Some "air_temp"%string /\
   nth_error (map (@row_label unit) (sf_rows (_rename_value_1 sample_bare_and_value_1))) 0
   = Some "air_temp"%string /\
   1 <> 0 /\
   ~ NoDup (map (@row_label unit) (sf_rows (_rename_value_1 sample_bare_and_value_1)))).
Proof.
  split.
  - apply (proj1 bare_label_and_sole_member_collide sample_bare_and_set_1 1 0
                 "air_temp"%string ""%string).
    + distinct_labels.
    + reflexivity.
    + reflexivity.
    + reflexivity.
    + reflexivity.
    + reflexivity.
  - apply (proj2 bare_label_and_sole_member_collide unit sample_bare_and_value_1 1 0
                 "air_temp"%string ""%string).
    + distinct_labels.
    + reflexivity.
    + reflexivity.
    + reflexivity.
    + reflexivity.
    + reflexivity.
Defined.

Lemma missing_speed_missing_vector_witness :
  (exists u v,
      spddir_to_uv sample_sin sample_cos (WLists [None; Some 2.5%float] [Some 90%float; None])
      = Ok (UVArrays u v) /\
      forall i c,
        nth_error [None; Some 2.5%float] i = Some c -> c = None \/ c = Some nan ->
        nth_error u i = Some nan /\ nth_error v i = Some nan)
  /\
  spddir_to_uv sample_sin sample_cos (WScalars (Some nan) (Some 90%float))
  = Ok (UVScalars nan nan).
Proof.
  split.
  - apply (proj1 (missing_speed_missing_vector sample_sin sample_cos)). reflexivity.
  - apply (proj2 (missing_speed_missing_vector sample_sin sample_cos)).
Defined.

Lemma series_wind_loop_outcomes_witness :
  (exists df' UNITS',
      series_wind sample_sin sample_cos sample_station
                  (sort_columns sample_station_frame, sample_units) = Ok (df', UNITS') /\
      df_index df' = df_index sample_station_frame /\
      (forall k, PyStr.startswith k "wind_u_" = false ->
                 PyStr.startswith k "wind_v_" = false ->
                 dict_get (df_columns df') k
                 = dict_get (df_columns (sort_columns sample_station_frame)) k) /\
      (forall k, k <> "wind_u"%string -> k <> "wind_v"%string ->
                 dict_get UNITS' k = dict_get sample_units k) /\
      (wind_pairs (st_SENSOR_VARIABLES sample_station) <> [] ->
       dict_get UNITS' "wind_u" = Some "m/s"%string /\
       dict_get UNITS' "wind_v" = Some "m/s"%string))
  /\
  series_wind sample_sin sample_cos sample_station
              (sort_columns sample_station_frame, [("air_temp"%string, "Celsius"%string)])
  = Raise (KeyError "wind_speed").
Proof.
  assert (Hparse : forall l idx, sample_index l = Some idx -> length idx = length l).
  { intros l idx H. injection H as <-. rewrite length_map, length_seq. reflexivity. }
  assert (Hobs : forall i_spd i_dir,
             In (i_spd, i_dir) (wind_pairs (st_SENSOR_VARIABLES sample_station)) ->
             dict_mem (st_obs sample_station) i_spd = true /\
             dict_mem (st_obs sample_station) i_dir = true).
  { intros i_spd i_dir [H | []]. injection H as <- <-. split; reflexivity. }
  split.
  - apply (proj1 (series_wind_loop_outcomes sample_sin sample_cos sample_index
                    sample_station sample_station_frame sample_units
                    Hparse eq_refl Hobs) "m/s"%string).
    reflexivity.
  - apply (proj2 (proj2 (series_wind_loop_outcomes sample_sin sample_cos sample_index
                           sample_station sample_station_frame
                           [("air_temp"%string, "Celsius"%string)]
                           Hparse eq_refl Hobs))).
    + discriminate.
    + reflexivity.
Defined.

Lemma snapshot_null_wind_value_raises_witness :
  exists e,
    snapshot_station sample_sin sample_cos sample_timestamp sample_float true
                     sample_null_wind_snapshot = Raise e.
Proof.
  apply (snapshot_null_wind_value_raises sample_sin sample_cos sample_timestamp sample_float
           true sample_null_wind_snapshot
           "wind_speed_value_1"%string "wind_direction_value_1"%string
           {| so_date_time := "2020-01-01T00:00:00Z"%string; so_value := None |}).
  - left. reflexivity.
  - reflexivity.
  - left. reflexivity.
Defined.

Lemma dropna_all_invariants_witness :
  map fst (df_columns (dropna_all sample_gap_row)) = map fst (df_columns sample_gap_row) /\
  (forall c, In c (df_columns (dropna_all sample_gap_row)) ->
             length (snd c) = length (df_index (dropna_all sample_gap_row))) /\
  (forall r, r < length (df_index (dropna_all sample_gap_row)) ->
             row_has_value (df_columns (dropna_all sample_gap_row)) r = true) /\
  df_count (dropna_all sample_gap_row) = df_count sample_gap_row /\
  dropna_all (dropna_all sample_gap_row) = dropna_all sample_gap_row.
Proof.
  apply (dropna_all_invariants sample_gap_row).
  intros c [<- | [<- | []]]; reflexivity.
Defined.

Lemma request_keys_are_lower_case_witness :
  exists out log',
    normalize_params sample_repr sample_to_datetime sample_to_timedelta
                     sample_timedelta_of_float sample_token false
                     [("STID"%string, PStr "WBB"); ("Recent"%string, PInt 30)] []
    = (Ok out, log') /\
    NoDup (dict_keys out) /\
    forall k, In k (dict_keys out)
              <-> k = "token"%string
                  \/ exists k0,
                       In k0 (dict_keys [("STID"%string, PStr "WBB"); ("Recent"%string, PInt 30)])
                       /\ k = PyStr.lower k0.
Proof.
  assert (H : exists out log',
             normalize_params sample_repr sample_to_datetime sample_to_timedelta
                              sample_timedelta_of_float sample_token false
                              [("STID"%string, PStr "WBB"); ("Recent"%string, PInt 30)] []
             = (Ok out, log'))
    by (eexists; eexists; vm_compute; reflexivity).
  destruct H as [out [log' H]]. exists out, log'. split; [exact H |].
  apply (request_keys_are_lower_case sample_repr sample_to_datetime sample_to_timedelta
           sample_timedelta_of_float sample_token false _ out [] log' H).
Defined.

Lemma configured_token_is_sent_witness :
  exists out log',
    normalize_params sample_repr sample_to_datetime sample_to_timedelta
                     sample_timedelta_of_float sample_token false
                     [("Token"%string, PStr "mine"); ("stid"%string, PStr "WBB")] []
    = (Ok out, log') /\
    dict_get out "token" = Some sample_token.
Proof.
  assert (H : exists out log',
             normalize_params sample_repr sample_to_datetime sample_to_timedelta
                              sample_timedelta_of_float sample_token false
                              [("Token"%string, PStr "mine"); ("stid"%string, PStr "WBB")] []
             = (Ok out, log'))
    by (eexists; eexists; vm_compute; reflexivity).
  destruct H as [out [log' H]]. exists out, log'. split; [exact H |].
  apply (configured_token_is_sent sample_repr sample_to_datetime sample_to_timedelta
           sample_timedelta_of_float sample_token false
           [("Token"%string, PStr "mine"); ("stid"%string, PStr "WBB")] out [] log' eq_refl H).
Defined.

Lemma plain_values_pass_through_witness :
  exists out log',
    normalize_params sample_repr sample_to_datetime sample_to_timedelta
                     sample_timedelta_of_float sample_token false
                     ([("stid"%string, PStr "KSLC")]
                        ++ ("STID"%string, PList [PStr "WBB"; PStr "KMRY"])
                        :: [("recent"%string, PInt 30)]) []
    = (Ok out, log') /\
    dict_get out (PyStr.lower "STID") = Some (PStr "WBB,KMRY").
Proof.
  assert (H : exists out log',
             normalize_params sample_repr sample_to_datetime sample_to_timedelta
                              sample_timedelta_of_float sample_token false
                              ([("stid"%string, PStr "KSLC")]
                                 ++ ("STID"%string, PList [PStr "WBB"; PStr "KMRY"])
                                 :: [("recent"%string, PInt 30)]) []
             = (Ok out, log'))
    by (eexists; eexists; vm_compute; reflexivity).
  destruct H as [out [log' H]]. exists out, log'. split; [exact H |].
  apply (plain_values_pass_through sample_repr sample_to_datetime sample_to_timedelta
           sample_timedelta_of_float sample_token false
           [("stid"%string, PStr "KSLC")] [("recent"%string, PInt 30)]
           "STID"%string (PList [PStr "WBB"; PStr "KMRY"]) out [] log' H).
  - intros kv [<- | []]. vm_compute. discriminate.
  - left. vm_compute. discriminate.
  - vm_compute. intuition discriminate.
  - vm_compute. intuition discriminate.
  - vm_compute. discriminate.
Defined.

Lemma datetime_keys_become_twelve_digits_witness :
  exists out log' t,
    normalize_params sample_repr sample_to_datetime sample_to_timedelta
                     sample_timedelta_of_float sample_token false
                     [("start"%string, PDatetime sample_start)] []
    = (Ok out, log') /\
    (sample_to_datetime (pad_compact_date (PDatetime sample_start)) = Some (PDatetime t)
     \/ (sample_to_datetime (pad_compact_date (PDatetime sample_start)) = None
         /\ PDatetime sample_start = PDatetime t)) /\
    dict_get out "start" = Some (PStr (strftime_YmdHM t)) /\
    (month t <= 99 -> day t <= 99 -> hour t <= 99 -> minute t <= 99 ->
     PyStr.isnumeric (strftime_YmdHM t) = true /\
     (10 ^ 3 <= year t -> year t < 10 ^ 4 -> String.length (strftime_YmdHM t) = 12) /\
     (year t < 10 ^ 3 -> String.length (strftime_YmdHM t) < 12)).
Proof.
  assert (H : exists out log',
             normalize_params sample_repr sample_to_datetime sample_to_timedelta
                              sample_timedelta_of_float sample_token false
                              [("start"%string, PDatetime sample_start)] []
             = (Ok out, log'))
    by (eexists; eexists; vm_compute; reflexivity).
  destruct H as [out [log' H]].
  destruct (datetime_keys_become_twelve_digits sample_repr sample_to_datetime
              sample_to_timedelta sample_timedelta_of_float sample_token false
              _ out [] log' "start"%string (PDatetime sample_start) H)
    as [t Ht].
  - left. reflexivity.
  - reflexivity.
  - exists out, log', t. split; [exact H | exact Ht].
Defined.

Lemma whole_minutes_are_kept_witness :
  exists out log2,
    normalize_params sample_repr sample_to_datetime sample_to_timedelta
                     sample_timedelta_of_float sample_token true
                     [("token"%string, PStr "abc"); ("recent"%string, PInt 30)] []
    = (Ok out, log2) /\
    forall k, dict_get out k
              = dict_get [("token"%string, PStr "abc"); ("recent"%string, PInt 30)] k.
Proof.
  apply (whole_minutes_are_kept sample_repr sample_to_datetime sample_to_timedelta
           sample_timedelta_of_float sample_token true
           [("token"%string, PStr "abc"); ("recent"%string, PInt 30)]
           [("token"%string, PStr "abc"); ("recent"%string, PInt 30)] [] []).
  - intros ns _. reflexivity.
  - reflexivity.
  - intros i v [<- | [<- | []]] Hget; vm_compute in Hget; [| discriminate].
    injection Hget as <-. exists 30%Z. split; [reflexivity | vm_compute; reflexivity].
Defined.

Lemma returned_response_was_accepted_witness :
  exists f log',
    synoptic_api sample_repr sample_to_datetime sample_to_timedelta
                 sample_timedelta_of_float sample_token sample_accepting_get sample_unquote
                 "latest" false false [("stid"%string, PStr "WBB")] []
    = (Ok f, log') /\
    In "latest"%string _service /\
    ("latest"%string <> "auth"%string -> RESPONSE_CODE f = 1%Z) /\
    exists P log1,
      normalize_params sample_repr sample_to_datetime sample_to_timedelta
                       sample_timedelta_of_float sample_token false
                       [("stid"%string, PStr "WBB")] []
      = (Ok P, log1) /\
      f = sample_accepting_get (service_url "latest") P /\
      dict_mem P "token" = true /\
      (In "latest"%string _stations ->
       service_url "latest"
       = ("https://api.synopticdata.com/v2/stations/" ++ "latest")%string) /\
      (~ In "latest"%string _stations ->
       service_url "latest" = ("https://api.synopticdata.com/v2/" ++ "latest")%string).
Proof.
  assert (H : exists f log',
             synoptic_api sample_repr sample_to_datetime sample_to_timedelta
                          sample_timedelta_of_float sample_token sample_accepting_get
                          sample_unquote "latest" false false
                          [("stid"%string, PStr "WBB")] []
             = (Ok f, log'))
    by (eexists; eexists; vm_compute; reflexivity).
  destruct H as [f [log' H]]. exists f, log'. split; [exact H |].
  apply (returned_response_was_accepted sample_repr sample_to_datetime sample_to_timedelta
           sample_timedelta_of_float sample_token sample_accepting_get sample_unquote
           "latest"%string false false _ f [] log' H).
Defined.

Lemma duplicate_names_are_announced_witness :
  exists t U log',
    series_station sample_sin sample_cos sample_index sample_number
                   true [] [] sample_station sample_units []
    = (Ok (t, U), log') /\
    (NoDup (map fst (df_columns (tb_frame t))) -> log' = []) /\
    (~ NoDup (map fst (df_columns (tb_frame t))) ->
     log' = ([] ++ [Warning "🤹🏼‍♂️ DataFrame contains duplicate column names."])%list).
Proof.
  assert (H : exists t U log',
             series_station sample_sin sample_cos sample_index sample_number
                            true [] [] sample_station sample_units []
             = (Ok (t, U), log'))
    by (eexists; eexists; eexists; lazy; reflexivity).
  destruct H as [t [U [log' H]]]. exists t, U, log'. split; [exact H |].
  apply (duplicate_names_are_announced sample_sin sample_cos sample_index sample_number
           true [] [] sample_station sample_units U t [] log' H).
Defined.

Lemma station_attributes_witness :
  exists t U log' lat lon,
    series_station sample_sin sample_cos sample_index sample_number
                   true [] [] sample_station sample_units []
    = (Ok (t, U), log') /\
    dict_get (st_fields sample_station) "LATITUDE" = Some lat /\
    dict_get (st_fields sample_station) "LONGITUDE" = Some lon /\
    dict_get (tb_attrs t) "latitude"
    = Some (snd (convert_attr sample_number ("LATITUDE"%string, lat))) /\
    dict_get (tb_attrs t) "longitude"
    = Some (snd (convert_attr sample_number ("LONGITUDE"%string, lon))) /\
    dict_get (tb_attrs t) "LATITUDE" = None /\
    dict_get (tb_attrs t) "LONGITUDE" = None /\
    dict_get (tb_attrs t) "STID" = dict_get (st_fields sample_station) "STID".
Proof.
  assert (H : exists t U log',
             series_station sample_sin sample_cos sample_index sample_number
                            true [] [] sample_station sample_units []
             = (Ok (t, U), log'))
    by (eexists; eexists; eexists; lazy; reflexivity).
  destruct H as [t [U [log' H]]].
  destruct (station_attributes sample_sin sample_cos sample_index sample_number
              true [] [] sample_station sample_units U t [] log' H)
    as [lat [lon Hattrs]].
  - unfold dict_keys. cbn [st_fields sample_station map fst]. distinct_labels.
  - intros k _. reflexivity.
  - exists t, U, log', lat, lon. split; [exact H | exact Hattrs].
Defined.

Lemma timeseries_returns_checked_tables_witness :
  exists r log',
    stations_timeseries sample_sin sample_cos sample_repr sample_to_datetime
                        sample_to_timedelta sample_timedelta_of_float sample_token
                        sample_accepting_get sample_unquote sample_index sample_number
                        false sample_json_series false true
                        [("stid"%string, PStr "WBB"); ("recent"%string, PInt 30)] []
    = (Ok r, log') /\
    ((dict_mem [("stid"%string, PStr "WBB"); ("recent"%string, PInt 30)] "start" = true /\
      dict_mem [("stid"%string, PStr "WBB"); ("recent"%string, PInt 30)] "end" = true)
     \/ dict_mem [("stid"%string, PStr "WBB"); ("recent"%string, PInt 30)] "recent" = true) /\
    (exists k, In k (dict_keys [("stid"%string, PStr "WBB"); ("recent"%string, PInt 30)])
               /\ In k _stn_selector) /\
    exists P web,
      web = sample_accepting_get "https://api.synopticdata.com/v2/stations/timeseries" P /\
      RESPONSE_CODE web = 1%Z /\
      match r with
      | OneTable t =>
          length (sd_STATION (sample_json_series web)) = 1 /\
          tb_params t = [("stid"%string, PStr "WBB"); ("recent"%string, PInt 30)] /\
          tb_service t = "stations_timeseries"%string
      | TableList Z =>
          length Z = length (sd_STATION (sample_json_series web)) /\
          length Z <> 1 /\
          Forall (fun t => tb_params t = [("stid"%string, PStr "WBB"); ("recent"%string, PInt 30)]
                           /\ tb_service t = "stations_timeseries"%string) Z
      end.
Proof.
  assert (H : exists r log',
             stations_timeseries sample_sin sample_cos sample_repr sample_to_datetime
                                 sample_to_timedelta sample_timedelta_of_float sample_token
                                 sample_accepting_get sample_unquote sample_index sample_number
                                 false sample_json_series false true
                                 [("stid"%string, PStr "WBB"); ("recent"%string, PInt 30)] []
             = (Ok r, log'))
    by (eexists; eexists; lazy; reflexivity).
  destruct H as [r [log' H]]. exists r, log'. split; [exact H |].
  apply (timeseries_returns_checked_tables sample_sin sample_cos sample_repr sample_to_datetime
           sample_to_timedelta sample_timedelta_of_float sample_token
           sample_accepting_get sample_unquote sample_index sample_number
           false sample_json_series false true _ r [] log' H).
Defined.

Lemma snapshot_requests_default_to_an_hour_witness :
  exists web p log',
    stations_latest_request sample_repr sample_to_datetime sample_to_timedelta
                            sample_timedelta_of_float sample_token sample_accepting_get
                            sample_unquote false false
                            [("stid"%string, PStr "WBB"); ("Within"%string, PInt 30)] []
    = (Ok (web, p), log') /\
    dict_get p "within" = Some (PInt 60) /\
    (forall k, k <> "within"%string ->
               dict_get p k
               = dict_get [("stid"%string, PStr "WBB"); ("Within"%string, PInt 30)] k) /\
    exists P url,
      web = sample_accepting_get url P /\
      dict_get P "within" = Some (PInt 60).
Proof.
  assert (H : exists web p log',
             stations_latest_request sample_repr sample_to_datetime sample_to_timedelta
                                     sample_timedelta_of_float sample_token sample_accepting_get
                                     sample_unquote false false
                                     [("stid"%string, PStr "WBB"); ("Within"%string, PInt 30)] []
             = (Ok (web, p), log'))
    by (eexists; eexists; eexists; vm_compute; reflexivity).
  destruct H as [web [p [log' H]]]. exists web, p, log'. split; [exact H |].
  apply (snapshot_requests_default_to_an_hour sample_repr sample_to_datetime sample_to_timedelta
           sample_timedelta_of_float sample_token sample_accepting_get sample_unquote false
           (fun ns _ => eq_refl) false
           [("stid"%string, PStr "WBB"); ("Within"%string, PInt 30)] p web [] log'
           (or_intror H) eq_refl).
Defined.

Lemma tables_are_sorted_by_label_witness :
  (df_index (sort_columns sample_set_1_and_10) = df_index sample_set_1_and_10 /\
   Permutation (df_columns sample_set_1_and_10) (df_columns (sort_columns sample_set_1_and_10)) /\
   StronglySorted (fun a b => PyStr.leb (fst a) (fst b) = true)
                  (df_columns (sort_columns sample_set_1_and_10)) /\
   (NoDup (map fst (df_columns sample_set_1_and_10)) ->
    forall k, dict_get (df_columns (sort_columns sample_set_1_and_10)) k
              = dict_get (df_columns sample_set_1_and_10) k))
  /\
  (exists df,
      snapshot_station sample_sin sample_cos sample_timestamp sample_float false
                       sample_snapshot = Ok df /\
      StronglySorted (fun a b => PyStr.leb (row_label a) (row_label b) = true) (sf_rows df)).
Proof.
  split.
  - apply (proj1 tables_are_sorted_by_label sample_set_1_and_10).
  - assert (H : exists df,
               snapshot_station sample_sin sample_cos sample_timestamp sample_float false
                                sample_snapshot = Ok df)
      by (eexists; lazy; reflexivity).
    destruct H as [df H]. exists df. split; [exact H |].
    apply (proj2 tables_are_sorted_by_label sample_sin sample_cos sample_timestamp
                 sample_float sample_snapshot df H).
Defined.

Lemma renaming_touches_names_only_witness :
  (exists renames,
      df_RENAMED (_rename_set_1 sample_set_1_and_1d) = Some renames /\
      dict_keys renames = map fst (df_columns sample_set_1_and_1d) /\
      forall i v, nth_error (map fst (df_columns sample_set_1_and_1d)) i = Some v ->
                  exists new,
                    dict_get renames v = Some new /\
                    nth_error (map fst (df_columns (_rename_set_1 sample_set_1_and_1d))) i
                    = Some new)
  /\
  (exists renames,
      sf_RENAMED (_rename_value_1 sample_value_1_and_1d) = Some renames /\
      dict_keys renames = map (@row_label unit) (sf_rows sample_value_1_and_1d) /\
      forall i v, nth_error (map (@row_label unit) (sf_rows sample_value_1_and_1d)) i = Some v ->
                  exists new,
                    dict_get renames v = Some new /\
                    nth_error (map (@row_label unit)
                                   (sf_rows (_rename_value_1 sample_value_1_and_1d))) i
                    = Some new).
Proof.
  split.
  - apply (proj1 renaming_touches_names_only sample_set_1_and_1d). distinct_labels.
  - apply (proj2 renaming_touches_names_only unit sample_value_1_and_1d). distinct_labels.
Defined.

Lemma well_formed_station_gives_a_table_witness :
  exists t U log',
    series_station sample_sin sample_cos sample_index sample_number
                   true [] [] sample_station sample_units [] = (Ok (t, U), log') /\
    (forall c, In c (df_columns (tb_frame t)) ->
               length (snd c) = length (df_index (tb_frame t))) /\
    (forall r, r < length (df_index (tb_frame t)) ->
               row_has_value (df_columns (tb_frame t)) r = true).
Proof.
  apply (well_formed_station_gives_a_table sample_sin sample_cos sample_index sample_number
           true [] [] sample_station sample_station_frame sample_units []).
  - intros l idx H. injection H as <-. rewrite length_map, length_seq. reflexivity.
  - reflexivity.
  - intros _. reflexivity.
  - intros i_spd i_dir [H | []]. injection H as <- <-. split; reflexivity.
  - reflexivity.
  - reflexivity.
Defined.

Lemma quiet_call_prints_nothing_witness :
  exists ws,
    snd (synoptic_api sample_repr sample_to_datetime sample_to_timedelta
                      sample_timedelta_of_float sample_token sample_accepting_get
                      sample_unquote "latest" false true
                      [("stid"%string, PStr "WBB"); ("start"%string, PStr "garbage")] [])
    = ([] ++ ws)%list /\
    Forall (fun e => exists msg, e = Warning msg) ws.
Proof.
  apply (quiet_call_prints_nothing sample_repr sample_to_datetime sample_to_timedelta
           sample_timedelta_of_float sample_token sample_accepting_get sample_unquote
           "latest"%string true
           [("stid"%string, PStr "WBB"); ("start"%string, PStr "garbage")] []
           (fst (synoptic_api sample_repr sample_to_datetime sample_to_timedelta
                              sample_timedelta_of_float sample_token sample_accepting_get
                              sample_unquote "latest" false true
                              [("stid"%string, PStr "WBB"); ("start"%string, PStr "garbage")] []))).
  apply surjective_pairing.
Defined.
